(** * mayara-server-signalk-plugin: discovery, reconciliation and spoke relay

    A shallow embedding of the plugin's JavaScript sources:
    - [spoke-forwarder.js]  (module [SpokeForwarder]),
    - [mayara-client.js]    (module [MayaraClient]),
    - [radar-provider.js]   (module [RadarProvider]),
    - [index.js]            (module [Plugin]).

    JavaScript objects that the code mutates become records threaded through
    a small state-and-exception monad [Js]; everything the code does to its
    surroundings (sockets, timers, the binary stream sink, the debug log, the
    plugin status line) is appended to the [trace] of a [Host]. *)

From Stdlib Require Import QArith.
From stdpp Require Import base strings list gmap pretty.

Open Scope Z_scope.
Open Scope string_scope.
Open Scope list_scope.

(** ** The host: effects, handles, exceptions *)

(** A JavaScript [Error]; only [err.message] is ever read by the sources. *)
Record Error := mkError { message : string }.

(** What reaches the outside world, in the order it happens. *)
Inductive Effect :=
| Debug (msg : string)                          (* debug(msg): diagnostics *)
| NewWebSocket (url : string) (h : option nat)  (* new WebSocket(url); None: it threw *)
| WsClose (h : nat)                             (* ws.close() *)
| SetTimeout (t : nat) (ms : Z)                 (* setTimeout(cb, ms) *)
| ClearTimeout (t : nat)                        (* clearTimeout(t) *)
| EmitData (streamId : string) (data : list Byte.byte) (* binaryStreamManager.emitData *)
| SetInterval (t : nat) (ms : Z)                (* setInterval(cb, ms) *)
| ClearInterval (t : nat)                       (* clearInterval(t) *)
| SetPluginStatus (msg : string)                (* app.setPluginStatus *)
| SetPluginError (msg : string)                 (* app.setPluginError *)
| Register (id : string)                        (* app.radarApi.register *)
| UnRegister (id : string).                     (* app.radarApi.unRegister *)

Record Host := mkHost {
  trace : list Effect;   (* oldest effect first *)
  next_handle : nat      (* next fresh socket or timer handle *)
}.

(** JavaScript values as far as the sources handle them: what [JSON.parse]
    can return, plus [undefined]. [JObj] lists an object's own properties in
    property order. *)
#[warnings="-register-all"]
Inductive JsVal :=
| JUndefined
| JNull
| JBool (b : bool)
| JNum (q : Q)
| JStr (s : string)
| JArr (items : list JsVal)
| JObj (props : list (string * JsVal)).

(** One thing the HTTP transport does to a request that is under way. *)
Inductive ReqEvent :=
| Response (statusCode : Z)   (* the response callback is called *)
| ResData (chunk : string)     (* res 'data': the text that data += chunk appends *)
| ResEnd                       (* res 'end' *)
| ReqError (e : Error)         (* req 'error' *)
| ReqTimeout.                  (* req 'timeout' *)

(** The [options] of [transport.request], the transport chosen and the body
    written to the request. *)
Record Request := mkRequest {
  req_secure : bool;           (* https or http *)
  req_hostname : string;
  req_port : Z;
  req_path : string;
  req_method : string;
  req_timeout : Z;
  req_body : option string     (* req.write(...) *)
}.

(** The parts of the runtime and of the network that the sources call but
    do not define. *)
Record Env := mkEnv {
  (* new WebSocket(url): Some msg when the constructor throws *)
  ws_ctor_error : string -> option string;
  (* ws.close(): Some msg when it throws *)
  ws_close_error : nat -> option string;
  (* what the network does with a request, in order *)
  transport : Request -> list ReqEvent;
  (* JSON.parse: None when it throws *)
  JSON_parse : string -> option JsVal;
  JSON_stringify : JsVal -> string;
  (* string conversion in template literals *)
  ToString : JsVal -> string;
  (* String.prototype.trim *)
  String_trim : string -> string;
  (* a property found on the prototype chain, or on a primitive *)
  proto_get : JsVal -> string -> JsVal;
  (* the message of the TypeError for reading a property of, or listing the
     keys of, null or undefined *)
  TypeError_message : JsVal -> option string -> string
}.

Inductive Completion (A : Type) :=
| Normal (a : A)
| Throw (e : Error)
| Pending.           (* waiting on a promise that never settles *)
Arguments Normal {A} a.
Arguments Throw {A} e.
Arguments Pending {A}.

(** JavaScript code run on a world [W]: it completes, throws, or (only by
    awaiting) never gets to either; the world it leaves behind is kept in
    every case, so a [catch] block sees what the [try] block did before it
    threw. *)
Definition M (W A : Type) : Type := W -> Completion A * W.

Definition ret {W A} (a : A) : M W A := fun w => (Normal a, w).

Definition bind {W A B} (m : M W A) (k : A -> M W B) : M W B :=
  fun w => match m w with
           | (Normal a, w') => k a w'
           | (Throw e, w') => (Throw e, w')
           | (Pending, w') => (Pending, w')
           end.

Definition throw {W A} (e : Error) : M W A := fun w => (Throw e, w).

(** [try { body } catch (err) { handler err }] *)
Definition try_catch {W A} (body : M W A) (handler : Error -> M W A) : M W A :=
  fun w => match body w with
           | (Normal a, w') => (Normal a, w')
           | (Throw e, w') => handler e w'
           | (Pending, w') => (Pending, w')
           end.

(** How a promise ends up. *)
Inductive Settled (A : Type) :=
| Resolved (v : A)
| Rejected (e : Error).
Arguments Resolved {A} v.
Arguments Rejected {A} e.

(** [await p], for a promise that ends up as [p] ([None]: it never settles). *)
Definition await {W A} (p : option (Settled A)) : M W A :=
  fun w => match p with
           | Some (Resolved v) => (Normal v, w)
           | Some (Rejected e) => (Throw e, w)
           | None => (Pending, w)
           end.

Notation "'let*' x ':=' m 'in' k" := (bind m (fun x => k))
  (at level 10, x name, m at level 100, k at level 200, only parsing).

(** [for (const x of xs) { body x }] *)
Fixpoint for_of {W A} (xs : list A) (body : A -> M W unit) : M W unit :=
  match xs with
  | [] => ret tt
  | x :: xs => let* _ := body x in for_of xs body
  end.

(** Code that only touches the host (sockets, timers, sink, logs). *)
Definition Js (A : Type) : Type := M Host A.

Definition emit (e : Effect) : Js unit :=
  fun h => (Normal tt, mkHost (trace h ++ [e]) (next_handle h)).

Definition fresh : Js nat :=
  fun h => (Normal (next_handle h), mkHost (trace h) (S (next_handle h))).

Definition host_after {A} (r : Completion A * Host) : Host := snd r.

(** The effects a computation adds to a host that starts with an empty trace. *)
Definition effects_of {A} (m : Js A) (n : nat) : list Effect :=
  trace (host_after (m (mkHost [] n))).

(** What the [ws] package can hand to a ['message'] listener. *)
Inductive MessageData :=
| ArrayBufferData (bytes : list Byte.byte)   (* data instanceof ArrayBuffer *)
| BufferData (bytes : list Byte.byte)        (* Buffer.isBuffer(data) *)
| TextData (text : string)                   (* a string *)
| FragmentsData (parts : list (list Byte.byte)). (* Buffer[] *)

(** A data frame on the wire. *)
Inductive Frame :=
| TextFrame (bytes : list Byte.byte)      (* opcode 1: UTF-8 text *)
| BinaryFrame (bytes : list Byte.byte).   (* opcode 2 *)

Definition frame_bytes (f : Frame) : list Byte.byte :=
  match f with TextFrame bytes | BinaryFrame bytes => bytes end.

(** What the [ws] package (version 8) passes to a ['message'] listener as
    [data] for a frame received on a socket whose [binaryType] is
    ['arraybuffer'], as [connect] sets it: an ArrayBuffer for a binary
    frame, and a Buffer of the UTF-8 bytes for a text frame. The frame type
    is the listener's second argument, [isBinary], which the listener of
    spoke-forwarder.js does not take. *)
Definition ws_message (f : Frame) : MessageData :=
  match f with
  | TextFrame bytes => BufferData bytes
  | BinaryFrame bytes => ArrayBufferData bytes
  end.

(** ** spoke-forwarder.js *)

Module SpokeForwarder.

Record t := mk {
  radarId : string;
  url : string;
  binaryStreamManager : bool;  (* is the sink reference present? *)
  debug : bool;                (* was a debug function supplied? *)
  reconnectInterval : Z;       (* milliseconds *)
  ws : option nat;             (* null, or the socket's handle *)
  reconnectTimer : option nat; (* null, or the pending timeout *)
  closed : bool;
  connected : bool;
  streamId : string
}.

Record options := mkOptions {
  opt_radarId : string;
  opt_url : string;
  opt_binaryStreamManager : bool;
  opt_debug : bool;
  opt_reconnectInterval : option Z   (* undefined: default 5000 *)
}.

Definition constructor (o : options) : t :=
  {| radarId := opt_radarId o;
     url := opt_url o;
     binaryStreamManager := opt_binaryStreamManager o;
     debug := opt_debug o;
     reconnectInterval := default 5000 (opt_reconnectInterval o);
     ws := None;
     reconnectTimer := None;
     closed := false;
     connected := false;
     streamId := "radars/" +:+ opt_radarId o |}.

Definition set_ws (this : t) (v : option nat) : t :=
  mk (radarId this) (url this) (binaryStreamManager this) (debug this)
     (reconnectInterval this) v (reconnectTimer this) (closed this)
     (connected this) (streamId this).
Definition set_reconnectTimer (this : t) (v : option nat) : t :=
  mk (radarId this) (url this) (binaryStreamManager this) (debug this)
     (reconnectInterval this) (ws this) v (closed this)
     (connected this) (streamId this).
Definition set_closed (this : t) (v : bool) : t :=
  mk (radarId this) (url this) (binaryStreamManager this) (debug this)
     (reconnectInterval this) (ws this) (reconnectTimer this) v
     (connected this) (streamId this).
Definition set_connected (this : t) (v : bool) : t :=
  mk (radarId this) (url this) (binaryStreamManager this) (debug this)
     (reconnectInterval this) (ws this) (reconnectTimer this) (closed this)
     v (streamId this).

(** [this.debug(msg)]; the constructor substitutes a no-op when no debug
    function was passed. *)
Definition log (this : t) (msg : string) : Js unit :=
  if debug this then emit (Debug msg) else ret tt.

Section WithEnv.
Context (env : Env).

(** [new WebSocket(url)]: a fresh socket, or an exception. The trace
    records the attempt either way. *)
Definition new_WebSocket (u : string) : Js nat :=
  match ws_ctor_error env u with
  | Some msg =>
      let* _ := emit (NewWebSocket u None) in
      throw (mkError msg)
  | None =>
      let* h := fresh in
      let* _ := emit (NewWebSocket u (Some h)) in
      ret h
  end.

(** [ws.close()] *)
Definition ws_close (h : nat) : Js unit :=
  let* _ := emit (WsClose h) in
  match ws_close_error env h with
  | Some msg => throw (mkError msg)
  | None => ret tt
  end.

(** The body of [scheduleReconnect]. The timeout's callback is
    [on_reconnectTimer] below. *)
Definition scheduleReconnect (this : t) : Js t :=
  if closed this || bool_decide (is_Some (reconnectTimer this)) then ret this
  else
    let* _ := log this ("Scheduling reconnect for " +:+ radarId this +:+ " in "
                        +:+ pretty (reconnectInterval this) +:+ "ms") in
    let* tm := fresh in
    let* _ := emit (SetTimeout tm (reconnectInterval this)) in
    ret (set_reconnectTimer this (Some tm)).

Definition connect (this : t) : Js t :=
  if closed this then ret this
  else
    let* _ := log this ("Connecting to spoke stream: " +:+ url this) in
    try_catch
      (let* h := new_WebSocket (url this) in
       (* binaryType is set and the four listeners below are attached *)
       ret (set_ws this (Some h)))
      (fun err =>
         let* _ := log this ("Failed to connect to spoke stream for "
                             +:+ radarId this +:+ ": " +:+ message err) in
         if negb (closed this) then scheduleReconnect this else ret this).

Definition start (this : t) : Js t :=
  if closed this then ret this else connect this.

(** [ws.on('open', ...)] *)
Definition on_open (this : t) : Js t :=
  let this := set_connected this true in
  let* _ := log this ("Connected to spoke stream for " +:+ radarId this) in
  ret this.

(** [ws.on('message', ...)] *)
Definition on_message (this : t) (data : MessageData) : Js t :=
  match data with
  | ArrayBufferData bytes =>
      if binaryStreamManager this
      then let* _ := emit (EmitData (streamId this) bytes) in ret this
      else ret this
  | BufferData bytes =>
      if binaryStreamManager this
      then let* _ := emit (EmitData (streamId this) bytes) in ret this
      else ret this
  | TextData _ | FragmentsData _ => ret this
  end.

(** [ws.on('error', ...)] *)
Definition on_error (this : t) (err : Error) : Js t :=
  let* _ := log this ("Spoke stream error for " +:+ radarId this +:+ ": "
                      +:+ message err) in
  ret this.

(** [ws.on('close', ...)] *)
Definition on_close (this : t) (code : Z) (reason : string) : Js t :=
  let this := set_connected this false in
  let* _ := log this ("Spoke stream closed for " +:+ radarId this +:+ ": "
                      +:+ pretty code +:+ " " +:+ reason) in
  if negb (closed this) then scheduleReconnect this else ret this.

(** The callback handed to [setTimeout] by [scheduleReconnect]. *)
Definition on_reconnectTimer (this : t) : Js t :=
  let this := set_reconnectTimer this None in
  if negb (closed this) then connect this else ret this.

Definition isConnected (this : t) : bool := connected this.

Definition stop (this : t) : Js t :=
  let this := set_closed this true in
  let* this :=
    match reconnectTimer this with
    | Some tm =>
        let* _ := emit (ClearTimeout tm) in
        ret (set_reconnectTimer this None)
    | None => ret this
    end in
  let* this :=
    match ws this with
    | Some h =>
        let* _ := try_catch (ws_close h) (fun _ => ret tt) in
        ret (set_ws this None)
    | None => ret this
    end in
  let this := set_connected this false in
  let* _ := log this ("Stopped spoke forwarder for " +:+ radarId this) in
  ret this.

(** Everything that can happen to a forwarder once it exists: its
    listeners and its timer callback being invoked by the event loop. *)
Inductive Event :=
| Open
| Message (data : MessageData)
| SocketError (err : Error)
| Close (code : Z) (reason : string)
| TimerFired.

Definition dispatch (this : t) (ev : Event) : Js t :=
  match ev with
  | Open => on_open this
  | Message data => on_message this data
  | SocketError err => on_error this err
  | Close code reason => on_close this code reason
  | TimerFired => on_reconnectTimer this
  end.

Fixpoint run (this : t) (evs : list Event) : Js t :=
  match evs with
  | [] => ret this
  | ev :: evs => let* this := dispatch this ev in run this evs
  end.

End WithEnv.
End SpokeForwarder.

(** ** JavaScript operators used by the sources *)

Definition truthy (v : JsVal) : bool :=
  match v with
  | JUndefined | JNull => false
  | JBool b => b
  | JNum q => negb (Qeq_bool q 0)
  | JStr s => negb (bool_decide (s = ""))
  | JArr _ | JObj _ => true
  end.

Definition nullish (v : JsVal) : bool :=
  match v with
  | JUndefined | JNull => true
  | _ => false
  end.

(** [a || b] *)
Definition js_or (a b : JsVal) : JsVal := if truthy a then a else b.

(** [a ?? b] *)
Definition js_coalesce (a b : JsVal) : JsVal := if nullish a then b else a.

Fixpoint own_property (props : list (string * JsVal)) (key : string) : option JsVal :=
  match props with
  | [] => None
  | (k, v) :: props => if bool_decide (k = key) then Some v else own_property props key
  end.

(** [Object.keys] of an array or a string: its indices, in decimal. *)
Definition index_keys (n : nat) : list string := (fun i : nat => pretty i) <$> seq 0 n.

(** A JavaScript string is kept as the UTF-8 bytes of its text. How many
    UTF-16 code units a character takes, read off the first of its bytes:
    one for a character of one, two or three bytes, two (a surrogate pair)
    for a character of four, and none for a continuation byte. *)
Definition code_units (a : Ascii.ascii) : nat :=
  let b := Ascii.nat_of_ascii a in
  if Nat.ltb b 128 then 1%nat
  else if Nat.ltb b 192 then 0%nat
  else if Nat.ltb b 240 then 1%nat
  else 2%nat.

(** [s.length]: JavaScript counts UTF-16 code units, not bytes. *)
Fixpoint utf16_length (s : string) : nat :=
  match s with
  | EmptyString => 0%nat
  | String a rest => (code_units a + utf16_length rest)%nat
  end.

Section Operators.
Context (env : Env).

(** [v.key] (and [v[key]]) *)
Definition get {W} (v : JsVal) (key : string) : M W JsVal :=
  match v with
  | JUndefined | JNull => throw (mkError (TypeError_message env v (Some key)))
  | JObj props =>
      match own_property props key with
      | Some x => ret x
      | None => ret (proto_get env v key)
      end
  | _ => ret (proto_get env v key)
  end.

(** [v?.key] (and [v?.[key]]) *)
Definition get_opt {W} (v : JsVal) (key : string) : M W JsVal :=
  if nullish v then ret JUndefined else get v key.

(** [Object.keys(v)] *)
Definition Object_keys {W} (v : JsVal) : M W (list string) :=
  match v with
  | JUndefined | JNull => throw (mkError (TypeError_message env v None))
  | JObj props => ret (props.*1)
  | JArr items => ret (index_keys (length items))
  | JStr s => ret (index_keys (utf16_length s))
  | JBool _ | JNum _ => ret []
  end.
End Operators.

(** ** JavaScript's [Set] and [Map]

    Both iterate in insertion order, so a [Set] is the list of its members
    and a [Map] the list of its entries, oldest first, without repeats. *)

Definition Set_has (s : list string) (x : string) : bool := bool_decide (x ∈ s).

Definition Set_add (x : string) (s : list string) : list string :=
  if Set_has s x then s else s ++ [x].

Definition Set_delete (x : string) (s : list string) : list string :=
  filter (fun y => y <> x) s.

(** [new Set(xs)] *)
Definition new_Set (xs : list string) : list string :=
  foldl (fun s x => Set_add x s) [] xs.

Section JsMap.
Context {V : Type}.

Fixpoint Map_get (m : list (string * V)) (k : string) : option V :=
  match m with
  | [] => None
  | (k', v) :: m => if bool_decide (k' = k) then Some v else Map_get m k
  end.

(** [m.set(k, v)]: an existing entry keeps its place. *)
Fixpoint Map_set (k : string) (v : V) (m : list (string * V)) : list (string * V) :=
  match m with
  | [] => [(k, v)]
  | (k', v') :: m =>
      if bool_decide (k' = k) then (k, v) :: m else (k', v') :: Map_set k v m
  end.

Definition Map_delete (k : string) (m : list (string * V)) : list (string * V) :=
  filter (fun e => e.1 <> k) m.

Definition Map_keys (m : list (string * V)) : list string := m.*1.
Definition Map_values (m : list (string * V)) : list V := m.*2.
End JsMap.

(** ** mayara-client.js *)

Module MayaraClient.

(** The constructor also stores a [debug] function; no method calls it. *)
Record t := mk {
  host : string;
  port : Z;
  secure : bool;
  timeout : Z;
  baseUrl : string
}.

Record options := mkOptions {
  opt_host : string;
  opt_port : Z;
  opt_secure : option bool;   (* default false *)
  opt_timeout : option Z      (* default 10000 *)
}.

Definition constructor (o : options) : t :=
  let secure := default false (opt_secure o) in
  {| host := opt_host o;
     port := opt_port o;
     secure := secure;
     timeout := default 10000 (opt_timeout o);
     baseUrl := (if secure then "https" else "http") +:+ "://" +:+ opt_host o
                +:+ ":" +:+ pretty (opt_port o) |}.

(** The state of one [request] call: the response being read, and the
    promise. *)
Record Pending := mkPending {
  res : option (Z * string);          (* res.statusCode and data so far *)
  promise : option (Settled JsVal)    (* None: not settled yet *)
}.

(** [resolve] and [reject] only act on a promise that is not settled. *)
Definition settle (p : Pending) (s : Settled JsVal) : Pending :=
  match promise p with
  | Some _ => p
  | None => mkPending (res p) (Some s)
  end.

Section WithEnv.
Context (env : Env).

(** The body of the [res.on('end', ...)] listener. *)
Definition on_end (statusCode : Z) (data : string) : Settled JsVal :=
  if bool_decide (200 <= statusCode) && bool_decide (statusCode < 300)
  then
    if bool_decide (data = "") then Resolved JNull
    else match JSON_parse env data with
         | Some v => Resolved v
         | None => Resolved (JStr data)
         end
  else Rejected (mkError ("HTTP " +:+ pretty statusCode +:+ ": " +:+ data)).

Definition on_event (p : Pending) (ev : ReqEvent) : Pending :=
  match ev with
  | Response statusCode =>
      match res p with
      | None => mkPending (Some (statusCode, "")) (promise p)
      | Some _ => p
      end
  | ResData chunk =>
      match res p with
      | Some (statusCode, data) =>
          mkPending (Some (statusCode, data +:+ chunk)) (promise p)
      | None => p
      end
  | ResEnd =>
      match res p with
      | Some (statusCode, data) => settle p (on_end statusCode data)
      | None => p
      end
  | ReqError e => settle p (Rejected e)
  | ReqTimeout => settle p (Rejected (mkError "Request timeout"))
  end.

Definition settlement (evs : list ReqEvent) : option (Settled JsVal) :=
  promise (foldl on_event (mkPending None None) evs).

Definition request (this : t) (method path : string) (body : JsVal) : Js JsVal :=
  let req :=
    {| req_secure := secure this;
       req_hostname := host this;
       req_port := port this;
       req_path := path;
       req_method := method;
       req_timeout := timeout this;
       req_body := if truthy body then Some (JSON_stringify env body) else None |} in
  await (settlement (transport env req)).

Definition getRadars (this : t) : Js JsVal :=
  request this "GET" "/v2/api/radars" JNull.

Definition getCapabilities (this : t) (radarId : string) : Js JsVal :=
  request this "GET" ("/v2/api/radars/" +:+ radarId +:+ "/capabilities") JNull.

Definition getState (this : t) (radarId : string) : Js JsVal :=
  request this "GET" ("/v2/api/radars/" +:+ radarId +:+ "/state") JNull.

Definition setControl (this : t) (radarId controlId : string) (value : JsVal)
  : Js JsVal :=
  request this "PUT" ("/v2/api/radars/" +:+ radarId +:+ "/controls/" +:+ controlId)
          (JObj [("value", value)]).

Definition setControls (this : t) (radarId : string) (controls : JsVal) : Js JsVal :=
  request this "PUT" ("/v2/api/radars/" +:+ radarId +:+ "/controls") controls.

Definition getTargets (this : t) (radarId : string) : Js JsVal :=
  request this "GET" ("/v2/api/radars/" +:+ radarId +:+ "/targets") JNull.

Definition acquireTarget (this : t) (radarId : string) (bearing distance : JsVal)
  : Js JsVal :=
  request this "POST" ("/v2/api/radars/" +:+ radarId +:+ "/targets")
          (JObj [("bearing", bearing); ("distance", distance)]).

Definition cancelTarget (this : t) (radarId : string) (targetId : JsVal) : Js JsVal :=
  request this "DELETE"
          ("/v2/api/radars/" +:+ radarId +:+ "/targets/" +:+ ToString env targetId)
          JNull.
End WithEnv.

Definition getSpokeStreamUrl (this : t) (radarId : string) : string :=
  let wsProtocol := if secure this then "wss" else "ws" in
  wsProtocol +:+ "://" +:+ host this +:+ ":" +:+ pretty (port this)
  +:+ "/v2/api/radars/" +:+ radarId +:+ "/spokes".

Definition getTargetStreamUrl (this : t) (radarId : string) : string :=
  let wsProtocol := if secure this then "wss" else "ws" in
  wsProtocol +:+ "://" +:+ host this +:+ ":" +:+ pretty (port this)
  +:+ "/v2/api/radars/" +:+ radarId +:+ "/targets/stream".

End MayaraClient.

(** ** radar-provider.js *)

Module RadarProvider.
Section WithClient.
Context (env : Env) (client : MayaraClient.t).

(** [debug], which is [app.debug.bind(app)] *)
Definition debug (msg : string) : Js unit := emit (Debug msg).

Definition getRadars : Js JsVal :=
  try_catch
    (let* radars := MayaraClient.getRadars env client in
     let* keys := Object_keys env radars in
     ret (JArr (JStr <$> keys)))
    (fun err =>
       let* _ := debug ("getRadars error: " +:+ message err) in
       ret (JArr [])).

Definition getRadarInfo (radarId : string) : Js JsVal :=
  try_catch
    (let* state := MayaraClient.getState env client radarId in
     if negb (truthy state) then ret JNull
     else
       let* capabilities := MayaraClient.getCapabilities env client radarId in
       let* model := get_opt env capabilities "model" in
       let* name :=
         if truthy model then
           let* make := get env capabilities "make" in
           let* model := get env capabilities "model" in
           ret (JStr (String_trim env (ToString env (js_or make (JStr ""))
                                       +:+ " " +:+ ToString env model)))
         else ret (JStr radarId) in
       let* make := get_opt env capabilities "make" in
       let* status := get env state "status" in
       let* characteristics := get_opt env capabilities "characteristics" in
       let* spokesPerRevolution := get_opt env characteristics "spokesPerRevolution" in
       let* characteristics := get_opt env capabilities "characteristics" in
       let* maxSpokeLength := get_opt env characteristics "maxSpokeLength" in
       let* controls := get env state "controls" in
       let* range := get_opt env controls "range" in
       let* controls := get env state "controls" in
       let* gain := get_opt env controls "gain" in
       let* controls := get env state "controls" in
       let* sea := get_opt env controls "sea" in
       let* controls := get env state "controls" in
       let* rain := get_opt env controls "rain" in
       ret (JObj
              [("id", JStr radarId);
               ("name", name);
               ("brand", js_or make (JStr "Unknown"));
               ("status", js_or status (JStr "standby"));
               ("spokesPerRevolution", js_or spokesPerRevolution (JNum 2048));
               ("maxSpokeLen", js_or maxSpokeLength (JNum 512));
               ("range", js_or range (JNum 1852));
               ("controls",
                JObj [("gain", js_or gain (JObj [("auto", JBool true); ("value", JNum 50)]));
                      ("sea", js_or sea (JObj [("auto", JBool true); ("value", JNum 50)]));
                      ("rain", js_or rain (JObj [("value", JNum 0)]))]);
               ("streamUrl", JUndefined)]))
    (fun err =>
       let* _ := debug ("getRadarInfo error for " +:+ radarId +:+ ": " +:+ message err) in
       ret JNull).

Definition getCapabilities (radarId : string) : Js JsVal :=
  try_catch
    (MayaraClient.getCapabilities env client radarId)
    (fun err =>
       let* _ := debug ("getCapabilities error for " +:+ radarId +:+ ": "
                        +:+ message err) in
       ret JNull).

Definition getState (radarId : string) : Js JsVal :=
  try_catch
    (MayaraClient.getState env client radarId)
    (fun err =>
       let* _ := debug ("getState error for " +:+ radarId +:+ ": " +:+ message err) in
       ret JNull).

Definition getControl (radarId controlId : string) : Js JsVal :=
  try_catch
    (let* state := MayaraClient.getState env client radarId in
     let* controls := get_opt env state "controls" in
     let* value := get_opt env controls controlId in
     ret (js_coalesce value JNull))
    (fun err =>
       let* _ := debug ("getControl error for " +:+ radarId +:+ "/" +:+ controlId
                        +:+ ": " +:+ message err) in
       ret JNull).

Definition setPower (radarId : string) (state : JsVal) : Js JsVal :=
  try_catch
    (let* _ := MayaraClient.setControl env client radarId "power" state in
     ret (JBool true))
    (fun err =>
       let* _ := debug ("setPower error for " +:+ radarId +:+ ": " +:+ message err) in
       ret (JBool false)).

Definition setRange (radarId : string) (range : JsVal) : Js JsVal :=
  try_catch
    (let* _ := MayaraClient.setControl env client radarId "range" range in
     ret (JBool true))
    (fun err =>
       let* _ := debug ("setRange error for " +:+ radarId +:+ ": " +:+ message err) in
       ret (JBool false)).

(** The [value] object built by [setGain], [setSea] and [setRain]:
    [{ mode: x.auto ? 'auto' : 'manual', value: x.value ?? dflt }] *)
Definition mode_and_value (x : JsVal) (dflt : Q) : Js JsVal :=
  let* auto := get env x "auto" in
  let* value := get env x "value" in
  ret (JObj [("mode", JStr (if truthy auto then "auto" else "manual"));
             ("value", js_coalesce value (JNum dflt))]).

Definition setGain (radarId : string) (gain : JsVal) : Js JsVal :=
  try_catch
    (let* value := mode_and_value gain 50 in
     let* _ := MayaraClient.setControl env client radarId "gain" value in
     ret (JBool true))
    (fun err =>
       let* _ := debug ("setGain error for " +:+ radarId +:+ ": " +:+ message err) in
       ret (JBool false)).

Definition setSea (radarId : string) (sea : JsVal) : Js JsVal :=
  try_catch
    (let* value := mode_and_value sea 50 in
     let* _ := MayaraClient.setControl env client radarId "sea" value in
     ret (JBool true))
    (fun err =>
       let* _ := debug ("setSea error for " +:+ radarId +:+ ": " +:+ message err) in
       ret (JBool false)).

Definition setRain (radarId : string) (rain : JsVal) : Js JsVal :=
  try_catch
    (let* value := mode_and_value rain 0 in
     let* _ := MayaraClient.setControl env client radarId "rain" value in
     ret (JBool true))
    (fun err =>
       let* _ := debug ("setRain error for " +:+ radarId +:+ ": " +:+ message err) in
       ret (JBool false)).

Definition setControl (radarId controlId : string) (value : JsVal) : Js JsVal :=
  try_catch
    (let* _ := MayaraClient.setControl env client radarId controlId value in
     ret (JObj [("success", JBool true)]))
    (fun err =>
       let* _ := debug ("setControl error for " +:+ radarId +:+ "/" +:+ controlId
                        +:+ ": " +:+ message err) in
       ret (JObj [("success", JBool false); ("error", JStr (message err))])).

Definition setControls (radarId : string) (controls : JsVal) : Js JsVal :=
  try_catch
    (let* _ := MayaraClient.setControls env client radarId controls in
     ret (JBool true))
    (fun err =>
       let* _ := debug ("setControls error for " +:+ radarId +:+ ": " +:+ message err) in
       ret (JBool false)).

Definition getTargets (radarId : string) : Js JsVal :=
  try_catch
    (MayaraClient.getTargets env client radarId)
    (fun err =>
       let* _ := debug ("getTargets error for " +:+ radarId +:+ ": " +:+ message err) in
       ret JNull).

Definition acquireTarget (radarId : string) (bearing distance : JsVal) : Js JsVal :=
  try_catch
    (let* result := MayaraClient.acquireTarget env client radarId bearing distance in
     let* targetId := get env result "targetId" in
     ret (JObj [("success", JBool true); ("targetId", targetId)]))
    (fun err =>
       let* _ := debug ("acquireTarget error for " +:+ radarId +:+ ": "
                        +:+ message err) in
       ret (JObj [("success", JBool false); ("error", JStr (message err))])).

Definition cancelTarget (radarId : string) (targetId : JsVal) : Js JsVal :=
  try_catch
    (let* _ := MayaraClient.cancelTarget env client radarId targetId in
     ret (JBool true))
    (fun err =>
       let* _ := debug ("cancelTarget error for " +:+ radarId +:+ "/"
                        +:+ ToString env targetId +:+ ": " +:+ message err) in
       ret (JBool false)).
End WithClient.
End RadarProvider.

(** ** index.js *)

Module Settings.
Record t := mk {
  host : option string;
  port : option Z;
  secure : option bool;
  discoveryPollInterval : option Z;   (* seconds *)
  reconnectInterval : option Z        (* seconds *)
}.
End Settings.

Module App.
Record RadarApi := mkRadarApi {
  register_error : option string;     (* Some msg: register throws *)
  unRegister_error : option string    (* Some msg: unRegister throws *)
}.

Record t := mk {
  radarApi : option RadarApi;
  binaryStreamManager : bool          (* is app.binaryStreamManager there? *)
}.
End App.

(** [x || d] for an optional string and an optional number *)
Definition or_string (x : option string) (d : string) : string :=
  match x with
  | Some s => if bool_decide (s = "") then d else s
  | None => d
  end.

Definition or_Z (x : option Z) (d : Z) : Z :=
  match x with
  | Some n => if bool_decide (n = 0) then d else n
  | None => d
  end.

Module Plugin.

Definition id : string := "mayara-server-signalk-plugin".
Definition name : string := "MaYaRa Radar (Server)".

(** The variables of the module's closure. *)
Record t := mk {
  client : option MayaraClient.t;
  provider : option MayaraClient.t;  (* the client the provider's methods use *)
  spokeForwarders : list (string * SpokeForwarder.t);
  discoveryInterval : option nat;
  reconnectInterval : option nat;
  isConnected : bool;
  knownRadars : list string
}.

Definition initial : t := mk None None [] None None false [].

Definition set_client v (s : t) : t :=
  mk v (provider s) (spokeForwarders s) (discoveryInterval s) (reconnectInterval s)
     (isConnected s) (knownRadars s).
Definition set_provider v (s : t) : t :=
  mk (client s) v (spokeForwarders s) (discoveryInterval s) (reconnectInterval s)
     (isConnected s) (knownRadars s).
Definition set_spokeForwarders v (s : t) : t :=
  mk (client s) (provider s) v (discoveryInterval s) (reconnectInterval s)
     (isConnected s) (knownRadars s).
Definition set_discoveryInterval v (s : t) : t :=
  mk (client s) (provider s) (spokeForwarders s) v (reconnectInterval s)
     (isConnected s) (knownRadars s).
Definition set_reconnectInterval v (s : t) : t :=
  mk (client s) (provider s) (spokeForwarders s) (discoveryInterval s) v
     (isConnected s) (knownRadars s).
Definition set_isConnected v (s : t) : t :=
  mk (client s) (provider s) (spokeForwarders s) (discoveryInterval s)
     (reconnectInterval s) v (knownRadars s).
Definition set_knownRadars v (s : t) : t :=
  mk (client s) (provider s) (spokeForwarders s) (discoveryInterval s)
     (reconnectInterval s) (isConnected s) v.

(** Where a reconnect timer's callback was written. *)
Inductive Site := InConnectAndDiscover | InPollForRadarChanges.

(** The callbacks handed to [setInterval]. *)
Inductive Callback :=
| DiscoveryPoll (settings : Settings.t)
| Reconnect (site : Site) (settings : Settings.t).

(** An async function parked at its [await client.getRadars()]. *)
Inductive Continuation :=
| AwaitStartup (settings : Settings.t)
| AwaitPoll (settings : Settings.t)
| AwaitReconnect (site : Site) (settings : Settings.t).

Record World := mkWorld {
  vars : t;
  host : Host;
  intervals : gmap nat Callback;    (* the interval timers that are running *)
  inflight : list Continuation      (* getRadars calls that have not settled *)
}.

Definition P (A : Type) : Type := M World A.

Definition lift {A} (m : Js A) : P A :=
  fun w => let (r, h) := m (host w) in
           (r, mkWorld (vars w) h (intervals w) (inflight w)).

Definition read : P t := fun w => (Normal (vars w), w).

Definition write (f : t -> t) : P unit :=
  fun w => (Normal tt, mkWorld (f (vars w)) (host w) (intervals w) (inflight w)).

(** An [await] completing with [r]. *)
Definition complete {A} (r : Completion A) : P A := fun w => (r, w).

(** Calling an async function without awaiting it: whatever becomes of
    it, the caller goes on. *)
Definition detach (m : P unit) : P unit := fun w => (Normal tt, (m w).2).

Definition park (k : Continuation) : P unit :=
  fun w => (Normal tt, mkWorld (vars w) (host w) (intervals w) (inflight w ++ [k])).

Definition setInterval (cb : Callback) (ms : Z) : P nat :=
  let* tm := lift fresh in
  let* _ := lift (emit (SetInterval tm ms)) in
  fun w => (Normal tm, mkWorld (vars w) (host w) (<[tm := cb]> (intervals w)) (inflight w)).

(** [clearInterval(x)]; clearing [null] does nothing. *)
Definition clearInterval (x : option nat) : P unit :=
  match x with
  | Some tm =>
      let* _ := lift (emit (ClearInterval tm)) in
      fun w => (Normal tt, mkWorld (vars w) (host w) (delete tm (intervals w)) (inflight w))
  | None => ret tt
  end.

Definition discovery_ms (settings : Settings.t) : Z :=
  or_Z (Settings.discoveryPollInterval settings) 10 * 1000.

Definition reconnect_ms (settings : Settings.t) : Z :=
  or_Z (Settings.reconnectInterval settings) 5 * 1000.

Section WithApp.
Context (env : Env) (app : App.t).

Definition debug (msg : string) : P unit := lift (emit (Debug msg)).
Definition setPluginStatus (msg : string) : P unit := lift (emit (SetPluginStatus msg)).
Definition setPluginError (msg : string) : P unit := lift (emit (SetPluginError msg)).

(** The first loop body of [updateRadars]. *)
Definition add_radar (settings : Settings.t) (radarId : string) : P unit :=
  let* s := read in
  if Set_has (knownRadars s) radarId then ret tt
  else
    let* _ := debug ("New radar discovered: " +:+ radarId) in
    let* _ := write (fun s => set_knownRadars (Set_add radarId (knownRadars s)) s) in
    if App.binaryStreamManager app then
      let* c := match client s with
                | Some c => ret c
                | None => throw (mkError (TypeError_message env JNull
                                            (Some "getSpokeStreamUrl")))
                end in
      let forwarder :=
        SpokeForwarder.constructor
          {| SpokeForwarder.opt_radarId := radarId;
             SpokeForwarder.opt_url := MayaraClient.getSpokeStreamUrl c radarId;
             SpokeForwarder.opt_binaryStreamManager := true;
             SpokeForwarder.opt_debug := true;
             SpokeForwarder.opt_reconnectInterval := Some (reconnect_ms settings) |} in
      let* _ := write (fun s => set_spokeForwarders
                                  (Map_set radarId forwarder (spokeForwarders s)) s) in
      (* start() changes the object that the map already holds *)
      let* forwarder := lift (SpokeForwarder.start env forwarder) in
      write (fun s => set_spokeForwarders
                        (Map_set radarId forwarder (spokeForwarders s)) s)
    else debug "binaryStreamManager not available - spoke streaming disabled".

(** The second loop body of [updateRadars]. *)
Definition remove_radar (currentIds : list string) (radarId : string) : P unit :=
  if Set_has currentIds radarId then ret tt
  else
    let* _ := debug ("Radar disconnected: " +:+ radarId) in
    let* _ := write (fun s => set_knownRadars (Set_delete radarId (knownRadars s)) s) in
    let* s := read in
    match Map_get (spokeForwarders s) radarId with
    | Some forwarder =>
        let* _ := lift (SpokeForwarder.stop env forwarder) in
        write (fun s => set_spokeForwarders (Map_delete radarId (spokeForwarders s)) s)
    | None => ret tt
    end.

(** [updateRadars] has no [await] in its body, so a call runs it to the
    end, and the caller's [await] on its result gives way to other
    promise jobs only, never to a timer or an I/O callback. The second loop
    visits the members [knownRadars] had when it began: deleting the member
    being visited does not disturb a JavaScript [Set] iteration. *)
Definition updateRadars (radarIds : list string) (settings : Settings.t) : P unit :=
  let currentIds := new_Set radarIds in
  let* _ := for_of currentIds (add_radar settings) in
  let* s := read in
  for_of (knownRadars s) (remove_radar currentIds).

Definition start_discovery (settings : Settings.t) : P unit :=
  let* tm := setInterval (DiscoveryPoll settings) (discovery_ms settings) in
  write (set_discoveryInterval (Some tm)).

(** The reconnect timer's callback, from the point where
    [await client.getRadars()] completes with [r]. *)
Definition reconnect_resume (site : Site) (settings : Settings.t)
           (r : Completion JsVal) : P unit :=
  try_catch
    (let* radars := complete r in
     let* _ := write (set_isConnected true) in
     let* radarIds := Object_keys env radars in
     let* _ := setPluginStatus ("Connected - " +:+ pretty (length radarIds)
                                +:+ " radar(s) found") in
     let* s := read in
     let* _ := clearInterval (reconnectInterval s) in
     let* _ := write (set_reconnectInterval None) in
     let* _ := updateRadars radarIds settings in
     start_discovery settings)
    (fun e =>
       match site with
       | InConnectAndDiscover => debug ("Reconnect failed: " +:+ message e)
       | InPollForRadarChanges => ret tt
       end).

(** [connectAndDiscover], from the point where
    [await client.getRadars()] completes with [r]. *)
Definition connectAndDiscover_resume (settings : Settings.t)
           (r : Completion JsVal) : P unit :=
  try_catch
    (let* radars := complete r in
     let* _ := write (set_isConnected true) in
     let* radarIds := Object_keys env radars in
     let* _ := setPluginStatus ("Connected - " +:+ pretty (length radarIds)
                                +:+ " radar(s) found") in
     let* _ := updateRadars radarIds settings in
     start_discovery settings)
    (fun err =>
       let* _ := write (set_isConnected false) in
       let* _ := setPluginError ("Cannot connect to mayara-server: "
                                 +:+ message err) in
       let* tm := setInterval (Reconnect InConnectAndDiscover settings)
                              (reconnect_ms settings) in
       write (set_reconnectInterval (Some tm))).

(** [pollForRadarChanges], from the point where
    [await client.getRadars()] completes with [r]. *)
Definition pollForRadarChanges_resume (settings : Settings.t)
           (r : Completion JsVal) : P unit :=
  try_catch
    (let* radars := complete r in
     let* radarIds := Object_keys env radars in
     let* _ := updateRadars radarIds settings in
     setPluginStatus ("Connected - " +:+ pretty (length radarIds) +:+ " radar(s)"))
    (fun err =>
       let* _ := write (set_isConnected false) in
       let* _ := setPluginError ("Lost connection: " +:+ message err) in
       let* s := read in
       let* _ := match discoveryInterval s with
                 | Some tm =>
                     let* _ := clearInterval (Some tm) in
                     write (set_discoveryInterval None)
                 | None => ret tt
                 end in
       let* tm := setInterval (Reconnect InPollForRadarChanges settings)
                              (reconnect_ms settings) in
       write (set_reconnectInterval (Some tm))).

Definition resume (k : Continuation) (r : Completion JsVal) : P unit :=
  match k with
  | AwaitStartup settings => connectAndDiscover_resume settings r
  | AwaitPoll settings => pollForRadarChanges_resume settings r
  | AwaitReconnect site settings => reconnect_resume site settings r
  end.

(** An async function up to its [await client.getRadars()]: with no
    client the call throws at once, into the function's own [catch];
    otherwise the request is on its way and the function is parked. *)
Definition call_getRadars (k : Continuation) : P unit :=
  let* s := read in
  match client s with
  | Some _ => park k
  | None => resume k (Throw (mkError (TypeError_message env JNull (Some "getRadars"))))
  end.

Definition connectAndDiscover (settings : Settings.t) : P unit :=
  call_getRadars (AwaitStartup settings).

Definition pollForRadarChanges (settings : Settings.t) : P unit :=
  call_getRadars (AwaitPoll settings).

Definition callback (cb : Callback) : P unit :=
  match cb with
  | DiscoveryPoll settings => detach (pollForRadarChanges settings)
  | Reconnect site settings => detach (call_getRadars (AwaitReconnect site settings))
  end.

Definition start (settings : Settings.t) : P unit :=
  let* _ := debug "Starting mayara-server-signalk-plugin" in
  let c := MayaraClient.constructor
             {| MayaraClient.opt_host := or_string (Settings.host settings) "localhost";
                MayaraClient.opt_port := or_Z (Settings.port settings) 6502;
                MayaraClient.opt_secure := Some (default false (Settings.secure settings));
                MayaraClient.opt_timeout := None |} in
  let* _ := write (set_client (Some c)) in
  let* _ := write (set_provider (Some c)) in
  match App.radarApi app with
  | None =>
      setPluginError "SignalK Radar API not available (requires SignalK >= 2.0.0)"
  | Some api =>
      let* registered :=
        try_catch
          (let* _ := lift (emit (Register id)) in
           let* _ := match App.register_error api with
                     | Some msg => throw (mkError msg)
                     | None => ret tt
                     end in
           let* _ := debug "Registered as radar provider" in
           ret true)
          (fun err =>
             let* _ := setPluginError ("Failed to register radar provider: "
                                       +:+ message err) in
             ret false) in
      if registered then detach (connectAndDiscover settings) else ret tt
  end.

Definition stop : P unit :=
  let* _ := debug "Stopping mayara-server-signalk-plugin" in
  let* _ := match App.radarApi app with
            | Some api =>
                try_catch
                  (let* _ := lift (emit (UnRegister id)) in
                   match App.unRegister_error api with
                   | Some msg => throw (mkError msg)
                   | None => ret tt
                   end)
                  (fun err => debug ("Error unregistering: " +:+ message err))
            | None => ret tt
            end in
  let* s := read in
  let* _ := match discoveryInterval s with
            | Some tm =>
                let* _ := clearInterval (Some tm) in
                write (set_discoveryInterval None)
            | None => ret tt
            end in
  let* _ := match reconnectInterval s with
            | Some tm =>
                let* _ := clearInterval (Some tm) in
                write (set_reconnectInterval None)
            | None => ret tt
            end in
  let* _ := for_of (Map_values (spokeForwarders s))
                   (fun forwarder =>
                      let* _ := lift (SpokeForwarder.stop env forwarder) in ret tt) in
  let* _ := write (set_spokeForwarders []) in
  let* _ := write (set_knownRadars []) in
  let* _ := write (set_client None) in
  let* _ := write (set_isConnected false) in
  setPluginStatus "Stopped".

(** The body of the [/status] route. *)
Definition status (s : t) : bool * list string * list (string * bool) :=
  (isConnected s, knownRadars s,
   (fun radarId =>
      (radarId,
       match Map_get (spokeForwarders s) radarId with
       | Some forwarder => SpokeForwarder.isConnected forwarder
       | None => false
       end)) <$> Map_keys (spokeForwarders s)).

(** What the event loop can run next. *)
Inductive Event :=
| Start (settings : Settings.t)           (* the server calls plugin.start *)
| Stop                                    (* the server calls plugin.stop *)
| Tick (tm : nat)                         (* interval timer [tm] fires *)
| Settle (i : nat) (evs : list ReqEvent)  (* the [i]-th request in flight
                                             goes through [evs] *)
| Relay (radarId : string) (ev : SpokeForwarder.Event).
                                          (* a socket or timer event of the
                                             forwarder kept for [radarId] *)

Definition unpark (i : nat) : P unit :=
  fun w => (Normal tt, mkWorld (vars w) (host w) (intervals w) (delete i (inflight w))).

Definition completion_of {A} (s : Settled A) : Completion A :=
  match s with
  | Resolved v => Normal v
  | Rejected e => Throw e
  end.

Definition handle (ev : Event) : P unit :=
  match ev with
  | Start settings => start settings
  | Stop => stop
  | Tick tm =>
      fun w => match intervals w !! tm with
               | Some cb => callback cb w
               | None => (Normal tt, w)
               end
  | Settle i evs =>
      fun w => match inflight w !! i, MayaraClient.settlement env evs with
               | Some k, Some r =>
                   (let* _ := unpark i in detach (resume k (completion_of r))) w
               | _, _ => (Normal tt, w)
               end
  | Relay radarId ev =>
      let* s := read in
      match Map_get (spokeForwarders s) radarId with
      | Some forwarder =>
          let* forwarder := lift (SpokeForwarder.dispatch env forwarder ev) in
          write (fun s => set_spokeForwarders
                            (Map_set radarId forwarder (spokeForwarders s)) s)
      | None => ret tt
      end
  end.

Definition step (w : World) (ev : Event) : World := (handle ev w).2.

Definition run (w : World) (evs : list Event) : World := foldl step w evs.

End WithApp.
End Plugin.

(** ** Observations

    Vocabulary for the statements below: what a trace contains, what a
    promise came to, when the plugin's two collections agree. *)

Definition add_effects (h : Host) (es : list Effect) : Host :=
  mkHost (trace h ++ es) (next_handle h).

Definition throws {A} (r : Completion A) : bool :=
  match r with Throw _ => true | _ => false end.

Definition rejects {A} (p : option (Settled A)) : bool :=
  match p with Some (Rejected _) => true | _ => false end.

(** The bytes of a message that the ['message'] listener treats as binary. *)
Definition payload (data : MessageData) : option (list Byte.byte) :=
  match data with
  | ArrayBufferData bytes | BufferData bytes => Some bytes
  | TextData _ | FragmentsData _ => None
  end.

(** The frames that a forwarder hands to the sink for the messages among
    [evs], in order. *)
Definition frames (this : SpokeForwarder.t) (evs : list SpokeForwarder.Event)
  : list Effect :=
  if SpokeForwarder.binaryStreamManager this then
    omap (fun ev => match ev with
                    | SpokeForwarder.Message data =>
                        EmitData (SpokeForwarder.streamId this) <$> payload data
                    | _ => None
                    end) evs
  else [].

Definition is_frame (e : Effect) : bool :=
  match e with EmitData _ _ => true | _ => false end.

(** Opening a socket or arming a reconnect timer. *)
Definition is_connection_attempt (e : Effect) : bool :=
  match e with NewWebSocket _ _ | SetTimeout _ _ => true | _ => false end.

Definition log_line (this : SpokeForwarder.t) (msg : string) : list Effect :=
  if SpokeForwarder.debug this then [Debug msg] else [].

(** What [stop] leaves of a forwarder. *)
Definition stopped (this : SpokeForwarder.t) : SpokeForwarder.t :=
  SpokeForwarder.mk (SpokeForwarder.radarId this) (SpokeForwarder.url this)
    (SpokeForwarder.binaryStreamManager this) (SpokeForwarder.debug this)
    (SpokeForwarder.reconnectInterval this) None None true false
    (SpokeForwarder.streamId this).

Definition stop_effects (this : SpokeForwarder.t) : list Effect :=
  match SpokeForwarder.reconnectTimer this with Some tm => [ClearTimeout tm] | None => [] end
  ++ match SpokeForwarder.ws this with Some s => [WsClose s] | None => [] end
  ++ log_line this ("Stopped spoke forwarder for " +:+ SpokeForwarder.radarId this).

(** What [connect] does to the host of a forwarder that is not closed, when
    [n] is the next free handle: one connection attempt and, if the
    constructor throws and no timer is pending, one reconnect timer. *)
Definition connect_effects (env : Env) (this : SpokeForwarder.t) (n : nat) : list Effect :=
  log_line this ("Connecting to spoke stream: " +:+ SpokeForwarder.url this)
  ++ match ws_ctor_error env (SpokeForwarder.url this) with
     | None => [NewWebSocket (SpokeForwarder.url this) (Some n)]
     | Some msg =>
         [NewWebSocket (SpokeForwarder.url this) None]
         ++ log_line this ("Failed to connect to spoke stream for "
                           +:+ SpokeForwarder.radarId this +:+ ": " +:+ msg)
         ++ match SpokeForwarder.reconnectTimer this with
            | Some _ => []
            | None =>
                log_line this ("Scheduling reconnect for " +:+ SpokeForwarder.radarId this
                               +:+ " in " +:+ pretty (SpokeForwarder.reconnectInterval this)
                               +:+ "ms")
                ++ [SetTimeout n (SpokeForwarder.reconnectInterval this)]
            end
     end.

(** A method call or an event in the life of a forwarder. *)
Inductive Action :=
| CallStart
| CallStop
| Happens (ev : SpokeForwarder.Event).

Definition act (env : Env) (this : SpokeForwarder.t) (a : Action) : Js SpokeForwarder.t :=
  match a with
  | CallStart => SpokeForwarder.start env this
  | CallStop => SpokeForwarder.stop env this
  | Happens ev => SpokeForwarder.dispatch env this ev
  end.

Fixpoint life (env : Env) (this : SpokeForwarder.t) (acts : list Action)
  : Js SpokeForwarder.t :=
  match acts with
  | [] => ret this
  | a :: acts => let* this := act env this a in life env this acts
  end.

(** Is [needle] a substring of [hay]? *)
Fixpoint contains (needle hay : string) : bool :=
  String.prefix needle hay
  || match hay with
     | String _ rest => contains needle rest
     | EmptyString => false
     end.

Definition is_2xx (statusCode : Z) : bool :=
  bool_decide (200 <= statusCode) && bool_decide (statusCode < 300).

(** The text that [data += chunk] builds from the chunks of a response. *)
Definition body_text (chunks : list string) : string := foldr String.append "" chunks.

(** What a 2xx response with body [data] resolves to. *)
Definition body_value (env : Env) (data : string) : JsVal :=
  if bool_decide (data = "") then JNull
  else match JSON_parse env data with
       | Some v => v
       | None => JStr data
       end.

Abbreviation keyset m := (list_to_set (C:=gset string) (Map_keys m)).
Abbreviation members s := (list_to_set (C:=gset string) s).

(** Every known id has a relay and every relay's id is known, with no id
    twice on either side. *)
Definition consistent (s : Plugin.t) : Prop :=
  members (Plugin.knownRadars s) = keyset (Plugin.spokeForwarders s)
  /\ NoDup (Map_keys (Plugin.spokeForwarders s))
  /\ NoDup (Plugin.knownRadars s).

(** [w] with other known ids, relays and host, and all else as it was. *)
Definition touch (w : Plugin.World) known fws h : Plugin.World :=
  Plugin.mkWorld
    (Plugin.mk (Plugin.client (Plugin.vars w)) (Plugin.provider (Plugin.vars w)) fws
       (Plugin.discoveryInterval (Plugin.vars w)) (Plugin.reconnectInterval (Plugin.vars w))
       (Plugin.isConnected (Plugin.vars w)) known)
    h (Plugin.intervals w) (Plugin.inflight w).

Definition frame (w w' : Plugin.World) : Prop :=
  w' = touch w (Plugin.knownRadars (Plugin.vars w')) (Plugin.spokeForwarders (Plugin.vars w'))
             (Plugin.host w').

Definition pass_ok (bsm : bool) (w w' : Plugin.World) : Prop :=
  frame w w' /\ (bsm = true -> consistent (Plugin.vars w) -> consistent (Plugin.vars w')).

(** The forwarder that [updateRadars] builds for a new id. *)
Definition new_forwarder (settings : Settings.t) (c : MayaraClient.t) (radarId : string)
  : SpokeForwarder.t :=
  SpokeForwarder.constructor
    {| SpokeForwarder.opt_radarId := radarId;
       SpokeForwarder.opt_url := MayaraClient.getSpokeStreamUrl c radarId;
       SpokeForwarder.opt_binaryStreamManager := true;
       SpokeForwarder.opt_debug := true;
       SpokeForwarder.opt_reconnectInterval := Some (Plugin.reconnect_ms settings) |}.

(** Does [start] get as far as calling [connectAndDiscover]? *)
Definition discovering (app : App.t) : bool :=
  match App.radarApi app with
  | Some api => bool_decide (App.register_error api = None)
  | None => false
  end.

(** The events of a plugin that has been started and not stopped. *)
Definition is_running (ev : Plugin.Event) : bool :=
  match ev with
  | Plugin.Start _ | Plugin.Stop => false
  | _ => true
  end.

Definition one_timer (s : Plugin.t) : Prop :=
  (is_Some (Plugin.discoveryInterval s) /\ Plugin.reconnectInterval s = None)
  \/ (Plugin.discoveryInterval s = None /\ is_Some (Plugin.reconnectInterval s)).

Definition is_startup (k : Plugin.Continuation) : bool :=
  match k with Plugin.AwaitStartup _ => true | _ => false end.

(** What a resumed async function leaves alone. *)
Definition carries_on (w w' : Plugin.World) : Prop :=
  Plugin.client (Plugin.vars w') = Plugin.client (Plugin.vars w)
  /\ Plugin.inflight w' = Plugin.inflight w.

(** A plugin at rest, as before its first [start]: neither handle set, no
    interval timer running, no request in flight. *)
Definition at_rest (w : Plugin.World) : Prop :=
  Plugin.discoveryInterval (Plugin.vars w) = None
  /\ Plugin.reconnectInterval (Plugin.vars w) = None
  /\ Plugin.intervals w = ∅
  /\ Plugin.inflight w = [].

(** The states of a plugin that was started once and has not been stopped:
    the first request is out, or [start] gave up before sending it, or one
    of the two interval handles is set. *)
Definition timers_inv (app : App.t) (settings : Settings.t) (w : Plugin.World) : Prop :=
  is_Some (Plugin.client (Plugin.vars w))
  /\ ((Plugin.discoveryInterval (Plugin.vars w) = None
       /\ Plugin.reconnectInterval (Plugin.vars w) = None
       /\ Plugin.inflight w = [Plugin.AwaitStartup settings]
       /\ Plugin.intervals w = ∅)
      \/ (Plugin.discoveryInterval (Plugin.vars w) = None
          /\ Plugin.reconnectInterval (Plugin.vars w) = None
          /\ Plugin.inflight w = []
          /\ Plugin.intervals w = ∅
          /\ discovering app = false)
      \/ (one_timer (Plugin.vars w)
          /\ Forall (fun k => is_startup k = false) (Plugin.inflight w))).

(** Further vocabulary. *)

(** A forwarder waiting for its reconnect timer [tm]. *)
Definition waiting (this : SpokeForwarder.t) (tm : nat) : SpokeForwarder.t :=
  SpokeForwarder.mk (SpokeForwarder.radarId this) (SpokeForwarder.url this)
    (SpokeForwarder.binaryStreamManager this) (SpokeForwarder.debug this)
    (SpokeForwarder.reconnectInterval this) (SpokeForwarder.ws this) (Some tm)
    (SpokeForwarder.closed this) false (SpokeForwarder.streamId this).

(** The effects of [k] connection attempts in a row that all fail in the
    constructor, the first one taking handle [n]. *)
Definition failed_attempts (env : Env) (this : SpokeForwarder.t) (n k : nat) : list Effect :=
  concat ((fun i => connect_effects env this (n + i)) <$> seq 0 k).

(** Events that neither end nor break a response. *)
Definition is_progress (ev : ReqEvent) : bool :=
  match ev with
  | Response _ | ResData _ => true
  | ResEnd | ReqError _ | ReqTimeout => false
  end.

Definition is_undefined (v : JsVal) : bool :=
  match v with JUndefined => true | _ => false end.

(** The request that [MayaraClient.request] hands to the transport. *)
Definition request_of (env : Env) (this : MayaraClient.t) (method path : string)
           (body : JsVal) : Request :=
  mkRequest (MayaraClient.secure this) (MayaraClient.host this) (MayaraClient.port this)
    path method (MayaraClient.timeout this)
    (if truthy body then Some (JSON_stringify env body) else None).

Definition is_pending {A} (r : Completion A) : bool :=
  match r with Pending => true | _ => false end.

(** What the second loop of [updateRadars] leaves of [known] after visiting
    [xs]. *)
Definition drop_unseen (currentIds : list string) (known xs : list string) : list string :=
  foldl (fun k x => if Set_has currentIds x then k else Set_delete x k) known xs.

(** What [plugin.stop] says to the radar API. *)
Definition unregister_effects (app : App.t) : list Effect :=
  match App.radarApi app with
  | Some api =>
      UnRegister Plugin.id
      :: match App.unRegister_error api with
         | Some msg => [Debug ("Error unregistering: " +:+ msg)]
         | None => []
         end
  | None => []
  end.

Definition clear_effects (x : option nat) : list Effect :=
  match x with Some tm => [ClearInterval tm] | None => [] end.

(** The running timers once the one behind handle [x] is cleared. *)
Definition cleared (x : option nat) (ti : gmap nat Plugin.Callback)
  : gmap nat Plugin.Callback :=
  match x with Some tm => delete tm ti | None => ti end.

(** Where the reconnect timer that a failed call of [k] sets was written. *)
Definition reconnect_site (k : Plugin.Continuation) : option Plugin.Site :=
  match k with
  | Plugin.AwaitStartup _ => Some Plugin.InConnectAndDiscover
  | Plugin.AwaitPoll _ => Some Plugin.InPollForRadarChanges
  | Plugin.AwaitReconnect _ _ => None
  end.

Definition settings_of (k : Plugin.Continuation) : Settings.t :=
  match k with
  | Plugin.AwaitStartup s | Plugin.AwaitPoll s | Plugin.AwaitReconnect _ s => s
  end.

Definition failure_status (k : Plugin.Continuation) (e : Error) : string :=
  match k with
  | Plugin.AwaitPoll _ => "Lost connection: " +:+ message e
  | _ => "Cannot connect to mayara-server: " +:+ message e
  end.

(** What a failed reconnect attempt logs. *)
Definition reconnect_failure_log (site : Plugin.Site) (msg : string) : list Effect :=
  match site with
  | Plugin.InConnectAndDiscover => [Debug ("Reconnect failed: " +:+ msg)]
  | Plugin.InPollForRadarChanges => []
  end.

(** One firing of interval timer [tm] whose request then goes through
    [evs], [n] times over. *)
Definition rounds (tm : nat) (evs : list ReqEvent) (n : nat) : list Plugin.Event :=
  concat (replicate n [Plugin.Tick tm; Plugin.Settle 0 evs]).

(** The relays' ids with their [isConnected()], in table order. *)
Definition relay_flags (fws : list (string * SpokeForwarder.t)) : list (string * bool) :=
  (fun e => (e.1, SpokeForwarder.isConnected e.2)) <$> fws.

(** ** Sample surroundings *)

(** A backend that refuses connections, except that radar A's state can be
    read; sockets open and close without trouble. *)
Definition backend_down : Env :=
  {| ws_ctor_error := fun _ => None;
     ws_close_error := fun _ => None;
     transport := fun req =>
       if bool_decide (req_path req = "/v2/api/radars/A/state")
       then [Response 200; ResData "{}"; ResEnd]
       else [ReqError (mkError "connect ECONNREFUSED")];
     JSON_parse := fun s => if bool_decide (s = "{}") then Some (JObj []) else None;
     JSON_stringify := fun _ => "{}";
     ToString := fun v => match v with JStr s => s | _ => "7" end;
     String_trim := fun s => s;
     proto_get := fun _ _ => JUndefined;
     TypeError_message := fun _ _ => "Cannot read properties of null" |}.

(** A backend that answers every request with status 200 and a body that is
    not JSON. *)
Definition backend_garbled : Env :=
  {| ws_ctor_error := fun _ => None;
     ws_close_error := fun _ => None;
     transport := fun _ => [Response 200; ResData "not "; ResData "json"; ResEnd];
     JSON_parse := fun s => if bool_decide (s = "{}") then Some (JObj []) else None;
     JSON_stringify := fun _ => "{}";
     ToString := fun v => match v with JStr s => s | _ => "7" end;
     String_trim := fun s => s;
     proto_get := fun _ _ => JUndefined;
     TypeError_message := fun _ _ => "Cannot read properties of null" |}.

Definition sample_settings : Settings.t :=
  Settings.mk (Some "h") (Some 1) None None None.

Definition sample_client : MayaraClient.t :=
  MayaraClient.constructor (MayaraClient.mkOptions "h" 1 (Some false) None).

(** A server with the radar API and the binary stream manager. *)
Definition app_full : App.t := App.mk (Some (App.mkRadarApi None None)) true.

(** A server with the radar API but no binary stream manager. *)
Definition app_no_sink : App.t := App.mk (Some (App.mkRadarApi None None)) false.

Definition fresh_world : Plugin.World :=
  Plugin.mkWorld Plugin.initial (mkHost [] 0) ∅ [].

(** The plugin right after [start]: the first [getRadars] is on its way. *)
Definition started_world (app : App.t) : Plugin.World :=
  Plugin.step backend_down app fresh_world (Plugin.Start sample_settings).

(** Radar A's forwarder, started. *)
Definition sample_forwarder : SpokeForwarder.t :=
  SpokeForwarder.mk "A" "ws://h:1/v2/api/radars/A/spokes" true true 5000
    (Some 0%nat) None false true "radars/A".

Definition sample_forwarder_B : SpokeForwarder.t :=
  SpokeForwarder.mk "B" "ws://h:1/v2/api/radars/B/spokes" true true 5000
    (Some 1%nat) None false false "radars/B".

(** Known ids A and B, one relay each. *)
Definition world_AB : Plugin.World :=
  Plugin.mkWorld
    (Plugin.mk (Some sample_client) (Some sample_client)
       [("A", sample_forwarder); ("B", sample_forwarder_B)] (Some 2%nat) None true
       ["A"; "B"])
    (mkHost [] 3) {[2%nat := Plugin.DiscoveryPoll sample_settings]} [].

(** A backend whose every request goes through [evs]; bodies parse as in
    [backend_down]. *)
Definition backend_answering (evs : list ReqEvent) : Env :=
  {| ws_ctor_error := fun _ => None;
     ws_close_error := fun _ => None;
     transport := fun _ => evs;
     JSON_parse := fun s => if bool_decide (s = "{}") then Some (JObj []) else None;
     JSON_stringify := fun _ => "{}";
     ToString := fun v => match v with JStr s => s | _ => "7" end;
     String_trim := fun s => s;
     proto_get := fun _ _ => JUndefined;
     TypeError_message := fun _ _ => "Cannot read properties of null" |}.

(** Every answer is the empty object. *)
Definition backend_empty : Env := backend_answering [Response 200; ResData "{}"; ResEnd].

(** The character that opens and closes a JSON string. *)
Definition double_quote : string := String (Ascii.ascii_of_nat 34) EmptyString.

(** The list of radars B and A, as the backend sends it, in two chunks. *)
Definition radars_B_A_head : string :=
  "{" +:+ double_quote +:+ "B" +:+ double_quote +:+ ":{},".

Definition radars_B_A_tail : string :=
  double_quote +:+ "A" +:+ double_quote +:+ ":{}}".

(** A backend that lists radars B and A, in this order. *)
Definition backend_two_radars : Env :=
  {| ws_ctor_error := fun _ => None;
     ws_close_error := fun _ => None;
     transport := fun _ =>
       [Response 200; ResData radars_B_A_head; ResData radars_B_A_tail; ResEnd];
     JSON_parse := fun s =>
       if bool_decide (s = radars_B_A_head +:+ radars_B_A_tail)
       then Some (JObj [("B", JObj []); ("A", JObj [])])
       else if bool_decide (s = "{}") then Some (JObj []) else None;
     JSON_stringify := fun _ => "{}";
     ToString := fun v => match v with JStr s => s | _ => "7" end;
     String_trim := fun s => s;
     proto_get := fun _ _ => JUndefined;
     TypeError_message := fun _ _ => "Cannot read properties of null" |}.

(** Every answer is a text of seven characters in ten bytes, and not
    JSON. *)
Definition backend_accented : Env :=
  backend_answering [Response 200; ResData "héllo €"; ResEnd].

(** Every answer is a 204 without a body. *)
Definition backend_silent : Env := backend_answering [Response 204; ResEnd].

(** Every answer stops in the middle of the body. *)
Definition backend_stalled : Env := backend_answering [Response 200; ResData "{"].

(** As [backend_down], and no socket can be opened either. *)
Definition backend_unreachable : Env :=
  {| ws_ctor_error := fun _ => Some "connect ECONNREFUSED";
     ws_close_error := fun _ => None;
     transport := fun _ => [ReqError (mkError "connect ECONNREFUSED")];
     JSON_parse := fun s => if bool_decide (s = "{}") then Some (JObj []) else None;
     JSON_stringify := fun _ => "{}";
     ToString := fun v => match v with JStr s => s | _ => "7" end;
     String_trim := fun s => s;
     proto_get := fun _ _ => JUndefined;
     TypeError_message := fun _ _ => "Cannot read properties of null" |}.

(** Radar A's forwarder as [updateRadars] builds it, not yet started. *)
Definition sample_forwarder_new : SpokeForwarder.t :=
  new_forwarder sample_settings sample_client "A".

(** The plugin after its first [getRadars] has failed: the reconnect timer
    runs. *)
Definition reconnecting_world : Plugin.World :=
  Plugin.run backend_down app_full fresh_world
    [Plugin.Start sample_settings;
     Plugin.Settle 0 [ReqError (mkError "connect ECONNREFUSED")]].

(** * Proofs *)

#[local] Set Warnings "-clear-no-such-hyp".

(** ** The monad and the trace *)

Lemma add_effects_nil h : add_effects h [] = h.
Proof. destruct h; unfold add_effects; simpl. by rewrite app_nil_r. Qed.

Lemma add_effects_app h es1 es2 :
  add_effects (add_effects h es1) es2 = add_effects h (es1 ++ es2).
Proof. unfold add_effects; simpl. by rewrite app_assoc. Qed.

Lemma log_spec this msg h :
  SpokeForwarder.log this msg h = (Normal tt, add_effects h (log_line this msg)).
Proof.
  unfold SpokeForwarder.log, log_line.
  destruct (SpokeForwarder.debug this); [done|].
  by rewrite add_effects_nil.
Qed.

Lemma bind_eq {W A B} (m : M W A) (k : A -> M W B) w a w' :
  m w = (Normal a, w') -> bind m k w = k a w'.
Proof. unfold bind. by intros ->. Qed.

Lemma bind_throw {W A B} (m : M W A) (k : A -> M W B) w e w' :
  m w = (Throw e, w') -> bind m k w = (Throw e, w').
Proof. unfold bind. by intros ->. Qed.

Lemma append_cons a (s1 s2 : string) : String a s1 +:+ s2 = String a (s1 +:+ s2).
Proof. reflexivity. Qed.

Lemma append_nil_r (s : string) : s +:+ "" = s.
Proof. induction s as [|a s IH]; [done|]. by rewrite append_cons, IH. Qed.

Lemma append_assoc (s1 s2 s3 : string) : (s1 +:+ s2) +:+ s3 = s1 +:+ s2 +:+ s3.
Proof. induction s1 as [|a s1 IH]; [done|]. by rewrite !append_cons, IH. Qed.

(** ** The forwarder *)

Lemma stop_spec env this h :
  SpokeForwarder.stop env this h = (Normal (stopped this), add_effects h (stop_effects this)).
Proof.
  destruct this as [rid u bsm dbg ri w tm cl co sid].
  unfold SpokeForwarder.stop, stop_effects, stopped; simpl.
  destruct tm as [tm|], w as [s|]; simpl;
    unfold bind, try_catch, SpokeForwarder.ws_close, bind; simpl;
    try destruct (ws_close_error env s); simpl;
    rewrite log_spec; unfold log_line, add_effects; simpl;
    rewrite <- ?app_assoc; simpl; try done.
  all: destruct h; simpl; done.
Qed.

Lemma on_message_spec this data h :
  SpokeForwarder.on_message this data h
  = (Normal this, add_effects h (frames this [SpokeForwarder.Message data])).
Proof.
  unfold SpokeForwarder.on_message, frames.
  destruct data, (SpokeForwarder.binaryStreamManager this); simpl;
    rewrite ?add_effects_nil; done.
Qed.

(** A listener or timer callback run on a stopped forwarder. *)
Lemma dispatch_closed env this ev h :
  SpokeForwarder.closed this = true ->
  exists this' added,
    SpokeForwarder.dispatch env this ev h = (Normal this', add_effects h added)
    /\ SpokeForwarder.closed this' = true
    /\ SpokeForwarder.ws this' = SpokeForwarder.ws this
    /\ (SpokeForwarder.reconnectTimer this = None -> SpokeForwarder.reconnectTimer this' = None)
    /\ SpokeForwarder.binaryStreamManager this' = SpokeForwarder.binaryStreamManager this
    /\ SpokeForwarder.streamId this' = SpokeForwarder.streamId this
    /\ filter is_connection_attempt added = []
    /\ filter is_frame added = frames this [ev].
Proof.
  intros Hc. destruct this as [rid u bsm dbg ri w tm cl co sid]. simpl in Hc. subst cl.
  destruct ev as [|data|err|code reason|]; simpl.
  - unfold SpokeForwarder.on_open; simpl. unfold bind. rewrite log_spec. simpl.
    eexists _, _. split; [reflexivity|]. unfold frames, log_line; simpl.
    destruct dbg, bsm; simpl; done.
  - rewrite on_message_spec. eexists _, _. split; [reflexivity|].
    unfold frames; simpl. destruct bsm, data; simpl; done.
  - unfold SpokeForwarder.on_error; simpl. unfold bind. rewrite log_spec. simpl.
    eexists _, _. split; [reflexivity|]. unfold frames, log_line; simpl.
    destruct dbg, bsm; simpl; done.
  - unfold SpokeForwarder.on_close; simpl. unfold bind. rewrite log_spec. simpl.
    eexists _, _. split; [reflexivity|]. unfold frames, log_line; simpl.
    destruct dbg, bsm; simpl; done.
  - unfold SpokeForwarder.on_reconnectTimer; simpl.
    exists (SpokeForwarder.mk rid u bsm dbg ri w None true co sid), [].
    rewrite add_effects_nil. unfold frames; simpl. destruct bsm; done.
Qed.

Lemma frames_cons this ev evs : frames this (ev :: evs) = frames this [ev] ++ frames this evs.
Proof.
  unfold frames. destruct (SpokeForwarder.binaryStreamManager this); [|done].
  simpl. by destruct ev as [|[]| | |].
Qed.

Lemma frames_same this this' evs :
  SpokeForwarder.binaryStreamManager this' = SpokeForwarder.binaryStreamManager this ->
  SpokeForwarder.streamId this' = SpokeForwarder.streamId this ->
  frames this' evs = frames this evs.
Proof. unfold frames. by intros -> ->. Qed.

Lemma run_closed env evs : forall this h,
  SpokeForwarder.closed this = true ->
  SpokeForwarder.ws this = None ->
  SpokeForwarder.reconnectTimer this = None ->
  exists this' added,
    SpokeForwarder.run env this evs h = (Normal this', add_effects h added)
    /\ SpokeForwarder.closed this' = true
    /\ SpokeForwarder.ws this' = None
    /\ SpokeForwarder.reconnectTimer this' = None
    /\ filter is_connection_attempt added = []
    /\ filter is_frame added = frames this evs.
Proof.
  induction evs as [|ev evs IH]; intros this h Hc Hw Ht; simpl.
  - exists this, []. rewrite add_effects_nil. unfold frames.
    by destruct (SpokeForwarder.binaryStreamManager this).
  - destruct (dispatch_closed env this ev h Hc)
      as (this1 & added1 & E1 & Hc1 & Hw1 & Ht1 & Hb1 & Hs1 & Hn1 & Hf1).
    destruct (IH this1 (add_effects h added1) Hc1) as
      (this2 & added2 & E2 & Hc2 & Hw2 & Ht2 & Hn2 & Hf2); [congruence|auto|].
    exists this2, (added1 ++ added2).
    rewrite (bind_eq _ _ _ _ _ E1), E2, add_effects_app.
    rewrite !filter_app, Hn1, Hn2, Hf1, Hf2, (frames_cons this ev evs).
    by rewrite (frames_same this this1 evs).
Qed.

Lemma start_total env this h :
  exists this' h', SpokeForwarder.start env this h = (Normal this', h').
Proof.
  unfold SpokeForwarder.start, SpokeForwarder.connect, SpokeForwarder.scheduleReconnect,
    SpokeForwarder.new_WebSocket, SpokeForwarder.log, try_catch, bind, emit, fresh, throw, ret.
  simpl. repeat case_match; simplify_eq; eauto.
Qed.

Lemma dispatch_total env this ev h :
  exists this' h', SpokeForwarder.dispatch env this ev h = (Normal this', h').
Proof.
  destruct ev; simpl;
  unfold SpokeForwarder.on_open, SpokeForwarder.on_message, SpokeForwarder.on_error,
    SpokeForwarder.on_close, SpokeForwarder.on_reconnectTimer,
    SpokeForwarder.connect, SpokeForwarder.scheduleReconnect,
    SpokeForwarder.new_WebSocket, SpokeForwarder.log, try_catch, bind, emit, fresh, throw, ret;
  simpl; repeat case_match; simplify_eq; eauto.
Qed.

Lemma stop_total env this h :
  exists this' h', SpokeForwarder.stop env this h = (Normal this', h').
Proof.
  unfold SpokeForwarder.stop, SpokeForwarder.ws_close, SpokeForwarder.log,
    try_catch, bind, emit, fresh, throw, ret.
  simpl. repeat case_match; simplify_eq; eauto.
Qed.


Lemma start_open env this h :
  SpokeForwarder.closed this = false ->
  exists this' h',
    SpokeForwarder.start env this h = (Normal this', h')
    /\ trace h' = trace h ++ connect_effects env this (next_handle h).
Proof.
  intros Hopen.
  unfold SpokeForwarder.start, SpokeForwarder.connect, SpokeForwarder.scheduleReconnect,
    SpokeForwarder.new_WebSocket, SpokeForwarder.log, connect_effects, log_line,
    try_catch, bind, emit, fresh, throw, ret.
  rewrite Hopen. simpl.
  destruct (SpokeForwarder.debug this), (ws_ctor_error env (SpokeForwarder.url this)),
    (SpokeForwarder.reconnectTimer this); simpl;
    eexists _, _; (split; [reflexivity|]); simpl; rewrite <- ?app_assoc; simpl;
    rewrite ?app_nil_r; reflexivity.
Qed.

Lemma act_total env this a h :
  exists this' h',
    act env this a h = (Normal this', h')
    /\ SpokeForwarder.binaryStreamManager this' = SpokeForwarder.binaryStreamManager this
    /\ SpokeForwarder.streamId this' = SpokeForwarder.streamId this.
Proof.
  destruct a as [| |ev]; [| |destruct ev]; simpl;
  unfold SpokeForwarder.start, SpokeForwarder.stop, SpokeForwarder.ws_close,
    SpokeForwarder.on_open, SpokeForwarder.on_message, SpokeForwarder.on_error,
    SpokeForwarder.on_close, SpokeForwarder.on_reconnectTimer,
    SpokeForwarder.connect, SpokeForwarder.scheduleReconnect,
    SpokeForwarder.new_WebSocket, SpokeForwarder.log, try_catch, bind, emit, fresh, throw, ret;
  simpl; repeat case_match; simplify_eq; eauto.
Qed.

Lemma life_total env acts : forall this h,
  exists this' h',
    life env this acts h = (Normal this', h')
    /\ SpokeForwarder.binaryStreamManager this' = SpokeForwarder.binaryStreamManager this
    /\ SpokeForwarder.streamId this' = SpokeForwarder.streamId this.
Proof.
  induction acts as [|a acts IH]; intros this h; simpl; [by eauto|].
  destruct (act_total env this a h) as (this1 & h1 & E1 & Hb1 & Hs1).
  destruct (IH this1 h1) as (this2 & h2 & E2 & Hb2 & Hs2).
  exists this2, h2. rewrite (bind_eq _ _ _ _ _ E1), E2. split; [done|]. split; congruence.
Qed.

(** C10, as stated, fails: a text frame is not ignored. The [ws] package
    hands its bytes to the listener as a Buffer, and the listener forwards
    a Buffer whatever frame it came in. Here radar A's forwarder passes the
    text frame "hi" on to the sink. *)
Lemma text_frame_forwarded :
  SpokeForwarder.dispatch backend_down sample_forwarder
    (SpokeForwarder.Message (ws_message (TextFrame [Byte.x68; Byte.x69]))) (mkHost [] 1)
  = (Normal sample_forwarder, mkHost [EmitData "radars/A" [Byte.x68; Byte.x69]] 1).
Proof. reflexivity. Qed.

(** C10, amended. Whatever a forwarder has been through since it was
    constructed (calls of start and stop, socket events, timers), its
    ['message'] listener hands a message to the sink exactly when the data
    it receives is an ArrayBuffer or a Buffer and the sink reference is
    present. The bytes are then emitted once, unchanged, under the stream
    id "radars/" + radarId. Data of any other type (a string, an array of
    fragments), and any message when there is no sink, adds nothing to the
    trace; the listener completes normally in every case and leaves the
    forwarder as it was. The listener does not look at the frame type: with
    the sink present every frame that the [ws] package delivers, text or
    binary, is forwarded. *)
Theorem message_forwarded_by_data_type env o acts h0 data :
  exists this h,
    life env (SpokeForwarder.constructor o) acts h0 = (Normal this, h)
    /\ SpokeForwarder.on_message this data h
       = (Normal this,
          add_effects h
            match payload data with
            | Some bytes =>
                if SpokeForwarder.opt_binaryStreamManager o
                then [EmitData ("radars/" +:+ SpokeForwarder.opt_radarId o) bytes]
                else []
            | None => []
            end)
    /\ forall f,
         SpokeForwarder.on_message this (ws_message f) h
         = (Normal this,
            add_effects h
              (if SpokeForwarder.opt_binaryStreamManager o
               then [EmitData ("radars/" +:+ SpokeForwarder.opt_radarId o) (frame_bytes f)]
               else [])).
Proof.
  destruct (life_total env acts (SpokeForwarder.constructor o) h0)
    as (this & h & E & Hb & Hs).
  exists this, h. split; [done|]. split.
  - rewrite on_message_spec. unfold frames. rewrite Hb, Hs. simpl.
    by destruct (SpokeForwarder.opt_binaryStreamManager o), data.
  - intros f. rewrite on_message_spec. unfold frames. rewrite Hb, Hs. simpl.
    by destruct (SpokeForwarder.opt_binaryStreamManager o), f.
Qed.

(** C6. [stop] completes normally on any forwarder and leaves it closed,
    not connected, with no timer and no socket. A second [stop] right after
    completes normally too, leaves the forwarder exactly as the first one
    did, and adds nothing to the trace but its own debug line: no second
    [ws.close()], no [clearTimeout], nothing to the sink. *)
Theorem stop_twice env this h :
  exists this1 h1,
    SpokeForwarder.stop env this h = (Normal this1, h1)
    /\ SpokeForwarder.closed this1 = true
    /\ SpokeForwarder.connected this1 = false
    /\ SpokeForwarder.reconnectTimer this1 = None
    /\ SpokeForwarder.ws this1 = None
    /\ SpokeForwarder.stop env this1 h1
       = (Normal this1,
          add_effects h1 (log_line this ("Stopped spoke forwarder for "
                                           +:+ SpokeForwarder.radarId this))).
Proof.
  exists (stopped this), (add_effects h (stop_effects this)).
  split; [apply stop_spec|]. repeat split.
  rewrite stop_spec. done.
Qed.

(** C3, as stated, fails: radar A's forwarder is connected, [stop] is
    called and returns, and then the old socket still delivers a binary
    message. The listener does not look at [closed], so the frame goes to
    the sink after the "Stopped" line. *)
Lemma frame_forwarded_after_stop :
  effects_of
    (let* this := SpokeForwarder.stop backend_down sample_forwarder in
     SpokeForwarder.dispatch backend_down this
       (SpokeForwarder.Message (BufferData [Byte.x2a]))) 1
  = [WsClose 0; Debug "Stopped spoke forwarder for A"; EmitData "radars/A" [Byte.x2a]].
Proof. reflexivity. Qed.

(** C3, amended. Once [stop] has returned, no later event (an open, close
    or error event or a message of the old socket, or the reconnect timer's
    callback) opens a socket or arms a timer: the forwarder stays closed,
    holds no socket and no timer, and no handle is allocated. The only
    frames that still reach the sink are those of binary messages that the
    old socket delivers after the stop; close, error, open and timer events
    forward nothing. *)
Theorem quiet_after_stop env this evs h :
  exists this1 h1 this2 added,
    SpokeForwarder.stop env this h = (Normal this1, h1)
    /\ SpokeForwarder.run env this1 evs h1 = (Normal this2, add_effects h1 added)
    /\ SpokeForwarder.closed this2 = true
    /\ SpokeForwarder.ws this2 = None
    /\ SpokeForwarder.reconnectTimer this2 = None
    /\ filter is_connection_attempt added = []
    /\ filter is_frame added = frames this evs.
Proof.
  destruct (run_closed env evs (stopped this) (add_effects h (stop_effects this)))
    as (this2 & added & E & Hc & Hw & Ht & Hn & Hf); [done..|].
  exists (stopped this), (add_effects h (stop_effects this)), this2, added.
  split; [apply stop_spec|]. repeat split; try done.
Qed.

(** ** The client *)

Lemma prefix_append x post : String.prefix x (x +:+ post) = true.
Proof.
  induction x as [|a x IH]; simpl; [by destruct post|].
  destruct (Ascii.ascii_dec a a); [done|congruence].
Qed.

Lemma contains_prefix x hay : String.prefix x hay = true -> contains x hay = true.
Proof. intros H. destruct hay; cbn [contains]; by rewrite H. Qed.

Lemma contains_here x post : contains x (x +:+ post) = true.
Proof. apply contains_prefix, prefix_append. Qed.

Lemma contains_append x pre s : contains x s = true -> contains x (pre +:+ s) = true.
Proof.
  intros H. induction pre as [|a pre IH]; [done|].
  change (contains x (String a (pre +:+ s)) = true).
  cbn [contains]. rewrite IH. by rewrite orb_true_r.
Qed.

(** C9. [getSpokeStreamUrl] is a total function of host, port, secure flag
    and radar id: for every id it returns the ws (or, when secure, wss)
    scheme followed by "://host:port/v2/api/radars/id/spokes", so the two
    results differ in the scheme only and each contains the host, the port
    in decimal and the id. For host "h", port 1 and id "x" the results are
    "ws://h:1/v2/api/radars/x/spokes" and "wss://h:1/v2/api/radars/x/spokes". *)
Theorem getSpokeStreamUrl_spec host port tmo id :
  let client secure :=
    MayaraClient.constructor (MayaraClient.mkOptions host port (Some secure) tmo) in
  let rest :=
    "://" +:+ host +:+ ":" +:+ pretty port +:+ "/v2/api/radars/" +:+ id +:+ "/spokes" in
  MayaraClient.getSpokeStreamUrl (client false) id = "ws" +:+ rest
  /\ MayaraClient.getSpokeStreamUrl (client true) id = "wss" +:+ rest
  /\ contains host (MayaraClient.getSpokeStreamUrl (client false) id) = true
  /\ contains (pretty port) (MayaraClient.getSpokeStreamUrl (client false) id) = true
  /\ contains id (MayaraClient.getSpokeStreamUrl (client false) id) = true
  /\ MayaraClient.getSpokeStreamUrl
       (MayaraClient.constructor (MayaraClient.mkOptions "h" 1 (Some false) tmo)) "x"
     = "ws://h:1/v2/api/radars/x/spokes"
  /\ MayaraClient.getSpokeStreamUrl
       (MayaraClient.constructor (MayaraClient.mkOptions "h" 1 (Some true) tmo)) "x"
     = "wss://h:1/v2/api/radars/x/spokes".
Proof.
  cbv [MayaraClient.getSpokeStreamUrl MayaraClient.constructor MayaraClient.secure
       MayaraClient.host MayaraClient.port MayaraClient.opt_host MayaraClient.opt_port
       MayaraClient.opt_secure default].
  repeat split.
  - apply (contains_append _ "ws"), (contains_append _ "://"), contains_here.
  - apply (contains_append _ "ws"), (contains_append _ "://"), contains_append,
      (contains_append _ ":"), contains_here.
  - apply (contains_append _ "ws"), (contains_append _ "://"), contains_append,
      (contains_append _ ":"), contains_append, (contains_append _ "/v2/api/radars/"),
      contains_here.
Qed.

Lemma on_end_spec env statusCode data :
  MayaraClient.on_end env statusCode data
  = if is_2xx statusCode then Resolved (body_value env data)
    else Rejected (mkError ("HTTP " +:+ pretty statusCode +:+ ": " +:+ data)).
Proof.
  unfold MayaraClient.on_end, is_2xx, body_value.
  destruct (bool_decide (200 <= statusCode) && bool_decide (statusCode < 300)); [|done].
  destruct (bool_decide (data = "")); [done|]. by destruct (JSON_parse env data).
Qed.

Lemma settled_stays env evs : forall p s,
  MayaraClient.promise p = Some s ->
  MayaraClient.promise (foldl (MayaraClient.on_event env) p evs) = Some s.
Proof.
  induction evs as [|ev evs IH]; intros p s Hp; [done|].
  simpl. apply IH.
  destruct p as [r pr]; simpl in Hp; subst pr.
  destruct ev; simpl; unfold MayaraClient.settle; simpl;
    repeat match goal with |- context [match ?x with _ => _ end] => destruct x end; done.
Qed.

Lemma chunks_accumulate env chunks : forall statusCode data evs,
  foldl (MayaraClient.on_event env)
        (MayaraClient.mkPending (Some (statusCode, data)) None)
        ((ResData <$> chunks) ++ evs)
  = foldl (MayaraClient.on_event env)
          (MayaraClient.mkPending (Some (statusCode, data +:+ body_text chunks)) None) evs.
Proof.
  induction chunks as [|c chunks IH]; intros statusCode data evs; simpl.
  - by rewrite append_nil_r.
  - rewrite IH. by rewrite append_assoc.
Qed.

(** C5, as stated, fails: the backend answers [getRadars] with status 200
    and the body "not json". [JSON.parse] throws, the [catch] resolves the
    promise with the raw text, and the request does not fail. *)
Lemma garbled_body_resolves :
  MayaraClient.getRadars backend_garbled sample_client (mkHost [] 0)
  = (Normal (JStr "not json"), mkHost [] 0).
Proof. reflexivity. Qed.

(** C5, amended. What a request comes to is decided by the first of these
    that happens. The response ends: with a status outside 200..299 the
    promise rejects with "HTTP <status>: <body>"; with a 2xx status it
    resolves, to null for an empty body, to the parsed value when the body
    parses as JSON, and to the body text itself when it does not. A network
    error: the promise rejects with that error. A timeout: it rejects with
    "Request timeout". So a request rejects exactly on a network error, a
    timeout or a non-2xx status, and never because of the body; whatever
    comes after the promise is settled changes nothing; and [request]
    returns just what the promise came to. *)
Theorem request_settles env statusCode chunks e rest :
  MayaraClient.settlement env (Response statusCode :: (ResData <$> chunks) ++ ResEnd :: rest)
    = Some (if is_2xx statusCode
            then Resolved (body_value env (body_text chunks))
            else Rejected (mkError ("HTTP " +:+ pretty statusCode +:+ ": "
                                    +:+ body_text chunks)))
  /\ rejects (MayaraClient.settlement env
                (Response statusCode :: (ResData <$> chunks) ++ ResEnd :: rest))
     = negb (is_2xx statusCode)
  /\ MayaraClient.settlement env
       (Response statusCode :: (ResData <$> chunks) ++ ReqError e :: rest)
     = Some (Rejected e)
  /\ MayaraClient.settlement env
       (Response statusCode :: (ResData <$> chunks) ++ ReqTimeout :: rest)
     = Some (Rejected (mkError "Request timeout"))
  /\ MayaraClient.settlement env (ReqError e :: rest) = Some (Rejected e)
  /\ MayaraClient.settlement env (ReqTimeout :: rest)
     = Some (Rejected (mkError "Request timeout"))
  /\ (forall this method path body h,
        MayaraClient.request env this method path body h
        = (match MayaraClient.settlement env
                   (transport env
                      (mkRequest (MayaraClient.secure this) (MayaraClient.host this)
                         (MayaraClient.port this) path method (MayaraClient.timeout this)
                         (if truthy body then Some (JSON_stringify env body) else None)))
           with
           | Some (Resolved v) => Normal v
           | Some (Rejected err) => Throw err
           | None => Pending
           end, h)).
Proof.
  assert (MayaraClient.settlement env
            (Response statusCode :: (ResData <$> chunks) ++ ResEnd :: rest)
          = Some (if is_2xx statusCode
                  then Resolved (body_value env (body_text chunks))
                  else Rejected (mkError ("HTTP " +:+ pretty statusCode +:+ ": "
                                          +:+ body_text chunks)))) as Hend.
  { unfold MayaraClient.settlement. simpl. rewrite chunks_accumulate. simpl.
    erewrite settled_stays; [|reflexivity]. by rewrite on_end_spec. }
  split; [done|]. split; [rewrite Hend; by destruct (is_2xx statusCode)|].
  unfold MayaraClient.settlement.
  repeat split.
  - simpl. rewrite chunks_accumulate. simpl. by erewrite settled_stays.
  - simpl. rewrite chunks_accumulate. simpl. by erewrite settled_stays.
  - simpl. by erewrite settled_stays.
  - simpl. by erewrite settled_stays.
  - intros. unfold MayaraClient.request, await, MayaraClient.settlement.
    by repeat case_match.
Qed.

(** ** The provider *)

(** The shape of every [catch] block of the provider: log, then return. *)
Lemma caught {A} (body : Js A) msg (v : A) e h h' :
  body h = (Throw e, h') ->
  try_catch body (fun err => let* _ := RadarProvider.debug (msg err) in ret v) h
  = (Normal v, add_effects h' [Debug (msg e)]).
Proof. unfold try_catch. by intros ->. Qed.

Lemma caught_msg {A} (body : Js A) msg (v : Error -> A) e h h' :
  body h = (Throw e, h') ->
  try_catch body (fun err => let* _ := RadarProvider.debug (msg err) in ret (v err)) h
  = (Normal (v e), add_effects h' [Debug (msg e)]).
Proof. unfold try_catch. by intros ->. Qed.

Lemma never_thrown {A} (body : Js A) msg (v : Error -> A) h :
  throws (try_catch body (fun err => let* _ := RadarProvider.debug (msg err) in
                                     ret (v err)) h).1 = false.
Proof. unfold try_catch. by destruct (body h) as [[] ?]. Qed.

Section Provider.
Context (env : Env) (client : MayaraClient.t).

(** C4, amended. When the backend call behind a provider method rejects,
    the method logs the error and returns its own failure value:
    [getRadars] the empty array; [getRadarInfo] (whether the state or the
    capabilities call failed), [getCapabilities], [getState], [getControl]
    and [getTargets] null; [setControl] and [acquireTarget] the object
    {success: false, error: message}; [setPower], [setRange], [setGain],
    [setSea], [setRain], [setControls] and [cancelTarget] plain false.
    And for any backend and any arguments, no method of the provider
    throws. *)
Theorem provider_failures :
  (forall e h,
      MayaraClient.getRadars env client h = (Throw e, h) ->
      RadarProvider.getRadars env client h
      = (Normal (JArr []), add_effects h [Debug ("getRadars error: " +:+ message e)]))
  /\ (forall radarId e h,
      MayaraClient.getState env client radarId h = (Throw e, h) ->
      RadarProvider.getRadarInfo env client radarId h
      = (Normal JNull,
         add_effects h [Debug ("getRadarInfo error for " +:+ radarId +:+ ": "
                               +:+ message e)]))
  /\ (forall radarId state e h,
      MayaraClient.getState env client radarId h = (Normal state, h) ->
      truthy state = true ->
      MayaraClient.getCapabilities env client radarId h = (Throw e, h) ->
      RadarProvider.getRadarInfo env client radarId h
      = (Normal JNull,
         add_effects h [Debug ("getRadarInfo error for " +:+ radarId +:+ ": "
                               +:+ message e)]))
  /\ (forall radarId e h,
      MayaraClient.getCapabilities env client radarId h = (Throw e, h) ->
      RadarProvider.getCapabilities env client radarId h
      = (Normal JNull,
         add_effects h [Debug ("getCapabilities error for " +:+ radarId +:+ ": "
                               +:+ message e)]))
  /\ (forall radarId e h,
      MayaraClient.getState env client radarId h = (Throw e, h) ->
      RadarProvider.getState env client radarId h
      = (Normal JNull,
         add_effects h [Debug ("getState error for " +:+ radarId +:+ ": "
                               +:+ message e)]))
  /\ (forall radarId controlId e h,
      MayaraClient.getState env client radarId h = (Throw e, h) ->
      RadarProvider.getControl env client radarId controlId h
      = (Normal JNull,
         add_effects h [Debug ("getControl error for " +:+ radarId +:+ "/" +:+ controlId
                               +:+ ": " +:+ message e)]))
  /\ (forall radarId e h,
      MayaraClient.getTargets env client radarId h = (Throw e, h) ->
      RadarProvider.getTargets env client radarId h
      = (Normal JNull,
         add_effects h [Debug ("getTargets error for " +:+ radarId +:+ ": "
                               +:+ message e)]))
  /\ (forall radarId controlId value e h,
      MayaraClient.setControl env client radarId controlId value h = (Throw e, h) ->
      RadarProvider.setControl env client radarId controlId value h
      = (Normal (JObj [("success", JBool false); ("error", JStr (message e))]),
         add_effects h [Debug ("setControl error for " +:+ radarId +:+ "/" +:+ controlId
                               +:+ ": " +:+ message e)]))
  /\ (forall radarId bearing distance e h,
      MayaraClient.acquireTarget env client radarId bearing distance h = (Throw e, h) ->
      RadarProvider.acquireTarget env client radarId bearing distance h
      = (Normal (JObj [("success", JBool false); ("error", JStr (message e))]),
         add_effects h [Debug ("acquireTarget error for " +:+ radarId +:+ ": "
                               +:+ message e)]))
  /\ (forall radarId state e h,
      MayaraClient.setControl env client radarId "power" state h = (Throw e, h) ->
      RadarProvider.setPower env client radarId state h
      = (Normal (JBool false),
         add_effects h [Debug ("setPower error for " +:+ radarId +:+ ": "
                               +:+ message e)]))
  /\ (forall radarId range e h,
      MayaraClient.setControl env client radarId "range" range h = (Throw e, h) ->
      RadarProvider.setRange env client radarId range h
      = (Normal (JBool false),
         add_effects h [Debug ("setRange error for " +:+ radarId +:+ ": "
                               +:+ message e)]))
  /\ (forall radarId gain value e h,
      RadarProvider.mode_and_value env gain 50 h = (Normal value, h) ->
      MayaraClient.setControl env client radarId "gain" value h = (Throw e, h) ->
      RadarProvider.setGain env client radarId gain h
      = (Normal (JBool false),
         add_effects h [Debug ("setGain error for " +:+ radarId +:+ ": "
                               +:+ message e)]))
  /\ (forall radarId sea value e h,
      RadarProvider.mode_and_value env sea 50 h = (Normal value, h) ->
      MayaraClient.setControl env client radarId "sea" value h = (Throw e, h) ->
      RadarProvider.setSea env client radarId sea h
      = (Normal (JBool false),
         add_effects h [Debug ("setSea error for " +:+ radarId +:+ ": "
                               +:+ message e)]))
  /\ (forall radarId rain value e h,
      RadarProvider.mode_and_value env rain 0 h = (Normal value, h) ->
      MayaraClient.setControl env client radarId "rain" value h = (Throw e, h) ->
      RadarProvider.setRain env client radarId rain h
      = (Normal (JBool false),
         add_effects h [Debug ("setRain error for " +:+ radarId +:+ ": "
                               +:+ message e)]))
  /\ (forall radarId controls e h,
      MayaraClient.setControls env client radarId controls h = (Throw e, h) ->
      RadarProvider.setControls env client radarId controls h
      = (Normal (JBool false),
         add_effects h [Debug ("setControls error for " +:+ radarId +:+ ": "
                               +:+ message e)]))
  /\ (forall radarId targetId e h,
      MayaraClient.cancelTarget env client radarId targetId h = (Throw e, h) ->
      RadarProvider.cancelTarget env client radarId targetId h
      = (Normal (JBool false),
         add_effects h [Debug ("cancelTarget error for " +:+ radarId +:+ "/"
                               +:+ ToString env targetId +:+ ": " +:+ message e)]))
  /\ (forall radarId controlId value bearing distance targetId h,
      throws (RadarProvider.getRadars env client h).1 = false
      /\ throws (RadarProvider.getRadarInfo env client radarId h).1 = false
      /\ throws (RadarProvider.getCapabilities env client radarId h).1 = false
      /\ throws (RadarProvider.getState env client radarId h).1 = false
      /\ throws (RadarProvider.getControl env client radarId controlId h).1 = false
      /\ throws (RadarProvider.setPower env client radarId value h).1 = false
      /\ throws (RadarProvider.setRange env client radarId value h).1 = false
      /\ throws (RadarProvider.setGain env client radarId value h).1 = false
      /\ throws (RadarProvider.setSea env client radarId value h).1 = false
      /\ throws (RadarProvider.setRain env client radarId value h).1 = false
      /\ throws (RadarProvider.setControl env client radarId controlId value h).1 = false
      /\ throws (RadarProvider.setControls env client radarId value h).1 = false
      /\ throws (RadarProvider.getTargets env client radarId h).1 = false
      /\ throws (RadarProvider.acquireTarget env client radarId bearing distance h).1
         = false
      /\ throws (RadarProvider.cancelTarget env client radarId targetId h).1 = false).
Proof.
  repeat apply conj; intros.
  - apply (caught _ (fun err => "getRadars error: " +:+ message err)).
    by apply bind_throw.
  - apply (caught _ (fun err => "getRadarInfo error for " +:+ radarId +:+ ": "
                                +:+ message err)).
    by apply bind_throw.
  - apply (caught _ (fun err => "getRadarInfo error for " +:+ radarId +:+ ": "
                                +:+ message err)).
    erewrite bind_eq by eassumption. rewrite H0. simpl. by apply bind_throw.
  - by apply (caught _ (fun err => "getCapabilities error for " +:+ radarId +:+ ": "
                                +:+ message err)).
  - by apply (caught _ (fun err => "getState error for " +:+ radarId +:+ ": "
                                +:+ message err)).
  - apply (caught _ (fun err => "getControl error for " +:+ radarId +:+ "/" +:+ controlId
                                +:+ ": " +:+ message err)).
    by apply bind_throw.
  - by apply (caught _ (fun err => "getTargets error for " +:+ radarId +:+ ": "
                                +:+ message err)).
  - apply (caught_msg _ (fun err => "setControl error for " +:+ radarId +:+ "/"
                                    +:+ controlId +:+ ": " +:+ message err)
                      (fun err => JObj [("success", JBool false);
                                        ("error", JStr (message err))])).
    by apply bind_throw.
  - apply (caught_msg _ (fun err => "acquireTarget error for " +:+ radarId +:+ ": "
                                    +:+ message err)
                      (fun err => JObj [("success", JBool false);
                                        ("error", JStr (message err))])).
    by apply bind_throw.
  - apply (caught _ (fun err => "setPower error for " +:+ radarId +:+ ": "
                                +:+ message err)).
    by apply bind_throw.
  - apply (caught _ (fun err => "setRange error for " +:+ radarId +:+ ": "
                                +:+ message err)).
    by apply bind_throw.
  - apply (caught _ (fun err => "setGain error for " +:+ radarId +:+ ": "
                                +:+ message err)).
    erewrite bind_eq by eassumption. by apply bind_throw.
  - apply (caught _ (fun err => "setSea error for " +:+ radarId +:+ ": "
                                +:+ message err)).
    erewrite bind_eq by eassumption. by apply bind_throw.
  - apply (caught _ (fun err => "setRain error for " +:+ radarId +:+ ": "
                                +:+ message err)).
    erewrite bind_eq by eassumption. by apply bind_throw.
  - apply (caught _ (fun err => "setControls error for " +:+ radarId +:+ ": "
                                +:+ message err)).
    by apply bind_throw.
  - apply (caught _ (fun err => "cancelTarget error for " +:+ radarId +:+ "/"
                                +:+ ToString env targetId +:+ ": " +:+ message err)).
    by apply bind_throw.
  - repeat apply conj;
      first [ apply (never_thrown _ _ (fun _ => _)) | apply never_thrown ].
Qed.
End Provider.

(** C4, as stated, fails twice over: with the backend down, [getRadars]
    returns the empty array, not null, and [setPower] returns plain false,
    not a {success: false} object. *)
Lemma failure_values_differ :
  RadarProvider.getRadars backend_down sample_client (mkHost [] 0)
  = (Normal (JArr []), mkHost [Debug "getRadars error: connect ECONNREFUSED"] 0)
  /\ RadarProvider.setPower backend_down sample_client "A" (JStr "transmit") (mkHost [] 0)
     = (Normal (JBool false),
        mkHost [Debug "setPower error for A: connect ECONNREFUSED"] 0).
Proof. split; reflexivity. Qed.

(** The theorem at work on a backend that refuses connections (only the
    state of radar A can be read, so that [getRadarInfo] gets as far as the
    capabilities). *)
Lemma provider_failures_witness :
  let h := mkHost [] 0 in
  let said msg := mkHost [Debug msg] 0 in
  let auto := JObj [("auto", JBool true)] in
  RadarProvider.getRadars backend_down sample_client h
  = (Normal (JArr []), said "getRadars error: connect ECONNREFUSED")
  /\ RadarProvider.getRadarInfo backend_down sample_client "B" h
     = (Normal JNull, said "getRadarInfo error for B: connect ECONNREFUSED")
  /\ RadarProvider.getRadarInfo backend_down sample_client "A" h
     = (Normal JNull, said "getRadarInfo error for A: connect ECONNREFUSED")
  /\ RadarProvider.getCapabilities backend_down sample_client "A" h
     = (Normal JNull, said "getCapabilities error for A: connect ECONNREFUSED")
  /\ RadarProvider.getState backend_down sample_client "B" h
     = (Normal JNull, said "getState error for B: connect ECONNREFUSED")
  /\ RadarProvider.getControl backend_down sample_client "B" "gain" h
     = (Normal JNull, said "getControl error for B/gain: connect ECONNREFUSED")
  /\ RadarProvider.getTargets backend_down sample_client "A" h
     = (Normal JNull, said "getTargets error for A: connect ECONNREFUSED")
  /\ RadarProvider.setControl backend_down sample_client "A" "gain" (JNum 5) h
     = (Normal (JObj [("success", JBool false); ("error", JStr "connect ECONNREFUSED")]),
        said "setControl error for A/gain: connect ECONNREFUSED")
  /\ RadarProvider.acquireTarget backend_down sample_client "A" (JNum 90) (JNum 1000) h
     = (Normal (JObj [("success", JBool false); ("error", JStr "connect ECONNREFUSED")]),
        said "acquireTarget error for A: connect ECONNREFUSED")
  /\ RadarProvider.setPower backend_down sample_client "A" (JStr "transmit") h
     = (Normal (JBool false), said "setPower error for A: connect ECONNREFUSED")
  /\ RadarProvider.setRange backend_down sample_client "A" (JNum 1852) h
     = (Normal (JBool false), said "setRange error for A: connect ECONNREFUSED")
  /\ RadarProvider.setGain backend_down sample_client "A" auto h
     = (Normal (JBool false), said "setGain error for A: connect ECONNREFUSED")
  /\ RadarProvider.setSea backend_down sample_client "A" auto h
     = (Normal (JBool false), said "setSea error for A: connect ECONNREFUSED")
  /\ RadarProvider.setRain backend_down sample_client "A" auto h
     = (Normal (JBool false), said "setRain error for A: connect ECONNREFUSED")
  /\ RadarProvider.setControls backend_down sample_client "A" (JObj []) h
     = (Normal (JBool false), said "setControls error for A: connect ECONNREFUSED")
  /\ RadarProvider.cancelTarget backend_down sample_client "A" (JNum 7) h
     = (Normal (JBool false), said "cancelTarget error for A/7: connect ECONNREFUSED").
Proof.
  intros h said auto.
  destruct (provider_failures backend_down sample_client)
    as (H1 & H2 & H3 & H4 & H5 & H6 & H7 & H8 & H9 & H10 & H11 & H12 & H13 & H14
        & H15 & H16 & _).
  pose (e := mkError "connect ECONNREFUSED").
  repeat apply conj.
  - apply (H1 e h). reflexivity.
  - apply (H2 "B" e h). reflexivity.
  - apply (H3 "A" (JObj []) e h); reflexivity.
  - apply (H4 "A" e h). reflexivity.
  - apply (H5 "B" e h). reflexivity.
  - apply (H6 "B" "gain" e h). reflexivity.
  - apply (H7 "A" e h). reflexivity.
  - apply (H8 "A" "gain" (JNum 5) e h). reflexivity.
  - apply (H9 "A" (JNum 90) (JNum 1000) e h). reflexivity.
  - apply (H10 "A" (JStr "transmit") e h). reflexivity.
  - apply (H11 "A" (JNum 1852) e h). reflexivity.
  - apply (H12 "A" auto (JObj [("mode", JStr "auto"); ("value", JNum 50)]) e h); reflexivity.
  - apply (H13 "A" auto (JObj [("mode", JStr "auto"); ("value", JNum 50)]) e h); reflexivity.
  - apply (H14 "A" auto (JObj [("mode", JStr "auto"); ("value", JNum 0)]) e h); reflexivity.
  - apply (H15 "A" (JObj []) e h). reflexivity.
  - apply (H16 "A" (JNum 7) e h). reflexivity.
Defined.

(** ** Sets and maps *)

Lemma Set_has_true s x : Set_has s x = true <-> x ∈ s.
Proof. unfold Set_has. by rewrite bool_decide_eq_true. Qed.

Lemma Set_has_false s x : Set_has s x = false <-> x ∉ s.
Proof. unfold Set_has. by rewrite bool_decide_eq_false. Qed.

Lemma members_Set_add x s : members (Set_add x s) = {[x]} ∪ members s.
Proof.
  unfold Set_add. destruct (Set_has s x) eqn:E.
  - apply Set_has_true in E. set_solver.
  - rewrite list_to_set_app_L. set_solver.
Qed.

Lemma NoDup_Set_add x s : NoDup s -> NoDup (Set_add x s).
Proof.
  unfold Set_add. destruct (Set_has s x) eqn:E; [done|].
  apply Set_has_false in E. intros Hs. apply NoDup_app. repeat split; [done| |].
  - intros y Hy ->%list_elem_of_singleton. done.
  - apply NoDup_singleton.
Qed.

Lemma members_Set_delete x s : members (Set_delete x s) = members s ∖ {[x]}.
Proof.
  unfold Set_delete. apply set_eq. intros y.
  rewrite elem_of_list_to_set, list_elem_of_filter, elem_of_difference,
    elem_of_list_to_set, elem_of_singleton. tauto.
Qed.

Lemma NoDup_Set_delete x s : NoDup s -> NoDup (Set_delete x s).
Proof. apply NoDup_filter. Qed.

Section MapFacts.
Context {V : Type}.
Implicit Types m : list (string * V).

Lemma Map_keys_set k v m :
  Map_keys (Map_set k v m) = if Set_has (Map_keys m) k then Map_keys m else Map_keys m ++ [k].
Proof.
  unfold Map_keys, Set_has. induction m as [|[k' v'] m IH]; [done|].
  cbn [Map_set fmap list_fmap fst].
  destruct (decide (k' = k)) as [->|Hne].
  - rewrite !bool_decide_true; [done| |done]. apply list_elem_of_here.
  - rewrite (bool_decide_false (k' = k)) by done.
    cbn [fmap list_fmap fst]. fold (fmap (M:=list) (@fst string V)). rewrite IH.
    destruct (decide (k ∈ m.*1)) as [Hin|Hnin].
    + rewrite !bool_decide_true; [done| |done]. by apply list_elem_of_further.
    + rewrite !bool_decide_false; [done| |done].
      intros [->|?]%elem_of_cons; done.
Qed.

Lemma keyset_Map_set k v m : keyset (Map_set k v m) = {[k]} ∪ keyset m.
Proof.
  rewrite Map_keys_set. destruct (Set_has _ k) eqn:E.
  - apply Set_has_true in E. set_solver.
  - rewrite list_to_set_app_L. set_solver.
Qed.

Lemma NoDup_Map_set k v m : NoDup (Map_keys m) -> NoDup (Map_keys (Map_set k v m)).
Proof.
  rewrite Map_keys_set. destruct (Set_has _ k) eqn:E; [done|].
  apply Set_has_false in E. intros Hm. apply NoDup_app. repeat split; [done| |].
  - intros y Hy ->%list_elem_of_singleton. done.
  - apply NoDup_singleton.
Qed.

Lemma Map_keys_delete k m : Map_keys (Map_delete k m) = Set_delete k (Map_keys m).
Proof.
  unfold Map_keys, Map_delete, Set_delete.
  induction m as [|[k' v'] m IH]; [done|].
  rewrite fmap_cons, !filter_cons. cbn [fst].
  destruct (decide (k' <> k)); [rewrite fmap_cons|]; by rewrite IH.
Qed.

Lemma Map_get_None k m : Map_get m k = None -> k ∉ Map_keys m.
Proof.
  unfold Map_keys. induction m as [|[k' v'] m IH]; simpl; [intros _; apply not_elem_of_nil|].
  case_bool_decide; [done|]. intros Hm [->|?]%elem_of_cons; [done|]. by apply IH.
Qed.
End MapFacts.

(** ** Reconciliation *)

Lemma frame_refl w : frame w w.
Proof. by destruct w as [[] ? ? ?]. Qed.

Lemma frame_trans w1 w2 w3 : frame w1 w2 -> frame w2 w3 -> frame w1 w3.
Proof. unfold frame, touch. intros -> ->. done. Qed.

Lemma pass_ok_refl bsm w : pass_ok bsm w w.
Proof. split; [apply frame_refl|done]. Qed.

Lemma pass_ok_trans bsm w1 w2 w3 : pass_ok bsm w1 w2 -> pass_ok bsm w2 w3 -> pass_ok bsm w1 w3.
Proof. intros [F1 C1] [F2 C2]. split; [by eapply frame_trans|auto]. Qed.

Lemma frame_client w w' :
  frame w w' -> Plugin.client (Plugin.vars w') = Plugin.client (Plugin.vars w).
Proof. by intros ->. Qed.

Lemma for_of_inv {W A} (I : W -> Prop) (body : A -> M W unit) xs :
  (forall x w, I w -> exists w', body x w = (Normal tt, w') /\ I w') ->
  forall w, I w -> exists w', for_of xs body w = (Normal tt, w') /\ I w'.
Proof.
  intros Hbody. induction xs as [|x xs IH]; intros w Hw; simpl.
  - by exists w.
  - destruct (Hbody x w Hw) as (w1 & E1 & H1).
    destruct (IH w1 H1) as (w2 & E2 & H2).
    exists w2. by rewrite (bind_eq _ _ _ _ _ E1).
Qed.

Section Reconcile.
Context (env : Env) (app : App.t) (settings : Settings.t).

Lemma add_radar_ok radarId w :
  is_Some (Plugin.client (Plugin.vars w)) ->
  exists w', Plugin.add_radar env app settings radarId w = (Normal tt, w')
             /\ pass_ok (App.binaryStreamManager app) w w'.
Proof.
  destruct w as [[c p fws d r ic known] h ti infl]. simpl. intros [c0 ->].
  unfold Plugin.add_radar. unfold bind at 1. simpl.
  destruct (Set_has known radarId) eqn:Ehas.
  { eexists. split; [reflexivity|apply pass_ok_refl]. }
  destruct (App.binaryStreamManager app) eqn:Ebsm.
  - unfold bind, Plugin.debug, Plugin.lift, Plugin.write, Plugin.read, emit, ret, throw.
    cbn -[SpokeForwarder.start SpokeForwarder.constructor String.append].
    match goal with
    | |- context [SpokeForwarder.start env ?fw ?h0] =>
        destruct (start_total env fw h0) as (fw' & h' & Estart); rewrite Estart
    end.
    cbn -[SpokeForwarder.constructor String.append].
    eexists. split; [reflexivity|]. split; [reflexivity|].
    intros _ (Heq & Hk & Hn); simpl in *. repeat split; simpl.
    + rewrite members_Set_add, !keyset_Map_set, Heq. set_solver.
    + by do 2 apply NoDup_Map_set.
    + by apply NoDup_Set_add.
  - unfold bind, Plugin.debug, Plugin.lift, Plugin.write, emit, ret; simpl.
    eexists. split; [reflexivity|]. split; [reflexivity|]. done.
Qed.

Lemma remove_radar_ok currentIds radarId w :
  exists w', Plugin.remove_radar env currentIds radarId w = (Normal tt, w')
             /\ pass_ok (App.binaryStreamManager app) w w'.
Proof.
  destruct w as [[c p fws d r ic known] h ti infl].
  unfold Plugin.remove_radar.
  destruct (Set_has currentIds radarId).
  { eexists. split; [reflexivity|apply pass_ok_refl]. }
  unfold bind, Plugin.debug, Plugin.lift, Plugin.write, Plugin.read, emit, ret.
  cbn -[SpokeForwarder.stop String.append Map_delete Set_delete Map_get].
  destruct (Map_get fws radarId) as [fw|] eqn:Eget.
  - match goal with
    | |- context [SpokeForwarder.stop env ?fw ?h0] =>
        destruct (stop_total env fw h0) as (fw' & h' & Estop); rewrite Estop
    end.
    cbn -[String.append Map_delete Set_delete].
    eexists. split; [reflexivity|]. split; [reflexivity|].
    intros _ (Heq & Hk & Hn). unfold consistent in *.
    cbn [Plugin.knownRadars Plugin.spokeForwarders Plugin.vars Plugin.set_knownRadars
         Plugin.set_spokeForwarders Plugin.client Plugin.provider Plugin.discoveryInterval
         Plugin.reconnectInterval Plugin.isConnected] in *. repeat split.
    + by rewrite Map_keys_delete, !members_Set_delete, Heq.
    + rewrite Map_keys_delete. by apply NoDup_Set_delete.
    + by apply NoDup_Set_delete.
  - cbn -[String.append Map_delete Set_delete].
    eexists. split; [reflexivity|]. split; [reflexivity|].
    intros _ (Heq & Hk & Hn). unfold consistent in *.
    cbn [Plugin.knownRadars Plugin.spokeForwarders Plugin.vars Plugin.set_knownRadars
         Plugin.set_spokeForwarders Plugin.client Plugin.provider Plugin.discoveryInterval
         Plugin.reconnectInterval Plugin.isConnected] in *. repeat split.
    + rewrite members_Set_delete, Heq. apply Map_get_None in Eget. set_solver.
    + done.
    + by apply NoDup_Set_delete.
Qed.

Lemma updateRadars_ok radarIds w :
  is_Some (Plugin.client (Plugin.vars w)) ->
  exists w', Plugin.updateRadars env app radarIds settings w = (Normal tt, w')
             /\ pass_ok (App.binaryStreamManager app) w w'.
Proof.
  intros Hc. unfold Plugin.updateRadars.
  pose (I := fun w' => is_Some (Plugin.client (Plugin.vars w'))
                       /\ pass_ok (App.binaryStreamManager app) w w').
  assert (I w) as Hw by (split; [done|apply pass_ok_refl]).
  destruct (for_of_inv I (Plugin.add_radar env app settings) (new_Set radarIds)) with (w := w)
    as (w1 & E1 & Hc1 & H1); [|done|].
  { intros x w0 [Hc0 H0]. destruct (add_radar_ok x w0 Hc0) as (w' & E & H').
    exists w'. split; [done|]. split.
    - by rewrite (frame_client _ _ (proj1 H')).
    - by eapply pass_ok_trans. }
  rewrite (bind_eq _ _ _ _ _ E1). unfold bind at 1, Plugin.read.
  destruct (for_of_inv (pass_ok (App.binaryStreamManager app) w)
              (Plugin.remove_radar env (new_Set radarIds))
              (Plugin.knownRadars (Plugin.vars w1))) with (w := w1)
    as (w2 & E2 & H2); [|done|].
  { intros x w0 H0. destruct (remove_radar_ok (new_Set radarIds) x w0) as (w' & E & H').
    exists w'. split; [done|]. by eapply pass_ok_trans. }
  by exists w2.
Qed.
End Reconcile.

(** C1, as stated, fails: on a server without a binary stream manager the
    plugin starts, and its first pass sees radar A. The id enters
    [knownRadars], the branch that builds the relay is skipped, and the two
    collections, equal before the pass, differ after it. *)
Lemma known_without_relay :
  exists w',
    Plugin.updateRadars backend_down app_no_sink ["A"] sample_settings
      (started_world app_no_sink)
    = (Normal tt, w')
    /\ Plugin.knownRadars (Plugin.vars (started_world app_no_sink)) = []
    /\ Plugin.spokeForwarders (Plugin.vars (started_world app_no_sink)) = []
    /\ Plugin.knownRadars (Plugin.vars w') = ["A"]
    /\ Plugin.spokeForwarders (Plugin.vars w') = [].
Proof. eexists. split; [reflexivity|]. repeat split. Qed.

(** C1, amended. A reconciliation pass that runs while the server offers
    its binary stream manager, on a plugin that has its client, completes
    normally; and if, before the pass, [knownRadars] and the keys of
    [spokeForwarders] were the same set, with no id twice on either side,
    then they are after it: every known id has exactly one relay and every
    relay's id is known. *)
Theorem reconciliation_keeps_relays_matched env app radarIds settings w :
  App.binaryStreamManager app = true ->
  is_Some (Plugin.client (Plugin.vars w)) ->
  consistent (Plugin.vars w) ->
  exists w',
    Plugin.updateRadars env app radarIds settings w = (Normal tt, w')
    /\ consistent (Plugin.vars w').
Proof.
  intros Hbsm Hc Hcons.
  destruct (updateRadars_ok env app settings radarIds w Hc) as (w' & E & _ & H).
  exists w'. split; [done|]. apply H; done.
Qed.

Lemma Set_has_in s x : x ∈ s -> Set_has s x = true.
Proof. apply Set_has_true. Qed.

Lemma Set_has_out s x : x ∉ s -> Set_has s x = false.
Proof. apply Set_has_false. Qed.

Ltac plugin_cbn :=
  cbn [Plugin.vars Plugin.knownRadars Plugin.client Plugin.host Plugin.spokeForwarders
       Plugin.intervals Plugin.inflight Plugin.provider Plugin.discoveryInterval
       Plugin.reconnectInterval Plugin.isConnected
       Plugin.set_knownRadars Plugin.set_spokeForwarders Plugin.set_client
       Plugin.set_provider Plugin.set_discoveryInterval Plugin.set_reconnectInterval
       Plugin.set_isConnected trace next_handle].

Section Steps.
Context (env : Env) (app : App.t) (settings : Settings.t).

Lemma add_radar_known radarId w :
  Set_has (Plugin.knownRadars (Plugin.vars w)) radarId = true ->
  Plugin.add_radar env app settings radarId w = (Normal tt, w).
Proof. unfold Plugin.add_radar, bind, Plugin.read. by intros ->. Qed.

Lemma add_radar_new radarId w c fw' h' :
  Set_has (Plugin.knownRadars (Plugin.vars w)) radarId = false ->
  App.binaryStreamManager app = true ->
  Plugin.client (Plugin.vars w) = Some c ->
  SpokeForwarder.start env (new_forwarder settings c radarId)
    (add_effects (Plugin.host w) [Debug ("New radar discovered: " +:+ radarId)])
  = (Normal fw', h') ->
  Plugin.add_radar env app settings radarId w
  = (Normal tt,
     touch w (Set_add radarId (Plugin.knownRadars (Plugin.vars w)))
       (Map_set radarId fw'
          (Map_set radarId (new_forwarder settings c radarId)
             (Plugin.spokeForwarders (Plugin.vars w)))) h').
Proof.
  destruct w as [[c0 p fws d r ic known] h ti infl].
  cbn [Plugin.vars Plugin.knownRadars Plugin.client Plugin.host Plugin.spokeForwarders].
  intros Hnew Hbsm -> Estart.
  unfold Plugin.add_radar, bind, Plugin.read, Plugin.debug, Plugin.lift, Plugin.write,
    emit, ret.
  plugin_cbn.
  rewrite Hnew, Hbsm. plugin_cbn.
  fold (add_effects h [Debug ("New radar discovered: " +:+ radarId)]).
  fold (new_forwarder settings c radarId). by rewrite Estart.
Qed.

Lemma remove_radar_current currentIds radarId w :
  Set_has currentIds radarId = true ->
  Plugin.remove_radar env currentIds radarId w = (Normal tt, w).
Proof. unfold Plugin.remove_radar. by intros ->. Qed.

Lemma remove_radar_gone currentIds radarId w fw fw' h' :
  Set_has currentIds radarId = false ->
  Map_get (Plugin.spokeForwarders (Plugin.vars w)) radarId = Some fw ->
  SpokeForwarder.stop env fw
    (add_effects (Plugin.host w) [Debug ("Radar disconnected: " +:+ radarId)])
  = (Normal fw', h') ->
  Plugin.remove_radar env currentIds radarId w
  = (Normal tt,
     touch w (Set_delete radarId (Plugin.knownRadars (Plugin.vars w)))
       (Map_delete radarId (Plugin.spokeForwarders (Plugin.vars w))) h').
Proof.
  destruct w as [[c0 p fws d r ic known] h ti infl].
  cbn [Plugin.vars Plugin.knownRadars Plugin.client Plugin.host Plugin.spokeForwarders].
  intros Hgone Hget Estop.
  unfold Plugin.remove_radar, bind, Plugin.read, Plugin.debug, Plugin.lift, Plugin.write,
    emit, ret.
  plugin_cbn.
  rewrite Hgone. plugin_cbn. rewrite Hget. plugin_cbn.
  fold (add_effects h [Debug ("Radar disconnected: " +:+ radarId)]).
  by rewrite Estop.
Qed.
End Steps.

(** The theorem at work: the plugin knows A and B, one relay each, and the
    backend reports B and C. *)
Lemma reconciliation_keeps_relays_matched_witness :
  App.binaryStreamManager app_full = true
  /\ is_Some (Plugin.client (Plugin.vars world_AB))
  /\ consistent (Plugin.vars world_AB)
  /\ exists w',
      Plugin.updateRadars backend_down app_full ["B"; "C"] sample_settings world_AB
      = (Normal tt, w')
      /\ consistent (Plugin.vars w').
Proof.
  assert (consistent (Plugin.vars world_AB)) as Hcons.
  { unfold consistent. split; [|split].
    - cbn. set_solver.
    - apply (bool_decide_unpack _). reflexivity.
    - apply (bool_decide_unpack _). reflexivity. }
  split; [reflexivity|]. split; [by eexists|]. split; [exact Hcons|].
  apply (reconciliation_keeps_relays_matched backend_down app_full ["B"; "C"]
           sample_settings world_AB); [reflexivity|by eexists|exact Hcons].
Defined.

(** C2. Ids a, b and k are distinct, the server offers its binary stream
    manager, and the plugin knows a and b, each with a relay in any state.
    A pass that observes [b; k] then does exactly this to the host, in this
    order: it logs the discovery of k; it calls [start] once on the new
    relay of k, which makes one connection attempt; it logs the loss of a;
    and it adds the effects of one [stop] of the relay of a. Afterwards
    [knownRadars] is [b; k] and [spokeForwarders] holds the relay of b,
    untouched, and the started relay of k, and nothing else. *)
Theorem reconcile_AB_then_BC env app settings c a b k fa fb p d r ic h ti infl :
  a <> b -> a <> k -> b <> k ->
  App.binaryStreamManager app = true ->
  exists fk' h1,
    SpokeForwarder.start env (new_forwarder settings c k)
      (add_effects h [Debug ("New radar discovered: " +:+ k)])
    = (Normal fk', h1)
    /\ trace h1
       = trace h ++ [Debug ("New radar discovered: " +:+ k)]
         ++ connect_effects env (new_forwarder settings c k) (next_handle h)
    /\ Plugin.updateRadars env app [b; k] settings
         (Plugin.mkWorld (Plugin.mk (Some c) p [(a, fa); (b, fb)] d r ic [a; b]) h ti infl)
       = (Normal tt,
          Plugin.mkWorld (Plugin.mk (Some c) p [(b, fb); (k, fk')] d r ic [b; k])
            (add_effects h1 ([Debug ("Radar disconnected: " +:+ a)] ++ stop_effects fa))
            ti infl).
Proof.
  intros Hab Hak Hbk Hbsm.
  destruct (start_open env (new_forwarder settings c k)
              (add_effects h [Debug ("New radar discovered: " +:+ k)]))
    as (fk' & h1 & Estart & Htrace); [done|].
  pose proof (stop_spec env fa (add_effects h1 [Debug ("Radar disconnected: " +:+ a)]))
    as Estop.
  rewrite add_effects_app in Estop.
  exists fk', h1. split; [done|]. split.
  { rewrite Htrace. simpl. by rewrite <- app_assoc. }
  assert (new_Set [b; k] = [b; k]) as Hcur.
  { unfold new_Set, Set_add. simpl. rewrite Set_has_out; [done|set_solver]. }
  unfold Plugin.updateRadars. rewrite Hcur. cbn [for_of].
  erewrite bind_eq; cycle 1.
  { erewrite bind_eq; cycle 1.
    { apply add_radar_known. apply Set_has_in. set_solver. }
    erewrite bind_eq; cycle 1.
    { eapply add_radar_new; [apply Set_has_out; set_solver|done|done|exact Estart]. }
    reflexivity. }
  unfold touch, Plugin.read.
  cbn [Plugin.vars Plugin.knownRadars Plugin.client Plugin.host Plugin.spokeForwarders
       Plugin.intervals Plugin.inflight Plugin.provider Plugin.discoveryInterval
       Plugin.reconnectInterval Plugin.isConnected].
  assert (Set_add k [a; b] = [a; b; k]) as ->.
  { unfold Set_add. rewrite Set_has_out; [done|set_solver]. }
  assert (Map_set k fk' (Map_set k (new_forwarder settings c k) [(a, fa); (b, fb)])
          = [(a, fa); (b, fb); (k, fk')]) as ->.
  { repeat (cbn [Map_set];
            first [ rewrite (bool_decide_false (a = k)) by done
                  | rewrite (bool_decide_false (b = k)) by done
                  | rewrite (bool_decide_true (k = k)) by done ]).
    done. }
  unfold bind at 1. cbn [for_of Plugin.vars Plugin.knownRadars].
  erewrite bind_eq; cycle 1.
  { eapply remove_radar_gone; [apply Set_has_out; set_solver| |].
    - cbn [Map_get Plugin.vars Plugin.spokeForwarders]. by rewrite bool_decide_true.
    - rewrite stop_spec. reflexivity. }
  erewrite bind_eq; cycle 1.
  { apply remove_radar_current. apply Set_has_in. set_solver. }
  erewrite bind_eq; cycle 1.
  { apply remove_radar_current. apply Set_has_in. set_solver. }
  unfold ret, touch.
  cbn [Plugin.vars Plugin.knownRadars Plugin.client Plugin.host Plugin.spokeForwarders
       Plugin.intervals Plugin.inflight Plugin.provider Plugin.discoveryInterval
       Plugin.reconnectInterval Plugin.isConnected].
  rewrite add_effects_app.
  unfold Set_delete, Map_delete. rewrite !filter_cons, !filter_nil. cbn [fst].
  repeat case_decide; simplify_eq; done.
Qed.

(** The same pass on sample data: the plugin knows A and B, both relays
    hold a socket, and the backend reports B and C. *)
Lemma pass_AB_then_BC_trace :
  trace (Plugin.host
           (Plugin.updateRadars backend_down app_full ["B"; "C"] sample_settings
              world_AB).2)
  = [Debug "New radar discovered: C";
     Debug "Connecting to spoke stream: ws://h:1/v2/api/radars/C/spokes";
     NewWebSocket "ws://h:1/v2/api/radars/C/spokes" (Some 3%nat);
     Debug "Radar disconnected: A";
     WsClose 0;
     Debug "Stopped spoke forwarder for A"].
Proof. reflexivity. Qed.

(** The theorem at work on that sample. *)
Lemma reconcile_AB_then_BC_witness :
  "A" <> "B" /\ "A" <> "C" /\ "B" <> "C"
  /\ App.binaryStreamManager app_full = true
  /\ exists fk' h1,
      SpokeForwarder.start backend_down (new_forwarder sample_settings sample_client "C")
        (add_effects (mkHost [] 3) [Debug ("New radar discovered: " +:+ "C")])
      = (Normal fk', h1)
      /\ trace h1
         = [] ++ [Debug ("New radar discovered: " +:+ "C")]
           ++ connect_effects backend_down
                (new_forwarder sample_settings sample_client "C") 3
      /\ Plugin.updateRadars backend_down app_full ["B"; "C"] sample_settings world_AB
         = (Normal tt,
            Plugin.mkWorld
              (Plugin.mk (Some sample_client) (Some sample_client)
                 [("B", sample_forwarder_B); ("C", fk')] (Some 2%nat) None true
                 ["B"; "C"])
              (add_effects h1 ([Debug ("Radar disconnected: " +:+ "A")]
                               ++ stop_effects sample_forwarder))
              {[2%nat := Plugin.DiscoveryPoll sample_settings]} []).
Proof.
  split; [done|]. split; [done|]. split; [done|]. split; [reflexivity|].
  apply (reconcile_AB_then_BC backend_down app_full sample_settings sample_client
           "A" "B" "C" sample_forwarder sample_forwarder_B); done.
Defined.

(** ** The two interval handles *)

Section Timers.
Context (env : Env) (app : App.t).

Lemma updateRadars_frame radarIds settings w :
  is_Some (Plugin.client (Plugin.vars w)) ->
  exists known fws h,
    Plugin.updateRadars env app radarIds settings w = (Normal tt, touch w known fws h).
Proof.
  intros Hc. destruct (updateRadars_ok env app settings radarIds w Hc) as (w' & E & F & _).
  rewrite E, F. eauto.
Qed.

Ltac run_updateRadars :=
  match goal with
  | |- context [Plugin.updateRadars env app ?ids ?s ?w] =>
      let known := fresh "known" in
      let fws := fresh "fws" in
      let h := fresh "h" in
      let E := fresh "E" in
      destruct (updateRadars_frame ids s w) as (known & fws & h & E);
      [plugin_cbn; eauto|rewrite E; clear E]
  end.

Ltac unfold_plugin :=
  unfold Plugin.start_discovery, Plugin.setInterval, Plugin.clearInterval,
    Plugin.setPluginStatus, Plugin.setPluginError, Plugin.debug, Plugin.lift,
    Plugin.write, Plugin.read, Plugin.complete, Object_keys, try_catch, bind,
    emit, fresh, ret, throw, touch.

Lemma reconnect_settles site settings r w :
  is_Some (Plugin.client (Plugin.vars w)) ->
  one_timer (Plugin.vars w) ->
  let w' := (Plugin.reconnect_resume env app site settings (Plugin.completion_of r) w).2 in
  carries_on w w' /\ one_timer (Plugin.vars w').
Proof.
  destruct w as [[c p fws d rc ic known] [tr n] ti infl]. plugin_cbn.
  intros [c0 ->] Hone. unfold Plugin.reconnect_resume.
  destruct r as [radars|e]; cbn [Plugin.completion_of].
  - destruct radars; unfold_plugin; plugin_cbn;
      try (destruct site; unfold_plugin; plugin_cbn; by split);
      destruct rc; unfold_plugin; plugin_cbn;
      run_updateRadars; unfold_plugin; plugin_cbn; (split; [done|left; eauto]).
  - destruct site; unfold_plugin; plugin_cbn; by split.
Qed.

Lemma poll_settles settings r w :
  is_Some (Plugin.client (Plugin.vars w)) ->
  one_timer (Plugin.vars w) ->
  let w' := (Plugin.pollForRadarChanges_resume env app settings
               (Plugin.completion_of r) w).2 in
  carries_on w w' /\ one_timer (Plugin.vars w').
Proof.
  destruct w as [[c p fws d rc ic known] [tr n] ti infl]. plugin_cbn.
  intros [c0 ->] Hone. unfold Plugin.pollForRadarChanges_resume.
  destruct r as [radars|e]; cbn [Plugin.completion_of].
  - destruct radars; unfold_plugin; plugin_cbn;
      try (destruct d; unfold_plugin; plugin_cbn; (split; [done|right; eauto]));
      run_updateRadars; unfold_plugin; plugin_cbn; by split.
  - destruct d; unfold_plugin; plugin_cbn; (split; [done|right; eauto]).
Qed.

Lemma startup_settles settings r w :
  is_Some (Plugin.client (Plugin.vars w)) ->
  Plugin.discoveryInterval (Plugin.vars w) = None ->
  Plugin.reconnectInterval (Plugin.vars w) = None ->
  let w' := (Plugin.connectAndDiscover_resume env app settings
               (Plugin.completion_of r) w).2 in
  carries_on w w' /\ one_timer (Plugin.vars w').
Proof.
  destruct w as [[c p fws d rc ic known] [tr n] ti infl]. plugin_cbn.
  intros [c0 ->] -> ->. unfold Plugin.connectAndDiscover_resume.
  destruct r as [radars|e]; cbn [Plugin.completion_of].
  - destruct radars; unfold_plugin; plugin_cbn;
      try (split; [done|right; eauto]);
      run_updateRadars; unfold_plugin; plugin_cbn; (split; [done|left; eauto]).
  - unfold_plugin; plugin_cbn. split; [done|right; eauto].
Qed.

Lemma start_inv settings w :
  at_rest w ->
  timers_inv app settings (Plugin.step env app w (Plugin.Start settings)).
Proof.
  destruct w as [[c p fws d rc ic known] [tr n] ti infl].
  intros (Hd & Hr & Hti & Hk). simpl in Hd, Hr, Hti, Hk. subst d rc ti infl.
  unfold Plugin.step, Plugin.handle, Plugin.start, timers_inv, discovering.
  destruct (App.radarApi app) as [[re ue]|]; [destruct re|];
    unfold Plugin.connectAndDiscover, Plugin.call_getRadars, Plugin.detach, Plugin.park;
    unfold_plugin; plugin_cbn; (split; [eauto|]); cbn; eauto 10.
Qed.

Lemma step_inv settings w ev :
  is_running ev = true ->
  timers_inv app settings w ->
  timers_inv app settings (Plugin.step env app w ev).
Proof.
  intros Hrun [Hc Hphase]. unfold Plugin.step.
  destruct ev as [| |tm|i evs|radarId ev]; try done; cbn [Plugin.handle].
  - (* an interval timer fires *)
    destruct (Plugin.intervals w !! tm) as [cb|] eqn:Etm; [|by split].
    destruct Hphase as [(_ & _ & _ & Hti)|[(_ & _ & _ & Hti & _)|[Hone Hk]]];
      [by rewrite Hti, lookup_empty in Etm..|].
    destruct Hc as [c Hc].
    destruct cb; unfold Plugin.callback, Plugin.pollForRadarChanges, Plugin.detach,
      Plugin.call_getRadars, Plugin.read, Plugin.park, bind; rewrite Hc; plugin_cbn;
      (split; [eauto|]); right; right; (split; [done|]);
      apply Forall_app; split; try done; by apply Forall_singleton.
  - (* a request in flight settles *)
    destruct (Plugin.inflight w !! i) as [k|] eqn:Ek; [|by split].
    destruct (MayaraClient.settlement env evs) as [r|]; [|by split].
    unfold bind, Plugin.unpark, Plugin.detach. cbn [snd].
    set (w1 := Plugin.mkWorld (Plugin.vars w) (Plugin.host w) (Plugin.intervals w)
                 (delete i (Plugin.inflight w))).
    assert (is_Some (Plugin.client (Plugin.vars w1))) as Hc1 by done.
    destruct Hphase as [(Hd & Hr & Hk & Hti)|[(_ & _ & Hk & _)|[Hone Hk]]].
    + rewrite Hk in Ek. destruct i as [|i]; [|done]. simplify_eq/=.
      destruct (startup_settles settings r w1 Hc1 Hd Hr) as [[Hc' Hk'] Hone'].
      split; [by rewrite Hc'|]. right; right. split; [done|].
      rewrite Hk'. subst w1. cbn. by rewrite Hk.
    + by rewrite Hk in Ek.
    + assert (Forall (fun k => is_startup k = false) (Plugin.inflight w1)) as Hk1.
      { subst w1. cbn. by apply Forall_delete. }
      assert (is_startup k = false) as Hns.
      { by eapply (Forall_lookup_1 _ _ _ _ Hk). }
      destruct k as [s|s|site s]; [done| |]; cbn [Plugin.resume].
      * destruct (poll_settles s r w1 Hc1 Hone) as [[Hc' Hk'] Hone'].
        split; [by rewrite Hc'|]. right; right. split; [done|]. by rewrite Hk'.
      * destruct (reconnect_settles site s r w1 Hc1 Hone) as [[Hc' Hk'] Hone'].
        split; [by rewrite Hc'|]. right; right. split; [done|]. by rewrite Hk'.
  - (* a forwarder's socket or timer event *)
    unfold bind, Plugin.read.
    destruct (Map_get (Plugin.spokeForwarders (Plugin.vars w)) radarId) as [fw|];
      [|by split].
    unfold Plugin.lift, Plugin.write.
    destruct (dispatch_total env fw ev (Plugin.host w)) as (fw' & h' & E). rewrite E.
    destruct w as [[c p fws d rc ic known] h ti infl]. by split.
Qed.

Lemma run_inv settings evs : forall w,
  Forall (fun ev => is_running ev = true) evs ->
  timers_inv app settings w ->
  timers_inv app settings (Plugin.run env app w evs).
Proof.
  induction evs as [|ev evs IH]; intros w Hevs Hw; [done|].
  apply Forall_cons in Hevs as [Hev Hevs].
  apply IH; [done|]. by apply step_inv.
Qed.
End Timers.

(** [stop] brings a plugin back to rest when it finds no request in flight
    and no interval timer running besides those of the two handles. *)
Lemma stop_leaves_rest env app w :
  Plugin.inflight w = [] ->
  (forall tm, is_Some (Plugin.intervals w !! tm) ->
              Plugin.discoveryInterval (Plugin.vars w) = Some tm
              \/ Plugin.reconnectInterval (Plugin.vars w) = Some tm) ->
  at_rest (Plugin.stop env app w).2.
Proof.
  destruct w as [[c p fws d r ic known] [tr n] ti infl]. plugin_cbn.
  intros -> Hown. unfold Plugin.stop, at_rest.
  assert (forall (fws0 : list SpokeForwarder.t) w0,
             exists h0,
               for_of fws0
                 (fun forwarder =>
                    let* _ := Plugin.lift (SpokeForwarder.stop env forwarder) in ret tt) w0
               = (Normal tt,
                  Plugin.mkWorld (Plugin.vars w0) h0 (Plugin.intervals w0)
                    (Plugin.inflight w0))) as Hall.
  { induction fws0 as [|fw fws0 IH]; intros w0; simpl.
    - exists (Plugin.host w0). by destruct w0.
    - unfold bind at 1, bind at 1, Plugin.lift at 1. rewrite stop_spec. unfold ret at 1.
      destruct (IH (Plugin.mkWorld (Plugin.vars w0)
                      (add_effects (Plugin.host w0) (stop_effects fw))
                      (Plugin.intervals w0) (Plugin.inflight w0))) as (h0 & ->).
      by exists h0. }
  unfold bind, Plugin.lift, ret in Hall.
  assert (match r with
          | Some tm => delete tm (match d with Some tm0 => delete tm0 ti | None => ti end)
          | None => match d with Some tm0 => delete tm0 ti | None => ti end
          end = ∅) as Hempty.
  { apply map_eq. intros tm. rewrite lookup_empty.
    destruct (ti !! tm) as [cb|] eqn:Etm.
    - destruct (Hown tm) as [->| ->]; [by eexists|..].
      + destruct r as [r|]; [destruct (decide (r = tm)) as [->|Hne]|].
        * by rewrite lookup_delete_eq.
        * rewrite lookup_delete_ne by done. by rewrite lookup_delete_eq.
        * by rewrite lookup_delete_eq.
      + by rewrite lookup_delete_eq.
    - destruct r as [r|], d as [d|];
        rewrite ?lookup_delete_None; eauto. }
  destruct (App.radarApi app) as [[re [ue|]]|], d as [d|], r as [r|];
    unfold Plugin.clearInterval, Plugin.setPluginStatus, Plugin.debug, Plugin.lift,
      Plugin.write, Plugin.read, try_catch, bind, emit, ret, throw;
    cbn -[for_of String.append delete insert SpokeForwarder.stop];
    match goal with
    | |- context [for_of ?l ?f ?w0] => destruct (Hall l w0) as (h0 & ->)
    end;
    plugin_cbn; cbn [snd Plugin.vars Plugin.intervals Plugin.inflight
                     Plugin.discoveryInterval Plugin.reconnectInterval];
    repeat split; try done; exact Hempty.
Qed.

(** C8, as stated, fails twice over. Right after [start], while the first
    [getRadars] is still on its way, neither interval handle is set. And a
    request that [stop] leaves in flight comes back after the restart: the
    plugin is started and connects, a discovery poll is on its way when the
    plugin is stopped and started again, the old poll then fails and the
    new startup succeeds, and both handles are set. *)
Lemma neither_timer_then_both :
  let up := [Response 200; ResData "{}"; ResEnd] in
  let down := [ReqError (mkError "connect ECONNREFUSED")] in
  let w := Plugin.run backend_down app_full fresh_world
             [Plugin.Start sample_settings; Plugin.Settle 0 up; Plugin.Tick 0;
              Plugin.Stop; Plugin.Start sample_settings;
              Plugin.Settle 0 down; Plugin.Settle 0 up] in
  (Plugin.run backend_down app_full fresh_world [Plugin.Start sample_settings]
   = started_world app_full
   /\ Plugin.discoveryInterval (Plugin.vars (started_world app_full)) = None
   /\ Plugin.reconnectInterval (Plugin.vars (started_world app_full)) = None
   /\ Plugin.inflight (started_world app_full) = [Plugin.AwaitStartup sample_settings])
  /\ (Plugin.reconnectInterval (Plugin.vars w) = Some 1%nat
      /\ Plugin.discoveryInterval (Plugin.vars w) = Some 2%nat
      /\ Plugin.intervals w !! 1%nat
         = Some (Plugin.Reconnect Plugin.InPollForRadarChanges sample_settings)
      /\ Plugin.intervals w !! 2%nat = Some (Plugin.DiscoveryPoll sample_settings)
      /\ is_Some (Plugin.client (Plugin.vars w))
      /\ Plugin.inflight w = []).
Proof. repeat split. by eexists. Qed.

(** C8, amended. Take a plugin at rest (neither handle set, no interval
    timer running, no request in flight, as before its first [start]) that
    is started, after any run of timer ticks, settled requests and relay
    events, up to the next [stop] or [start]. Its two interval handles are
    never both set. Exactly one of them is set, unless the first
    [getRadars] of [start] has not settled yet, or [start] gave up before
    sending it (no radar API, or registration threw): then neither is. *)
Theorem one_timer_after_startup env app settings w0 evs :
  at_rest w0 ->
  Forall (fun ev => is_running ev = true) evs ->
  let w := Plugin.run env app w0 (Plugin.Start settings :: evs) in
  (is_Some (Plugin.discoveryInterval (Plugin.vars w))
   /\ Plugin.reconnectInterval (Plugin.vars w) = None)
  \/ (Plugin.discoveryInterval (Plugin.vars w) = None
      /\ is_Some (Plugin.reconnectInterval (Plugin.vars w)))
  \/ (Plugin.discoveryInterval (Plugin.vars w) = None
      /\ Plugin.reconnectInterval (Plugin.vars w) = None
      /\ (Plugin.inflight w = [Plugin.AwaitStartup settings] \/ discovering app = false)).
Proof.
  intros Hrest Hevs w.
  destruct (run_inv env app settings evs _ Hevs (start_inv env app settings w0 Hrest))
    as [_ [(Hd & Hr & Hk & _)|[(Hd & Hr & _ & _ & Hno)|[[Hone|Hone] _]]]];
    subst w; cbn [Plugin.run foldl]; auto 10.
Qed.

(** The theorem at work: the first request fails, the reconnect timer
    fires, and the second request succeeds. *)
Lemma one_timer_after_startup_witness :
  let evs := [Plugin.Settle 0 [ReqError (mkError "connect ECONNREFUSED")];
              Plugin.Tick 0;
              Plugin.Settle 0 [Response 200; ResData "{}"; ResEnd]] in
  let w := Plugin.run backend_down app_full fresh_world
             (Plugin.Start sample_settings :: evs) in
  at_rest fresh_world
  /\ Forall (fun ev => is_running ev = true) evs
  /\ ((is_Some (Plugin.discoveryInterval (Plugin.vars w))
       /\ Plugin.reconnectInterval (Plugin.vars w) = None)
      \/ (Plugin.discoveryInterval (Plugin.vars w) = None
          /\ is_Some (Plugin.reconnectInterval (Plugin.vars w)))
      \/ (Plugin.discoveryInterval (Plugin.vars w) = None
          /\ Plugin.reconnectInterval (Plugin.vars w) = None
          /\ (Plugin.inflight w = [Plugin.AwaitStartup sample_settings]
              \/ discovering app_full = false))).
Proof.
  intros evs w.
  assert (at_rest fresh_world) as Hrest.
  { repeat split. }
  assert (Forall (fun ev => is_running ev = true) evs) as Hevs.
  { repeat constructor. }
  split; [exact Hrest|]. split; [exact Hevs|].
  apply (one_timer_after_startup backend_down app_full sample_settings fresh_world evs
           Hrest Hevs).
Defined.

(** The handles are not the timers. A discovery interval that fires twice
    before the first poll has settled puts two polls in flight; when both
    fail, the second [catch] overwrites [reconnectInterval] without
    clearing the timer it held. That timer keeps firing after the plugin
    has reconnected: here interval 1, a reconnect timer, runs next to
    interval 3, the discovery timer, while [reconnectInterval] is null. *)
Lemma overwritten_reconnect_timer_keeps_running :
  let up := [Response 200; ResData "{}"; ResEnd] in
  let down := [ReqError (mkError "connect ECONNREFUSED")] in
  let w := Plugin.run backend_down app_full fresh_world
             [Plugin.Start sample_settings; Plugin.Settle 0 up;
              Plugin.Tick 0; Plugin.Tick 0;
              Plugin.Settle 0 down; Plugin.Settle 0 down;
              Plugin.Tick 1; Plugin.Settle 0 up] in
  Plugin.discoveryInterval (Plugin.vars w) = Some 3%nat
  /\ Plugin.reconnectInterval (Plugin.vars w) = None
  /\ Plugin.intervals w !! 3%nat = Some (Plugin.DiscoveryPoll sample_settings)
  /\ Plugin.intervals w !! 1%nat
     = Some (Plugin.Reconnect Plugin.InPollForRadarChanges sample_settings).
Proof. repeat split. Qed.

(** C7. When the [getRadars] of a discovery poll rejects, the [catch]
    block of [pollForRadarChanges] completes normally and changes only
    this: [isConnected] becomes false, the status line becomes the error
    "Lost connection: ...", the discovery interval, if set, is cleared and
    its handle becomes null, and a new reconnect interval is started and
    kept in [reconnectInterval]. [knownRadars] and [spokeForwarders] are as
    before, relay for relay, and the trace shows no call on any relay. *)
Theorem poll_failure_keeps_relays env app settings err w :
  let s := Plugin.vars w in
  let tm := next_handle (Plugin.host w) in
  Plugin.pollForRadarChanges_resume env app settings (Throw err) w
  = (Normal tt,
     Plugin.mkWorld
       (Plugin.mk (Plugin.client s) (Plugin.provider s) (Plugin.spokeForwarders s)
                  None (Some tm) false (Plugin.knownRadars s))
       (mkHost (trace (Plugin.host w)
                ++ [SetPluginError ("Lost connection: " +:+ message err)]
                ++ match Plugin.discoveryInterval s with
                   | Some d => [ClearInterval d]
                   | None => []
                   end
                ++ [SetInterval tm (Plugin.reconnect_ms settings)])
               (S tm))
       (<[tm := Plugin.Reconnect Plugin.InPollForRadarChanges settings]>
          match Plugin.discoveryInterval s with
          | Some d => delete d (Plugin.intervals w)
          | None => Plugin.intervals w
          end)
       (Plugin.inflight w)).
Proof.
  destruct w as [[c p fws d r ic known] [tr n] ti infl]. simpl.
  destruct d as [d|]; cbv -[String.append pretty Plugin.reconnect_ms insert delete List.app];
    rewrite <- ?app_assoc; reflexivity.
Qed.

(** * Further properties *)

Ltac run_plugin :=
  unfold Plugin.start_discovery, Plugin.setInterval, Plugin.clearInterval,
    Plugin.setPluginStatus, Plugin.setPluginError, Plugin.debug, Plugin.lift,
    Plugin.write, Plugin.read, Plugin.complete, Object_keys, try_catch, bind,
    emit, fresh, ret, throw, touch.

(** ** The forwarder over time *)

(** X1. No method call and no socket or timer event makes a forwarder
    throw: [start], [stop] and every listener complete normally, whatever
    the WebSocket constructor or [ws.close()] does, and none of them changes
    the forwarder's radar id, url, stream id, sink or reconnect interval. *)
Theorem relay_never_throws env this a h :
  exists this' h',
    act env this a h = (Normal this', h')
    /\ SpokeForwarder.radarId this' = SpokeForwarder.radarId this
    /\ SpokeForwarder.url this' = SpokeForwarder.url this
    /\ SpokeForwarder.streamId this' = SpokeForwarder.streamId this
    /\ SpokeForwarder.binaryStreamManager this' = SpokeForwarder.binaryStreamManager this
    /\ SpokeForwarder.reconnectInterval this' = SpokeForwarder.reconnectInterval this.
Proof.
  destruct a as [| |ev]; [| |destruct ev]; simpl;
  unfold SpokeForwarder.start, SpokeForwarder.stop, SpokeForwarder.ws_close,
    SpokeForwarder.on_open, SpokeForwarder.on_message, SpokeForwarder.on_error,
    SpokeForwarder.on_close, SpokeForwarder.on_reconnectTimer,
    SpokeForwarder.connect, SpokeForwarder.scheduleReconnect,
    SpokeForwarder.new_WebSocket, SpokeForwarder.log, try_catch, bind, emit, fresh, throw, ret;
  simpl; repeat case_match; simplify_eq; eauto 10.
Qed.

(** X4. [stop] is final: on the forwarder it leaves behind, [start],
    [connect] and [scheduleReconnect] do nothing at all, not even log, and
    [isConnected()] is false. *)
Theorem nothing_restarts_a_stopped_relay env this h :
  exists this1 h1,
    SpokeForwarder.stop env this h = (Normal this1, h1)
    /\ SpokeForwarder.start env this1 h1 = (Normal this1, h1)
    /\ SpokeForwarder.connect env this1 h1 = (Normal this1, h1)
    /\ SpokeForwarder.scheduleReconnect this1 h1 = (Normal this1, h1)
    /\ SpokeForwarder.isConnected this1 = false.
Proof.
  exists (stopped this), (add_effects h (stop_effects this)).
  split; [apply stop_spec|]. repeat split.
Qed.

(** X5. What [stop] does, in full: it clears the reconnect timer if one is
    pending, closes the socket if there is one, swallowing whatever
    [ws.close()] throws, logs one line, and leaves the forwarder closed,
    disconnected, with no socket and no timer. It allocates no handle. *)
Theorem stop_releases_timer_and_socket env this h :
  SpokeForwarder.stop env this h
  = (Normal (SpokeForwarder.mk (SpokeForwarder.radarId this) (SpokeForwarder.url this)
               (SpokeForwarder.binaryStreamManager this) (SpokeForwarder.debug this)
               (SpokeForwarder.reconnectInterval this) None None true false
               (SpokeForwarder.streamId this)),
     mkHost (trace h
             ++ match SpokeForwarder.reconnectTimer this with
                | Some tm => [ClearTimeout tm]
                | None => []
                end
             ++ match SpokeForwarder.ws this with
                | Some s => [WsClose s]
                | None => []
                end
             ++ (if SpokeForwarder.debug this
                 then [Debug ("Stopped spoke forwarder for " +:+ SpokeForwarder.radarId this)]
                 else []))
            (next_handle h)).
Proof. rewrite stop_spec. reflexivity. Qed.

Lemma connect_open env this h :
  SpokeForwarder.closed this = false ->
  exists this',
    SpokeForwarder.connect env this h
    = (Normal this',
       mkHost (trace h ++ connect_effects env this (next_handle h))
              (match ws_ctor_error env (SpokeForwarder.url this),
                     SpokeForwarder.reconnectTimer this with
               | Some _, Some _ => next_handle h
               | _, _ => S (next_handle h)
               end))
    /\ this' = match ws_ctor_error env (SpokeForwarder.url this) with
               | None => SpokeForwarder.set_ws this (Some (next_handle h))
               | Some _ =>
                   match SpokeForwarder.reconnectTimer this with
                   | Some _ => this
                   | None => SpokeForwarder.set_reconnectTimer this (Some (next_handle h))
                   end
               end.
Proof.
  intros Hopen.
  unfold SpokeForwarder.connect, SpokeForwarder.scheduleReconnect,
    SpokeForwarder.new_WebSocket, SpokeForwarder.log, connect_effects, log_line,
    try_catch, bind, emit, fresh, throw, ret.
  rewrite Hopen. simpl.
  destruct (SpokeForwarder.debug this), (ws_ctor_error env (SpokeForwarder.url this)),
    (SpokeForwarder.reconnectTimer this); simpl;
    eexists; (split; [|reflexivity]); simpl; rewrite <- ?app_assoc; simpl;
    rewrite ?app_nil_r; reflexivity.
Qed.

(** X2. When the socket of a forwarder that is not stopped and has no
    reconnect timer closes, the ['close'] listener arms exactly one timer of
    [reconnectInterval] milliseconds and marks the forwarder disconnected.
    A further close before the timer fires only logs: [scheduleReconnect]
    returns at once while a timer is pending. When the timer fires, its
    callback clears the handle and makes one connection attempt. *)
Theorem close_schedules_one_reconnect env this code reason code' reason' h :
  SpokeForwarder.closed this = false ->
  SpokeForwarder.reconnectTimer this = None ->
  let n := next_handle h in
  SpokeForwarder.on_close this code reason h
  = (Normal (waiting this n),
     mkHost (trace h
             ++ log_line this ("Spoke stream closed for " +:+ SpokeForwarder.radarId this
                               +:+ ": " +:+ pretty code +:+ " " +:+ reason)
             ++ log_line this ("Scheduling reconnect for " +:+ SpokeForwarder.radarId this
                               +:+ " in " +:+ pretty (SpokeForwarder.reconnectInterval this)
                               +:+ "ms")
             ++ [SetTimeout n (SpokeForwarder.reconnectInterval this)])
            (S n))
  /\ (forall h1,
        SpokeForwarder.on_close (waiting this n) code' reason' h1
        = (Normal (waiting this n),
           add_effects h1
             (log_line this ("Spoke stream closed for " +:+ SpokeForwarder.radarId this
                             +:+ ": " +:+ pretty code' +:+ " " +:+ reason'))))
  /\ (forall h1, exists this2 h2,
        SpokeForwarder.on_reconnectTimer env (waiting this n) h1 = (Normal this2, h2)
        /\ trace h2 = trace h1 ++ connect_effects env this (next_handle h1)
        /\ SpokeForwarder.reconnectTimer this2
           = match ws_ctor_error env (SpokeForwarder.url this) with
             | Some _ => Some (next_handle h1)
             | None => None
             end).
Proof.
  intros Hopen Htimer n.
  destruct this as [rid u bsm dbg ri w tm cl co sid]. simpl in *. subst cl tm.
  split; [|split].
  - unfold SpokeForwarder.on_close, SpokeForwarder.scheduleReconnect, SpokeForwarder.log,
      log_line, waiting, bind, emit, fresh, ret. simpl.
    destruct dbg; simpl; rewrite <- ?app_assoc; reflexivity.
  - intros h1.
    unfold SpokeForwarder.on_close, SpokeForwarder.scheduleReconnect, SpokeForwarder.log,
      log_line, waiting, add_effects, bind, emit, fresh, ret. simpl.
    destruct dbg; simpl; [reflexivity|]. destruct h1; simpl. by rewrite app_nil_r.
  - intros h1. unfold SpokeForwarder.on_reconnectTimer, waiting. simpl.
    match goal with
    | |- context [SpokeForwarder.connect env ?t h1] =>
        destruct (connect_open env t h1) as (this2 & E & Hthis); [done|]
    end.
    eexists _, _. split; [exact E|]. split; [reflexivity|].
    rewrite Hthis. simpl. by destruct (ws_ctor_error env u).
Qed.

Lemma close_schedules_one_reconnect_witness :
  SpokeForwarder.closed sample_forwarder_new = false
  /\ SpokeForwarder.reconnectTimer sample_forwarder_new = None
  /\ SpokeForwarder.on_close sample_forwarder_new 1006 "" (mkHost [] 4)
     = (Normal (waiting sample_forwarder_new 4),
        mkHost [Debug "Spoke stream closed for A: 1006 ";
                Debug "Scheduling reconnect for A in 5000ms";
                SetTimeout 4 5000] 5).
Proof.
  split; [reflexivity|]. split; [reflexivity|].
  exact (proj1 (close_schedules_one_reconnect backend_down sample_forwarder_new
                  1006 "" 1000 "bye" (mkHost [] 4) eq_refl eq_refl)).
Defined.

Lemma failed_attempts_S env this n k :
  failed_attempts env this n (S k)
  = failed_attempts env this n k ++ connect_effects env this (n + k).
Proof.
  unfold failed_attempts. rewrite seq_S, fmap_app, concat_app. simpl.
  by rewrite app_nil_r.
Qed.

Lemma life_snoc env acts : forall this h a this1 h1,
  life env this acts h = (Normal this1, h1) ->
  life env this (acts ++ [a]) h = act env this1 a h1.
Proof.
  induction acts as [|a0 acts IH]; intros this h a this1 h1 E; simpl in *.
  - unfold ret in E. simplify_eq. unfold bind, ret.
    by destruct (act env this1 a h1) as [[] ?].
  - unfold bind in *. destruct (act env this a0 h) as [[this0| |] h0]; [|done..].
    by apply IH.
Qed.

(** X3. While the WebSocket constructor keeps throwing, a started forwarder
    retries for ever at the fixed interval: [start] followed by [k] firings
    of the reconnect timer makes [k + 1] connection attempts, each one
    arming one new timer of [reconnectInterval] milliseconds, and leaves
    the last of these timers pending. There is no backoff and no limit. *)
Theorem reconnects_at_fixed_interval env this msg k h :
  ws_ctor_error env (SpokeForwarder.url this) = Some msg ->
  SpokeForwarder.closed this = false ->
  SpokeForwarder.reconnectTimer this = None ->
  let n := next_handle h in
  life env this (CallStart :: replicate k (Happens SpokeForwarder.TimerFired)) h
  = (Normal (SpokeForwarder.set_reconnectTimer this (Some (n + k)%nat)),
     mkHost (trace h ++ failed_attempts env this n (S k)) (S (n + k))).
Proof.
  intros Hctor Hopen Htimer n.
  destruct this as [rid u bsm dbg ri w tm cl co sid]. simpl in Hctor, Hopen, Htimer.
  subst cl tm.
  change (CallStart :: replicate k (Happens SpokeForwarder.TimerFired))
    with ([CallStart] ++ replicate k (Happens SpokeForwarder.TimerFired)).
  induction k as [|k IH].
  - simpl. unfold bind, SpokeForwarder.start. simpl.
    match goal with
    | |- context [SpokeForwarder.connect env ?t h] =>
        destruct (connect_open env t h) as (this' & E & Hthis); [done|]
    end.
    rewrite E, Hthis. simpl. rewrite Hctor. unfold ret, failed_attempts. simpl.
    subst n. rewrite !Nat.add_0_r, app_nil_r. reflexivity.
  - rewrite replicate_S_end, app_assoc.
    rewrite (life_snoc _ _ _ _ _ _ _ IH). simpl.
    unfold SpokeForwarder.on_reconnectTimer. simpl.
    match goal with
    | |- SpokeForwarder.connect env ?t ?h0 = _ =>
        destruct (connect_open env t h0) as (this' & E & Hthis); [done|]
    end.
    rewrite E, Hthis. simpl. rewrite Hctor. simpl.
    rewrite (failed_attempts_S _ _ _ (S k)), <- app_assoc.
    replace (S (n + k)) with (n + S k)%nat by lia. reflexivity.
Qed.

Lemma reconnects_at_fixed_interval_witness :
  ws_ctor_error backend_unreachable (SpokeForwarder.url sample_forwarder_new)
  = Some "connect ECONNREFUSED"
  /\ SpokeForwarder.closed sample_forwarder_new = false
  /\ SpokeForwarder.reconnectTimer sample_forwarder_new = None
  /\ life backend_unreachable sample_forwarder_new
       [CallStart; Happens SpokeForwarder.TimerFired; Happens SpokeForwarder.TimerFired]
       (mkHost [] 0)
     = (Normal (SpokeForwarder.set_reconnectTimer sample_forwarder_new (Some 2%nat)),
        mkHost (failed_attempts backend_unreachable sample_forwarder_new 0 3) 3).
Proof.
  split; [reflexivity|]. split; [reflexivity|]. split; [reflexivity|].
  exact (reconnects_at_fixed_interval backend_unreachable sample_forwarder_new
           "connect ECONNREFUSED" 2 (mkHost [] 0) eq_refl eq_refl eq_refl).
Defined.

(** ** Promises and stream addresses *)

(** X6. The promise of a request settles once: after the response has
    ended, or an error or the timeout has been reported, later events on the
    request or the response do not change what the caller gets. *)
Theorem promise_settles_once env evs more s :
  MayaraClient.settlement env evs = Some s ->
  MayaraClient.settlement env (evs ++ more) = Some s.
Proof.
  unfold MayaraClient.settlement. intros H. rewrite foldl_app. by apply settled_stays.
Qed.

Lemma promise_settles_once_witness :
  MayaraClient.settlement backend_down [Response 200; ResData "{}"; ResEnd]
  = Some (Resolved (JObj []))
  /\ MayaraClient.settlement backend_down
       ([Response 200; ResData "{}"; ResEnd] ++ [ReqError (mkError "socket hang up")])
     = Some (Resolved (JObj [])).
Proof.
  split; [reflexivity|].
  apply (promise_settles_once backend_down [Response 200; ResData "{}"; ResEnd]).
  reflexivity.
Defined.

Lemma progress_keeps_pending env evs : forall p,
  Forall (fun ev => is_progress ev = true) evs ->
  MayaraClient.promise p = None ->
  MayaraClient.promise (foldl (MayaraClient.on_event env) p evs) = None.
Proof.
  induction evs as [|ev evs IH]; intros p Hevs Hp; [done|].
  apply Forall_cons in Hevs as [Hev Hevs]. simpl. apply IH; [done|].
  destruct p as [r pr]. simpl in Hp. subst pr.
  destruct ev; try done; simpl; by repeat case_match.
Qed.

(** X7. A response that never ends never settles the request: as long as
    the transport reports only the response head and body chunks, [request]
    stays pending. (The timeout is the transport's to report.) *)
Theorem unfinished_response_never_settles env this method path body h :
  Forall (fun ev => is_progress ev = true)
         (transport env (request_of env this method path body)) ->
  MayaraClient.request env this method path body h = (Pending, h).
Proof.
  intros Hevs. unfold MayaraClient.request, await.
  fold (request_of env this method path body).
  unfold MayaraClient.settlement. by rewrite progress_keeps_pending.
Qed.

Lemma unfinished_response_never_settles_witness :
  Forall (fun ev => is_progress ev = true)
         (transport backend_stalled
            (request_of backend_stalled sample_client "GET" "/v2/api/radars" JNull))
  /\ MayaraClient.request backend_stalled sample_client "GET" "/v2/api/radars" JNull
       (mkHost [] 0)
     = (Pending, mkHost [] 0).
Proof.
  assert (Forall (fun ev => is_progress ev = true)
            (transport backend_stalled
               (request_of backend_stalled sample_client "GET" "/v2/api/radars" JNull)))
    as Hevs.
  { repeat constructor. }
  split; [exact Hevs|].
  exact (unfinished_response_never_settles backend_stalled sample_client "GET"
           "/v2/api/radars" JNull (mkHost [] 0) Hevs).
Defined.

(** X8. The two stream addresses are the base URL with [http] replaced by
    [ws]: same [s] for a secure client, same host and port, followed by
    [/v2/api/radars/<id>/spokes] or [/v2/api/radars/<id>/targets/stream]. *)
Theorem stream_urls_follow_base_url host port secure tmo radarId :
  let c := MayaraClient.constructor (MayaraClient.mkOptions host port secure tmo) in
  let rest := (if default false secure then "s" else "")
              +:+ "://" +:+ host +:+ ":" +:+ pretty port in
  MayaraClient.baseUrl c = "http" +:+ rest
  /\ MayaraClient.getSpokeStreamUrl c radarId
     = "ws" +:+ rest +:+ "/v2/api/radars/" +:+ radarId +:+ "/spokes"
  /\ MayaraClient.getTargetStreamUrl c radarId
     = "ws" +:+ rest +:+ "/v2/api/radars/" +:+ radarId +:+ "/targets/stream".
Proof.
  cbv [MayaraClient.getSpokeStreamUrl MayaraClient.getTargetStreamUrl
       MayaraClient.constructor MayaraClient.secure MayaraClient.baseUrl
       MayaraClient.host MayaraClient.port MayaraClient.opt_host MayaraClient.opt_port
       MayaraClient.opt_secure].
  destruct secure as [[]|]; cbn [default from_option id];
    rewrite !append_assoc; (split; [|split]); reflexivity.
Qed.

Lemma complete_response_settles env statusCode chunks rest :
  MayaraClient.settlement env (Response statusCode :: (ResData <$> chunks) ++ ResEnd :: rest)
  = Some (if is_2xx statusCode
          then Resolved (body_value env (body_text chunks))
          else Rejected (mkError ("HTTP " +:+ pretty statusCode +:+ ": "
                                  +:+ body_text chunks))).
Proof.
  unfold MayaraClient.settlement. simpl. rewrite chunks_accumulate. simpl.
  erewrite settled_stays; [|reflexivity]. by rewrite on_end_spec.
Qed.

Lemma request_complete env this method path body h statusCode chunks rest :
  transport env (request_of env this method path body)
  = Response statusCode :: (ResData <$> chunks) ++ ResEnd :: rest ->
  MayaraClient.request env this method path body h
  = (if is_2xx statusCode
     then Normal (body_value env (body_text chunks))
     else Throw (mkError ("HTTP " +:+ pretty statusCode +:+ ": " +:+ body_text chunks)),
     h).
Proof.
  intros Ht. unfold MayaraClient.request. fold (request_of env this method path body).
  rewrite Ht, complete_response_settles. unfold await. by destruct (is_2xx statusCode).
Qed.

(** ** What the provider answers *)

Lemma get_defined env {W} v key (w : W) :
  nullish v = false -> exists x, get env v key w = (Normal x, w).
Proof. destruct v; try done; intros _; unfold get, ret; repeat case_match; eauto. Qed.

Lemma get_opt_defined env {W} v key (w : W) :
  exists x, get_opt env v key w = (Normal x, w).
Proof.
  unfold get_opt. destruct (nullish v) eqn:E; [by eexists|]. by apply get_defined.
Qed.

Lemma truthy_not_nullish v : truthy v = true -> nullish v = false.
Proof. by destruct v. Qed.

Lemma js_or_truthy a b : truthy b = true -> truthy (js_or a b) = true.
Proof. unfold js_or. by destruct (truthy a) eqn:E. Qed.

Lemma js_coalesce_defined a : is_undefined (js_coalesce a JNull) = false.
Proof. by destruct a. Qed.

Section ProviderFacts.
Context (env : Env) (client : MayaraClient.t).

(** X9. When the backend answers every request with a complete response,
    [setPower], [setRange], [setControls] and [cancelTarget] return true
    exactly when the status is 2xx, whatever the body says, and [setControl]
    returns [{success: true}] or [{success: false, error}] likewise; a
    non-2xx answer is logged with its status and body, a 2xx answer logs
    nothing. *)
Theorem boolean_mutators_report_the_status radarId controlId value targetId h
        statusCode chunks rest :
  (forall req, transport env req
               = Response statusCode :: (ResData <$> chunks) ++ ResEnd :: rest) ->
  let said what :=
    add_effects h
      (if is_2xx statusCode then []
       else [Debug (what +:+ ": HTTP " +:+ pretty statusCode +:+ ": " +:+ body_text chunks)]) in
  RadarProvider.setPower env client radarId value h
  = (Normal (JBool (is_2xx statusCode)), said ("setPower error for " +:+ radarId))
  /\ RadarProvider.setRange env client radarId value h
     = (Normal (JBool (is_2xx statusCode)), said ("setRange error for " +:+ radarId))
  /\ RadarProvider.setControls env client radarId value h
     = (Normal (JBool (is_2xx statusCode)), said ("setControls error for " +:+ radarId))
  /\ RadarProvider.cancelTarget env client radarId targetId h
     = (Normal (JBool (is_2xx statusCode)),
        said ("cancelTarget error for " +:+ radarId +:+ "/" +:+ ToString env targetId))
  /\ RadarProvider.setControl env client radarId controlId value h
     = (Normal (JObj (("success", JBool (is_2xx statusCode))
                      :: if is_2xx statusCode then []
                         else [("error", JStr ("HTTP " +:+ pretty statusCode +:+ ": "
                                               +:+ body_text chunks))])),
        said ("setControl error for " +:+ radarId +:+ "/" +:+ controlId)).
Proof.
  intros Ht said. subst said.
  unfold RadarProvider.setPower, RadarProvider.setRange, RadarProvider.setControls,
    RadarProvider.cancelTarget, RadarProvider.setControl,
    MayaraClient.setControl, MayaraClient.setControls, MayaraClient.cancelTarget,
    try_catch, bind, RadarProvider.debug, emit, ret.
  repeat split;
    erewrite request_complete by apply Ht;
    destruct (is_2xx statusCode); simpl; unfold add_effects; simpl;
    rewrite ?app_nil_r, ?append_assoc; try reflexivity; by destruct h.
Qed.

(** X10. When the backend answers [GET /v2/api/radars] with a 2xx status
    and a JSON object, the provider's [getRadars] returns the object's keys,
    in the object's order, and logs nothing. *)
Theorem getRadars_lists_the_keys h statusCode chunks rest props :
  transport env (request_of env client "GET" "/v2/api/radars" JNull)
  = Response statusCode :: (ResData <$> chunks) ++ ResEnd :: rest ->
  is_2xx statusCode = true ->
  body_text chunks <> "" ->
  JSON_parse env (body_text chunks) = Some (JObj props) ->
  RadarProvider.getRadars env client h = (Normal (JArr (JStr <$> props.*1)), h).
Proof.
  intros Ht H2xx Hne Hparse.
  unfold RadarProvider.getRadars, try_catch, bind, MayaraClient.getRadars.
  rewrite (request_complete _ _ _ _ _ _ _ _ _ Ht), H2xx.
  unfold body_value. rewrite bool_decide_false by done. by rewrite Hparse.
Qed.

(** X11. When the backend answers [GET /v2/api/radars] with a 2xx status
    and no body, the client resolves to null, [Object.keys(null)] throws, and
    the provider's [getRadars] returns the empty array after logging the
    TypeError. *)
Theorem getRadars_of_an_empty_body h statusCode rest :
  transport env (request_of env client "GET" "/v2/api/radars" JNull)
  = Response statusCode :: ResEnd :: rest ->
  is_2xx statusCode = true ->
  RadarProvider.getRadars env client h
  = (Normal (JArr []),
     add_effects h [Debug ("getRadars error: " +:+ TypeError_message env JNull None)]).
Proof.
  intros Ht H2xx.
  unfold RadarProvider.getRadars, try_catch, bind, MayaraClient.getRadars.
  rewrite (request_complete _ _ _ _ _ _ _ [] _ Ht), H2xx. reflexivity.
Qed.

(** [length] at work: two bytes for one unit, three bytes for one unit, four
    bytes for a surrogate pair. *)
Lemma utf16_length_samples :
  utf16_length "abc" = 3%nat
  /\ utf16_length "é" = 1%nat /\ String.length "é" = 2%nat
  /\ utf16_length "€" = 1%nat /\ String.length "€" = 3%nat
  /\ utf16_length "𝄞" = 2%nat /\ String.length "𝄞" = 4%nat.
Proof. repeat split. Qed.

(** X12. When the backend answers [GET /v2/api/radars] with a 2xx status
    and a body that is not JSON, the client resolves to the body text and
    the provider's [getRadars] returns the indices of its UTF-16 code
    units, ["0"], ["1"], ..., one for each unit of the text's [length], as
    radar ids, without logging anything. *)
Theorem getRadars_numbers_the_code_units_of_a_garbled_body h statusCode chunks rest :
  transport env (request_of env client "GET" "/v2/api/radars" JNull)
  = Response statusCode :: (ResData <$> chunks) ++ ResEnd :: rest ->
  is_2xx statusCode = true ->
  body_text chunks <> "" ->
  JSON_parse env (body_text chunks) = None ->
  RadarProvider.getRadars env client h
  = (Normal (JArr (JStr <$> index_keys (utf16_length (body_text chunks)))), h).
Proof.
  intros Ht H2xx Hne Hparse.
  unfold RadarProvider.getRadars, try_catch, bind, MayaraClient.getRadars.
  rewrite (request_complete _ _ _ _ _ _ _ _ _ Ht), H2xx.
  unfold body_value. rewrite bool_decide_false by done. by rewrite Hparse.
Qed.

(** X14. When the state of a radar is falsy (null after an empty body, for
    one), [getRadarInfo] returns null and logs nothing, whatever a request
    for the capabilities would have given. *)
Theorem getRadarInfo_without_state radarId state h :
  MayaraClient.getState env client radarId h = (Normal state, h) ->
  truthy state = false ->
  RadarProvider.getRadarInfo env client radarId h = (Normal JNull, h).
Proof.
  intros E Hs. unfold RadarProvider.getRadarInfo, try_catch, bind. by rewrite E, Hs.
Qed.

(** X13. When the state of a radar is truthy and its capabilities can be
    read, [getRadarInfo] returns an object with exactly the fields [id],
    [name], [brand], [status], [spokesPerRevolution], [maxSpokeLen], [range],
    [controls] (with [gain], [sea] and [rain]) and [streamUrl]. Whatever the
    state and the capabilities lack, [name] is never undefined, all of
    [brand], [status], [spokesPerRevolution], [maxSpokeLen], [range] and the
    three controls are truthy, and [streamUrl] is undefined. *)
Theorem getRadarInfo_fills_every_field radarId state capabilities h :
  MayaraClient.getState env client radarId h = (Normal state, h) ->
  truthy state = true ->
  MayaraClient.getCapabilities env client radarId h = (Normal capabilities, h) ->
  exists name brand status spokes len range gain sea rain,
    RadarProvider.getRadarInfo env client radarId h
    = (Normal (JObj [("id", JStr radarId);
                     ("name", name);
                     ("brand", brand);
                     ("status", status);
                     ("spokesPerRevolution", spokes);
                     ("maxSpokeLen", len);
                     ("range", range);
                     ("controls", JObj [("gain", gain); ("sea", sea); ("rain", rain)]);
                     ("streamUrl", JUndefined)]), h)
    /\ is_undefined name = false
    /\ truthy brand = true /\ truthy status = true
    /\ truthy spokes = true /\ truthy len = true /\ truthy range = true
    /\ truthy gain = true /\ truthy sea = true /\ truthy rain = true.
Proof.
  intros Es Hs Ec. pose proof (truthy_not_nullish _ Hs) as Hns.
  unfold RadarProvider.getRadarInfo, try_catch.
  rewrite (bind_eq _ _ _ _ _ Es), Hs. cbn [negb].
  rewrite (bind_eq _ _ _ _ _ Ec).
  destruct (get_opt_defined env capabilities "model" h) as (model & Emodel).
  rewrite (bind_eq _ _ _ _ _ Emodel).
  assert (exists name,
             (if truthy model
              then
                let* make := get env capabilities "make" in
                let* model0 := get env capabilities "model" in
                ret (JStr (String_trim env (ToString env (js_or make (JStr ""))
                                            +:+ " " +:+ ToString env model0)))
              else ret (JStr radarId)) h = (Normal name, h)
             /\ is_undefined name = false) as (name & Ename & Hname).
  { destruct (truthy model) eqn:Hm; [|by eexists].
    assert (nullish capabilities = false) as Hnc.
    { destruct (nullish capabilities) eqn:Hn; [|done].
      unfold get_opt in Emodel. rewrite Hn in Emodel. unfold ret in Emodel.
      by simplify_eq. }
    destruct (get_defined env capabilities "make" h Hnc) as (make & Emake).
    destruct (get_defined env capabilities "model" h Hnc) as (model0 & Emodel0).
    rewrite (bind_eq _ _ _ _ _ Emake), (bind_eq _ _ _ _ _ Emodel0). by eexists. }
  rewrite (bind_eq _ _ _ _ _ Ename).
  destruct (get_opt_defined env capabilities "make" h) as (make & E1).
  rewrite (bind_eq _ _ _ _ _ E1).
  destruct (get_defined env state "status" h Hns) as (status & E2).
  rewrite (bind_eq _ _ _ _ _ E2).
  destruct (get_opt_defined env capabilities "characteristics" h) as (chars & E3).
  rewrite (bind_eq _ _ _ _ _ E3).
  destruct (get_opt_defined env chars "spokesPerRevolution" h) as (spokes & E4).
  rewrite (bind_eq _ _ _ _ _ E4), (bind_eq _ _ _ _ _ E3).
  destruct (get_opt_defined env chars "maxSpokeLength" h) as (len & E5).
  rewrite (bind_eq _ _ _ _ _ E5).
  destruct (get_defined env state "controls" h Hns) as (controls & E6).
  rewrite (bind_eq _ _ _ _ _ E6).
  destruct (get_opt_defined env controls "range" h) as (range & E7).
  rewrite (bind_eq _ _ _ _ _ E7), (bind_eq _ _ _ _ _ E6).
  destruct (get_opt_defined env controls "gain" h) as (gain & E8).
  rewrite (bind_eq _ _ _ _ _ E8), (bind_eq _ _ _ _ _ E6).
  destruct (get_opt_defined env controls "sea" h) as (sea & E9).
  rewrite (bind_eq _ _ _ _ _ E9), (bind_eq _ _ _ _ _ E6).
  destruct (get_opt_defined env controls "rain" h) as (rain & E10).
  rewrite (bind_eq _ _ _ _ _ E10).
  unfold ret. eexists _, _, _, _, _, _, _, _, _. split; [reflexivity|].
  split; [done|]. repeat split; by apply js_or_truthy.
Qed.

(** X15. When the state of a radar can be read, [getControl] does not
    throw and never returns undefined; for a null or undefined state it
    returns null. *)
Theorem getControl_never_undefined radarId controlId state h :
  MayaraClient.getState env client radarId h = (Normal state, h) ->
  exists v,
    RadarProvider.getControl env client radarId controlId h = (Normal v, h)
    /\ is_undefined v = false
    /\ if nullish state then v = JNull else True.
Proof.
  intros Es. unfold RadarProvider.getControl, try_catch.
  rewrite (bind_eq _ _ _ _ _ Es).
  destruct (nullish state) eqn:Hn.
  - unfold get_opt, bind, ret. rewrite Hn. by eexists.
  - destruct (get_opt_defined env state "controls" h) as (controls & E1).
    rewrite (bind_eq _ _ _ _ _ E1).
    destruct (get_opt_defined env controls controlId h) as (value & E2).
    rewrite (bind_eq _ _ _ _ _ E2). unfold ret.
    eexists. split; [reflexivity|]. split; [apply js_coalesce_defined|done].
Qed.

(** X16. [setGain], [setSea] and [setRain] called with null or undefined
    in place of the setting return false after logging the TypeError of
    reading [.auto], whatever the backend would have answered. *)
Theorem clutter_setters_reject_a_missing_setting radarId setting h :
  nullish setting = true ->
  let msg := TypeError_message env setting (Some "auto") in
  RadarProvider.setGain env client radarId setting h
  = (Normal (JBool false),
     add_effects h [Debug ("setGain error for " +:+ radarId +:+ ": " +:+ msg)])
  /\ RadarProvider.setSea env client radarId setting h
     = (Normal (JBool false),
        add_effects h [Debug ("setSea error for " +:+ radarId +:+ ": " +:+ msg)])
  /\ RadarProvider.setRain env client radarId setting h
     = (Normal (JBool false),
        add_effects h [Debug ("setRain error for " +:+ radarId +:+ ": " +:+ msg)]).
Proof.
  intros Hn msg. subst msg. destruct setting; try done; repeat split.
Qed.

(** X17. When the backend's answer to an acquire request resolves to null
    (a 2xx status with no body), [acquireTarget] reports a failure whose
    error is the TypeError of reading [.targetId], and logs it. *)
Theorem acquireTarget_needs_an_answer radarId bearing distance result h :
  MayaraClient.acquireTarget env client radarId bearing distance h = (Normal result, h) ->
  nullish result = true ->
  RadarProvider.acquireTarget env client radarId bearing distance h
  = (Normal (JObj [("success", JBool false);
                   ("error", JStr (TypeError_message env result (Some "targetId")))]),
     add_effects h [Debug ("acquireTarget error for " +:+ radarId +:+ ": "
                           +:+ TypeError_message env result (Some "targetId"))]).
Proof.
  intros E Hn. unfold RadarProvider.acquireTarget, try_catch.
  rewrite (bind_eq _ _ _ _ _ E). by destruct result.
Qed.
End ProviderFacts.

Lemma boolean_mutators_report_the_status_witness :
  (forall req, transport backend_garbled req
               = Response 200 :: (ResData <$> ["not "; "json"]) ++ ResEnd :: [])
  /\ RadarProvider.setPower backend_garbled sample_client "A" (JStr "transmit") (mkHost [] 0)
     = (Normal (JBool true), mkHost [] 0).
Proof.
  split; [reflexivity|].
  exact (proj1 (boolean_mutators_report_the_status backend_garbled sample_client "A" "gain"
                  (JStr "transmit") (JNum 7) (mkHost [] 0) 200 ["not "; "json"] []
                  (fun _ => eq_refl))).
Defined.

Lemma getRadars_lists_the_keys_witness :
  is_2xx 200 = true
  /\ body_text [radars_B_A_head; radars_B_A_tail] <> ""
  /\ JSON_parse backend_two_radars (body_text [radars_B_A_head; radars_B_A_tail])
     = Some (JObj [("B", JObj []); ("A", JObj [])])
  /\ RadarProvider.getRadars backend_two_radars sample_client (mkHost [] 0)
     = (Normal (JArr [JStr "B"; JStr "A"]), mkHost [] 0).
Proof.
  assert (body_text [radars_B_A_head; radars_B_A_tail] <> "") as Hne by done.
  split; [reflexivity|]. split; [exact Hne|]. split; [reflexivity|].
  exact (getRadars_lists_the_keys backend_two_radars sample_client (mkHost [] 0) 200
           [radars_B_A_head; radars_B_A_tail] [] [("B", JObj []); ("A", JObj [])]
           eq_refl eq_refl Hne eq_refl).
Defined.

Lemma getRadars_of_an_empty_body_witness :
  is_2xx 204 = true
  /\ RadarProvider.getRadars backend_silent sample_client (mkHost [] 0)
     = (Normal (JArr []),
        mkHost [Debug "getRadars error: Cannot read properties of null"] 0).
Proof.
  split; [reflexivity|].
  exact (getRadars_of_an_empty_body backend_silent sample_client (mkHost [] 0) 204 []
           eq_refl eq_refl).
Defined.

Lemma getRadars_numbers_the_code_units_of_a_garbled_body_witness :
  is_2xx 200 = true
  /\ body_text ["héllo €"] <> ""
  /\ JSON_parse backend_accented (body_text ["héllo €"]) = None
  /\ String.length (body_text ["héllo €"]) = 10%nat
  /\ RadarProvider.getRadars backend_accented sample_client (mkHost [] 0)
     = (Normal (JArr (JStr <$> ["0"; "1"; "2"; "3"; "4"; "5"; "6"])), mkHost [] 0).
Proof.
  assert (body_text ["héllo €"] <> "") as Hne by done.
  split; [reflexivity|]. split; [exact Hne|]. split; [reflexivity|].
  split; [reflexivity|].
  exact (getRadars_numbers_the_code_units_of_a_garbled_body backend_accented sample_client
           (mkHost [] 0) 200 ["héllo €"] [] eq_refl eq_refl Hne eq_refl).
Defined.

Lemma getRadarInfo_without_state_witness :
  MayaraClient.getState backend_silent sample_client "A" (mkHost [] 0)
  = (Normal JNull, mkHost [] 0)
  /\ truthy JNull = false
  /\ RadarProvider.getRadarInfo backend_silent sample_client "A" (mkHost [] 0)
     = (Normal JNull, mkHost [] 0).
Proof.
  split; [reflexivity|]. split; [reflexivity|].
  exact (getRadarInfo_without_state backend_silent sample_client "A" JNull (mkHost [] 0)
           eq_refl eq_refl).
Defined.

Lemma getRadarInfo_fills_every_field_witness :
  MayaraClient.getState backend_empty sample_client "A" (mkHost [] 0)
  = (Normal (JObj []), mkHost [] 0)
  /\ truthy (JObj []) = true
  /\ MayaraClient.getCapabilities backend_empty sample_client "A" (mkHost [] 0)
     = (Normal (JObj []), mkHost [] 0)
  /\ exists name brand status spokes len range gain sea rain,
      RadarProvider.getRadarInfo backend_empty sample_client "A" (mkHost [] 0)
      = (Normal (JObj [("id", JStr "A");
                       ("name", name);
                       ("brand", brand);
                       ("status", status);
                       ("spokesPerRevolution", spokes);
                       ("maxSpokeLen", len);
                       ("range", range);
                       ("controls", JObj [("gain", gain); ("sea", sea); ("rain", rain)]);
                       ("streamUrl", JUndefined)]), mkHost [] 0)
      /\ is_undefined name = false
      /\ truthy brand = true /\ truthy status = true
      /\ truthy spokes = true /\ truthy len = true /\ truthy range = true
      /\ truthy gain = true /\ truthy sea = true /\ truthy rain = true.
Proof.
  split; [reflexivity|]. split; [reflexivity|]. split; [reflexivity|].
  exact (getRadarInfo_fills_every_field backend_empty sample_client "A" (JObj []) (JObj [])
           (mkHost [] 0) eq_refl eq_refl eq_refl).
Defined.

Lemma getControl_never_undefined_witness :
  MayaraClient.getState backend_empty sample_client "A" (mkHost [] 0)
  = (Normal (JObj []), mkHost [] 0)
  /\ exists v,
      RadarProvider.getControl backend_empty sample_client "A" "gain" (mkHost [] 0)
      = (Normal v, mkHost [] 0)
      /\ is_undefined v = false
      /\ if nullish (JObj []) then v = JNull else True.
Proof.
  split; [reflexivity|].
  exact (getControl_never_undefined backend_empty sample_client "A" "gain" (JObj [])
           (mkHost [] 0) eq_refl).
Defined.

Lemma clutter_setters_reject_a_missing_setting_witness :
  nullish JUndefined = true
  /\ RadarProvider.setGain backend_empty sample_client "A" JUndefined (mkHost [] 0)
     = (Normal (JBool false),
        mkHost [Debug "setGain error for A: Cannot read properties of null"] 0).
Proof.
  split; [reflexivity|].
  exact (proj1 (clutter_setters_reject_a_missing_setting backend_empty sample_client "A"
                  JUndefined (mkHost [] 0) eq_refl)).
Defined.

Lemma acquireTarget_needs_an_answer_witness :
  MayaraClient.acquireTarget backend_silent sample_client "A" (JNum 90) (JNum 1000)
    (mkHost [] 0)
  = (Normal JNull, mkHost [] 0)
  /\ nullish JNull = true
  /\ RadarProvider.acquireTarget backend_silent sample_client "A" (JNum 90) (JNum 1000)
       (mkHost [] 0)
     = (Normal (JObj [("success", JBool false);
                      ("error", JStr "Cannot read properties of null")]),
        mkHost [Debug "acquireTarget error for A: Cannot read properties of null"] 0).
Proof.
  split; [reflexivity|]. split; [reflexivity|].
  exact (acquireTarget_needs_an_answer backend_silent sample_client "A" (JNum 90)
           (JNum 1000) JNull (mkHost [] 0) eq_refl eq_refl).
Defined.

(** ** Passes *)

(** *** More on sets *)

Lemma members_new_Set xs : members (new_Set xs) = members xs.
Proof.
  unfold new_Set.
  assert (forall s, members (foldl (fun s x => Set_add x s) s xs) = members s ∪ members xs)
    as H.
  { induction xs as [|x xs IH]; intros s; simpl; [set_solver|].
    rewrite IH, members_Set_add. set_solver. }
  rewrite H. set_solver.
Qed.

Lemma members_add_all known xs :
  members (foldl (fun k x => Set_add x k) known xs) = members known ∪ members xs.
Proof.
  revert known. induction xs as [|x xs IH]; intros known; simpl; [set_solver|].
  rewrite IH, members_Set_add. set_solver.
Qed.

Lemma elem_of_drop_unseen currentIds xs : forall known y,
  y ∈ drop_unseen currentIds known xs <-> y ∈ known /\ (y ∈ xs -> y ∈ currentIds).
Proof.
  unfold drop_unseen.
  induction xs as [|x xs IH]; intros known y; simpl.
  - split; [intros ?; split; [done|]; by intros ?%elem_of_nil|tauto].
  - rewrite IH. destruct (Set_has currentIds x) eqn:E.
    + apply Set_has_true in E. rewrite elem_of_cons. split.
      * intros [? H1]. split; [done|]. intros [->|?]; auto.
      * intros [? H1]. split; [done|]. auto.
    + apply Set_has_false in E. unfold Set_delete.
      rewrite list_elem_of_filter, elem_of_cons. split.
      * intros [[Hne ?] H1]. split; [done|]. intros [->|?]; [done|auto].
      * intros [? H1]. split; [split; [|done]|auto].
        intros ->. apply E, H1. by left.
Qed.

(** *** More on loops *)

Lemma for_of_post {W A} (R : W -> W -> Prop) (body : A -> M W unit) xs :
  (forall w, R w w) ->
  (forall w1 w2 w3, R w1 w2 -> R w2 w3 -> R w1 w3) ->
  (forall x w, R w (body x w).2 /\ is_pending (body x w).1 = false) ->
  forall w, R w (for_of xs body w).2 /\ is_pending (for_of xs body w).1 = false.
Proof.
  intros Hrefl Htrans Hbody. induction xs as [|x xs IH]; intros w; simpl.
  - split; [apply Hrefl|done].
  - destruct (Hbody x w) as [H1 H2]. unfold bind.
    destruct (body x w) as [[[]| |] w1]; simpl in *; try done.
    destruct (IH w1) as [H3 H4]. split; [by eapply Htrans|done].
Qed.

Lemma for_of_fold {W A B} (I : W -> Prop) (f : W -> B) (step : B -> A -> B)
      (body : A -> M W unit) xs :
  (forall x w, I w -> exists w', body x w = (Normal tt, w') /\ I w' /\ f w' = step (f w) x) ->
  forall w, I w ->
    exists w', for_of xs body w = (Normal tt, w') /\ I w' /\ f w' = foldl step (f w) xs.
Proof.
  intros Hbody. induction xs as [|x xs IH]; intros w Hw; simpl.
  - by exists w.
  - destruct (Hbody x w Hw) as (w1 & E1 & H1 & F1).
    destruct (IH w1 H1) as (w2 & E2 & H2 & F2).
    exists w2. rewrite (bind_eq _ _ _ _ _ E1), E2, F2, F1. done.
Qed.

Lemma for_of_idle {W A} (body : A -> M W unit) xs w :
  (forall x, x ∈ xs -> body x w = (Normal tt, w)) ->
  for_of xs body w = (Normal tt, w).
Proof.
  induction xs as [|x xs IH]; intros H; simpl; [done|].
  rewrite (bind_eq _ _ _ _ _ (H x ltac:(by left))).
  apply IH. intros y Hy. apply H. by right.
Qed.

Lemma consistent_world_AB : consistent (Plugin.vars world_AB).
Proof.
  unfold consistent. split; [|split].
  - cbn. set_solver.
  - apply (bool_decide_unpack _). reflexivity.
  - apply (bool_decide_unpack _). reflexivity.
Qed.

Section Passes.
Context (env : Env) (app : App.t) (settings : Settings.t).

Lemma add_radar_frame radarId w :
  frame w (Plugin.add_radar env app settings radarId w).2
  /\ is_pending (Plugin.add_radar env app settings radarId w).1 = false.
Proof.
  destruct (Plugin.client (Plugin.vars w)) as [c|] eqn:Ec.
  - destruct (add_radar_ok env app settings radarId w) as (w' & E & F & _); [by eexists|].
    by rewrite E.
  - destruct w as [[c p fws d r ic known] h ti infl]. simpl in Ec. subst c.
    unfold Plugin.add_radar, bind, Plugin.read, Plugin.debug, Plugin.lift, Plugin.write,
      emit, ret, throw. plugin_cbn.
    destruct (Set_has known radarId); [done|].
    destruct (App.binaryStreamManager app); done.
Qed.

Lemma remove_radar_frame currentIds radarId w :
  frame w (Plugin.remove_radar env currentIds radarId w).2
  /\ is_pending (Plugin.remove_radar env currentIds radarId w).1 = false.
Proof.
  destruct (remove_radar_ok env app currentIds radarId w) as (w' & E & F & _).
  by rewrite E.
Qed.

(** X20. Whether a reconciliation pass completes or throws (the client is
    null once the plugin is stopped), it changes nothing but [knownRadars],
    [spokeForwarders] and the host: the client, the provider, both interval
    handles, [isConnected], the running timers and the requests in flight
    are as before. It never suspends. *)
Theorem updateRadars_touches_only_relays radarIds w :
  exists r known fws h,
    Plugin.updateRadars env app radarIds settings w = (r, touch w known fws h)
    /\ is_pending r = false.
Proof.
  assert (frame w (Plugin.updateRadars env app radarIds settings w).2
          /\ is_pending (Plugin.updateRadars env app radarIds settings w).1 = false)
    as [F P].
  { unfold Plugin.updateRadars.
    destruct (for_of_post frame (Plugin.add_radar env app settings) (new_Set radarIds)
                frame_refl frame_trans add_radar_frame w) as [F1 P1].
    unfold bind at 1 3.
    destruct (for_of (new_Set radarIds) (Plugin.add_radar env app settings) w)
      as [[[]| |] w1]; simpl in *; try done.
    unfold bind, Plugin.read.
    destruct (for_of_post frame (Plugin.remove_radar env (new_Set radarIds))
                (Plugin.knownRadars (Plugin.vars w1))
                frame_refl frame_trans (remove_radar_frame (new_Set radarIds)) w1)
      as [F2 P2].
    split; [by eapply frame_trans|done]. }
  destruct (Plugin.updateRadars env app radarIds settings w) as [r w'].
  simpl in *. rewrite F. eauto 10.
Qed.

Lemma add_radar_known_after radarId w :
  is_Some (Plugin.client (Plugin.vars w)) ->
  exists w', Plugin.add_radar env app settings radarId w = (Normal tt, w')
             /\ is_Some (Plugin.client (Plugin.vars w'))
             /\ Plugin.knownRadars (Plugin.vars w')
                = Set_add radarId (Plugin.knownRadars (Plugin.vars w)).
Proof.
  intros Hc.
  destruct (Set_has (Plugin.knownRadars (Plugin.vars w)) radarId) eqn:Ehas.
  - exists w. rewrite add_radar_known by done. unfold Set_add. by rewrite Ehas.
  - destruct Hc as [c Hc].
    destruct w as [[c0 p fws d r ic known] h ti infl]. simpl in *. subst c0.
    unfold Plugin.add_radar, bind, Plugin.read, Plugin.debug, Plugin.lift, Plugin.write,
      emit, ret, throw. plugin_cbn. rewrite Ehas.
    destruct (App.binaryStreamManager app).
    + cbn -[SpokeForwarder.start SpokeForwarder.constructor String.append Set_add Map_set].
      match goal with
      | |- context [SpokeForwarder.start env ?fw ?h0] =>
          destruct (start_total env fw h0) as (fw' & h' & Estart); rewrite Estart
      end.
      eexists. split; [reflexivity|]. by split; [eexists|].
    + eexists. split; [reflexivity|]. by split; [eexists|].
Qed.

Lemma remove_radar_known_after currentIds radarId w :
  exists w', Plugin.remove_radar env currentIds radarId w = (Normal tt, w')
             /\ Plugin.knownRadars (Plugin.vars w')
                = if Set_has currentIds radarId then Plugin.knownRadars (Plugin.vars w)
                  else Set_delete radarId (Plugin.knownRadars (Plugin.vars w)).
Proof.
  destruct (Set_has currentIds radarId) eqn:Ecur.
  - exists w. by rewrite remove_radar_current.
  - destruct w as [[c0 p fws d r ic known] h ti infl].
    unfold Plugin.remove_radar, bind, Plugin.read, Plugin.debug, Plugin.lift, Plugin.write,
      emit, ret. rewrite Ecur. plugin_cbn.
    destruct (Map_get fws radarId) as [fw|].
    + cbn -[SpokeForwarder.stop String.append Set_delete Map_delete].
      match goal with
      | |- context [SpokeForwarder.stop env ?fw ?h0] =>
          destruct (stop_total env fw h0) as (fw' & h' & Estop); rewrite Estop
      end.
      eexists. split; reflexivity.
    + eexists. split; reflexivity.
Qed.

Lemma updateRadars_known radarIds w :
  is_Some (Plugin.client (Plugin.vars w)) ->
  exists w',
    Plugin.updateRadars env app radarIds settings w = (Normal tt, w')
    /\ members (Plugin.knownRadars (Plugin.vars w')) = members radarIds.
Proof.
  intros Hc. unfold Plugin.updateRadars.
  destruct (for_of_fold (fun w => is_Some (Plugin.client (Plugin.vars w)))
              (fun w => Plugin.knownRadars (Plugin.vars w))
              (fun k x => Set_add x k)
              (Plugin.add_radar env app settings) (new_Set radarIds)) with (w := w)
    as (w1 & E1 & _ & K1); [|done|].
  { intros x w0 H0. destruct (add_radar_known_after x w0 H0) as (w0' & ? & ? & ?).
    by exists w0'. }
  rewrite (bind_eq _ _ _ _ _ E1). unfold bind at 1, Plugin.read.
  destruct (for_of_fold (fun _ => True)
              (fun w => Plugin.knownRadars (Plugin.vars w))
              (fun k x => if Set_has (new_Set radarIds) x then k else Set_delete x k)
              (Plugin.remove_radar env (new_Set radarIds))
              (Plugin.knownRadars (Plugin.vars w1))) with (w := w1)
    as (w2 & E2 & _ & K2); [|done|].
  { intros x w0 _.
    destruct (remove_radar_known_after (new_Set radarIds) x w0) as (w0' & ? & ?).
    by exists w0'. }
  exists w2. split; [done|].
  fold (drop_unseen (new_Set radarIds) (Plugin.knownRadars (Plugin.vars w1))
          (Plugin.knownRadars (Plugin.vars w1))) in K2.
  apply set_eq. intros y.
  rewrite K2, !elem_of_list_to_set, elem_of_drop_unseen, K1.
  rewrite <- !(elem_of_list_to_set (C:=gset string)), members_add_all, members_new_Set.
  set_solver.
Qed.

(** X18. A reconciliation pass that runs while the client exists completes
    normally and leaves [knownRadars] equal, as a set, to the ids it was
    given, whatever was known before and however often an id is listed. If
    the sink is present and the two collections agreed before, the keys of
    [spokeForwarders] are those ids as well. *)
Theorem pass_makes_known_the_observed radarIds w :
  is_Some (Plugin.client (Plugin.vars w)) ->
  exists w',
    Plugin.updateRadars env app radarIds settings w = (Normal tt, w')
    /\ members (Plugin.knownRadars (Plugin.vars w')) = members radarIds
    /\ (App.binaryStreamManager app = true ->
        consistent (Plugin.vars w) ->
        keyset (Plugin.spokeForwarders (Plugin.vars w')) = members radarIds).
Proof.
  intros Hc.
  destruct (updateRadars_ok env app settings radarIds w Hc) as (w' & E & _ & Hcons).
  destruct (updateRadars_known radarIds w Hc) as (w'' & E' & Hk).
  assert (w'' = w') as -> by congruence.
  exists w'. split; [done|]. split; [done|].
  intros Hbsm Hw. destruct (Hcons Hbsm Hw) as (Heq & _ & _).
  by rewrite <- Heq.
Qed.

(** X19. A reconciliation pass over exactly the known ids, in any order
    and with repeats, does nothing: no relay is started or stopped, nothing
    is logged, and the state is as before. *)
Theorem pass_over_known_ids_does_nothing radarIds w :
  members (Plugin.knownRadars (Plugin.vars w)) = members radarIds ->
  Plugin.updateRadars env app radarIds settings w = (Normal tt, w).
Proof.
  intros Heq. unfold Plugin.updateRadars.
  erewrite bind_eq; cycle 1.
  { apply for_of_idle. intros x Hx. apply add_radar_known, Set_has_true.
    apply (elem_of_list_to_set (C:=gset string)). rewrite Heq, <- members_new_Set.
    by apply elem_of_list_to_set. }
  unfold bind, Plugin.read.
  apply for_of_idle. intros x Hx. apply remove_radar_current, Set_has_true.
  apply (elem_of_list_to_set (C:=gset string)). rewrite members_new_Set, <- Heq.
  by apply elem_of_list_to_set.
Qed.
End Passes.

Lemma pass_makes_known_the_observed_witness :
  is_Some (Plugin.client (Plugin.vars world_AB))
  /\ App.binaryStreamManager app_full = true
  /\ consistent (Plugin.vars world_AB)
  /\ exists w',
      Plugin.updateRadars backend_down app_full ["C"; "B"; "C"] sample_settings world_AB
      = (Normal tt, w')
      /\ members (Plugin.knownRadars (Plugin.vars w')) = members ["C"; "B"; "C"]
      /\ keyset (Plugin.spokeForwarders (Plugin.vars w')) = members ["C"; "B"; "C"].
Proof.
  assert (is_Some (Plugin.client (Plugin.vars world_AB))) as Hc by (by eexists).
  split; [exact Hc|]. split; [reflexivity|]. split; [exact consistent_world_AB|].
  destruct (pass_makes_known_the_observed backend_down app_full sample_settings
              ["C"; "B"; "C"] world_AB Hc) as (w' & E & Hk & Hf).
  exists w'. split; [exact E|]. split; [exact Hk|].
  exact (Hf eq_refl consistent_world_AB).
Defined.

Lemma pass_over_known_ids_does_nothing_witness :
  members (Plugin.knownRadars (Plugin.vars world_AB)) = members ["B"; "A"; "B"]
  /\ Plugin.updateRadars backend_down app_full ["B"; "A"; "B"] sample_settings world_AB
     = (Normal tt, world_AB).
Proof.
  assert (members (Plugin.knownRadars (Plugin.vars world_AB)) = members ["B"; "A"; "B"])
    as Heq.
  { cbn. set_solver. }
  split; [exact Heq|].
  exact (pass_over_known_ids_does_nothing backend_down app_full sample_settings
           ["B"; "A"; "B"] world_AB Heq).
Defined.

(** ** Start, stop and the reconnect timer *)

Section PluginFacts.
Context (env : Env) (app : App.t).

Lemma stop_all fws w :
  for_of fws (fun forwarder =>
                let* _ := Plugin.lift (SpokeForwarder.stop env forwarder) in ret tt) w
  = (Normal tt,
     Plugin.mkWorld (Plugin.vars w)
       (add_effects (Plugin.host w) (concat (stop_effects <$> fws)))
       (Plugin.intervals w) (Plugin.inflight w)).
Proof.
  revert w. induction fws as [|fw fws IH]; intros w; simpl.
  - rewrite add_effects_nil. by destruct w.
  - unfold bind at 1, bind at 1, Plugin.lift at 1. rewrite stop_spec. unfold ret at 1.
    rewrite IH. cbn [Plugin.vars Plugin.host Plugin.intervals Plugin.inflight].
    by rewrite add_effects_app.
Qed.

(** X21. What [plugin.stop] does, in full. It unregisters the provider if
    the radar API is there, logging what [unRegister] throws; clears the
    discovery and the reconnect interval if set; stops every relay, in
    table order; empties [spokeForwarders] and [knownRadars]; sets the
    client to null and [isConnected] to false; and sets the status to
    "Stopped". It completes normally. The provider is kept, and requests
    in flight stay in flight. *)
Theorem stop_tears_everything_down w :
  let s := Plugin.vars w in
  Plugin.stop env app w
  = (Normal tt,
     Plugin.mkWorld
       (Plugin.mk None (Plugin.provider s) [] None None false [])
       (add_effects (Plugin.host w)
          ([Debug "Stopping mayara-server-signalk-plugin"]
           ++ unregister_effects app
           ++ clear_effects (Plugin.discoveryInterval s)
           ++ clear_effects (Plugin.reconnectInterval s)
           ++ concat (stop_effects <$> Map_values (Plugin.spokeForwarders s))
           ++ [SetPluginStatus "Stopped"]))
       (cleared (Plugin.reconnectInterval s) (cleared (Plugin.discoveryInterval s)
                                                (Plugin.intervals w)))
       (Plugin.inflight w)).
Proof.
  destruct w as [[c p fws d r ic known] [tr n] ti infl]. cbn zeta. plugin_cbn.
  unfold Plugin.stop, unregister_effects.
  pose proof stop_all as Hall. unfold bind, Plugin.lift, ret in Hall.
  destruct (App.radarApi app) as [[re [ue|]]|], d as [d|], r as [r|];
    run_plugin; cbn -[for_of String.append delete insert SpokeForwarder.stop];
    rewrite Hall; plugin_cbn;
    unfold add_effects, clear_effects, cleared; cbn [trace next_handle message];
    rewrite <- ?app_assoc; reflexivity.
Qed.

Lemma stop_clears w :
  exists h ti,
    Plugin.stop env app w
    = (Normal tt,
       Plugin.mkWorld (Plugin.mk None (Plugin.provider (Plugin.vars w)) [] None None false [])
         h ti (Plugin.inflight w))
    /\ next_handle h = next_handle (Plugin.host w).
Proof.
  destruct w as [[c p fws d r ic known] [tr n] ti infl]. plugin_cbn.
  unfold Plugin.stop.
  pose proof stop_all as Hall. unfold bind, Plugin.lift, ret in Hall.
  destruct (App.radarApi app) as [[re [ue|]]|], d as [d|], r as [r|];
    run_plugin; cbn -[for_of String.append delete insert SpokeForwarder.stop];
    rewrite Hall; plugin_cbn;
    eexists _, _; (split; [reflexivity|done]).
Qed.

(** X22. A stopped plugin can start a timer again. If [plugin.stop] is
    called while the [getRadars] of [connectAndDiscover] or of a discovery
    poll is in flight and that request then fails, the [catch] block runs
    as ever: it sets the error status and starts a reconnect interval,
    which is running after the stop, with the client null. *)
Theorem failure_after_stop_arms_a_reconnect_timer w i k site evs e :
  Plugin.inflight w !! i = Some k ->
  reconnect_site k = Some site ->
  MayaraClient.settlement env evs = Some (Rejected e) ->
  let tm := next_handle (Plugin.host w) in
  let w' := Plugin.run env app w [Plugin.Stop; Plugin.Settle i evs] in
  Plugin.client (Plugin.vars w') = None
  /\ Plugin.discoveryInterval (Plugin.vars w') = None
  /\ Plugin.reconnectInterval (Plugin.vars w') = Some tm
  /\ Plugin.intervals w' !! tm = Some (Plugin.Reconnect site (settings_of k))
  /\ last (trace (Plugin.host w'))
     = Some (SetInterval tm (Plugin.reconnect_ms (settings_of k)))
  /\ SetPluginError (failure_status k e) ∈ trace (Plugin.host w').
Proof.
  intros Hk Hsite Hevs tm w'. subst tm w'.
  cbn [Plugin.run foldl]. unfold Plugin.step. cbn [Plugin.handle].
  destruct (stop_clears w) as (h & ti & -> & Hn). cbn [snd Plugin.inflight].
  rewrite Hk, Hevs. cbn [Plugin.completion_of].
  rewrite <- Hn. destruct h as [tr n].
  destruct k as [s|s|? s]; [| |done]; simplify_eq/=;
    unfold Plugin.unpark, Plugin.detach, Plugin.resume, Plugin.connectAndDiscover_resume,
      Plugin.pollForRadarChanges_resume;
    run_plugin; plugin_cbn; cbn [snd Plugin.intervals Plugin.host Plugin.vars];
    rewrite lookup_insert_eq, !last_snoc;
    (repeat split; try done); set_solver.
Qed.

(** X23. [plugin.start] completes normally, builds the client and the
    provider from the settings, and starts no timer. It sends the first
    [getRadars] exactly when the radar API is there and [register] did not
    throw; its last effect is then the log line of the registration, and
    otherwise an error status. *)
Theorem start_sends_a_request_only_when_registered settings w :
  exists h,
    Plugin.start env app settings w
    = (Normal tt,
       Plugin.mkWorld
         (Plugin.set_provider
            (Some (MayaraClient.constructor
                     (MayaraClient.mkOptions
                        (or_string (Settings.host settings) "localhost")
                        (or_Z (Settings.port settings) 6502)
                        (Some (default false (Settings.secure settings))) None)))
            (Plugin.set_client
               (Some (MayaraClient.constructor
                        (MayaraClient.mkOptions
                           (or_string (Settings.host settings) "localhost")
                           (or_Z (Settings.port settings) 6502)
                           (Some (default false (Settings.secure settings))) None)))
               (Plugin.vars w)))
         h (Plugin.intervals w)
         (Plugin.inflight w
          ++ if discovering app then [Plugin.AwaitStartup settings] else []))
    /\ next_handle h = next_handle (Plugin.host w)
    /\ exists msg,
         last (trace h) = Some (if discovering app
                                then Debug "Registered as radar provider"
                                else SetPluginError msg).
Proof.
  destruct w as [[c p fws d r ic known] [tr n] ti infl].
  unfold Plugin.start, discovering.
  destruct (App.radarApi app) as [[[re|] ue]|];
    unfold Plugin.connectAndDiscover, Plugin.call_getRadars, Plugin.detach, Plugin.park;
    run_plugin; plugin_cbn; cbn [snd Plugin.vars Plugin.host Plugin.intervals
                                    Plugin.inflight Plugin.client];
    rewrite ?bool_decide_eq_true_2, ?bool_decide_eq_false_2 by done;
    rewrite ?app_nil_r; eexists; (split; [reflexivity|]); (split; [done|]);
    plugin_cbn; rewrite !last_snoc; first [by exists ""|by eexists].
Qed.

Lemma failed_round site settings tm evs e w :
  Plugin.intervals w !! tm = Some (Plugin.Reconnect site settings) ->
  is_Some (Plugin.client (Plugin.vars w)) ->
  Plugin.inflight w = [] ->
  MayaraClient.settlement env evs = Some (Rejected e) ->
  Plugin.run env app w [Plugin.Tick tm; Plugin.Settle 0 evs]
  = Plugin.mkWorld (Plugin.vars w)
      (add_effects (Plugin.host w) (reconnect_failure_log site (message e)))
      (Plugin.intervals w) [].
Proof.
  destruct w as [[c p fws d r ic known] [tr n] ti infl]. plugin_cbn.
  intros Htm [c0 ->] -> Hevs.
  cbn [Plugin.run foldl]. unfold Plugin.step at 2. cbn [Plugin.handle Plugin.intervals].
  rewrite Htm. unfold Plugin.callback, Plugin.detach, Plugin.call_getRadars, Plugin.park.
  run_plugin. plugin_cbn. cbn [snd].
  unfold Plugin.step. cbn [Plugin.handle Plugin.inflight].
  change ([] ++ [Plugin.AwaitReconnect site settings])
    with [Plugin.AwaitReconnect site settings].
  cbn [lookup list_lookup]. rewrite Hevs. cbn [Plugin.completion_of].
  unfold Plugin.unpark, Plugin.detach, Plugin.resume, Plugin.reconnect_resume.
  destruct site; run_plugin; plugin_cbn; cbn; unfold add_effects; cbn;
    rewrite ?app_nil_r; reflexivity.
Qed.

(** X24. Reconnect attempts that fail change nothing. With a reconnect
    timer running and no request in flight, [n] rounds of the timer firing
    and its [getRadars] being rejected leave every variable and every timer
    as they were; each round logs one line when the timer was started by
    [connectAndDiscover] and nothing when it was started by
    [pollForRadarChanges]. *)
Theorem failed_reconnects_change_nothing site settings tm evs e n w :
  Plugin.intervals w !! tm = Some (Plugin.Reconnect site settings) ->
  is_Some (Plugin.client (Plugin.vars w)) ->
  Plugin.inflight w = [] ->
  MayaraClient.settlement env evs = Some (Rejected e) ->
  Plugin.run env app w (rounds tm evs n)
  = Plugin.mkWorld (Plugin.vars w)
      (add_effects (Plugin.host w)
         (concat (replicate n (reconnect_failure_log site (message e)))))
      (Plugin.intervals w) [].
Proof.
  intros Htm Hc Hk Hevs. revert w Htm Hc Hk.
  unfold rounds. induction n as [|n IH]; intros w Htm Hc Hk.
  - cbn. rewrite add_effects_nil. destruct w; cbn in *; by subst.
  - cbn [replicate concat]. unfold Plugin.run in *. rewrite foldl_app.
    pose proof (failed_round site settings tm evs e w Htm Hc Hk Hevs) as E.
    unfold Plugin.run in E. rewrite E. rewrite IH by done. plugin_cbn.
    by rewrite add_effects_app.
Qed.
End PluginFacts.

Lemma failure_after_stop_arms_a_reconnect_timer_witness :
  let down := [ReqError (mkError "connect ECONNREFUSED")] in
  let w' := Plugin.run backend_down app_full (started_world app_full)
              [Plugin.Stop; Plugin.Settle 0 down] in
  Plugin.inflight (started_world app_full) !! 0%nat
  = Some (Plugin.AwaitStartup sample_settings)
  /\ MayaraClient.settlement backend_down down
     = Some (Rejected (mkError "connect ECONNREFUSED"))
  /\ Plugin.client (Plugin.vars w') = None
  /\ Plugin.discoveryInterval (Plugin.vars w') = None
  /\ Plugin.reconnectInterval (Plugin.vars w') = Some 0%nat
  /\ Plugin.intervals w' !! 0%nat
     = Some (Plugin.Reconnect Plugin.InConnectAndDiscover sample_settings)
  /\ last (trace (Plugin.host w'))
     = Some (SetInterval 0 (Plugin.reconnect_ms sample_settings))
  /\ SetPluginError "Cannot connect to mayara-server: connect ECONNREFUSED"
     ∈ trace (Plugin.host w').
Proof.
  intros down w'. split; [reflexivity|]. split; [reflexivity|].
  exact (failure_after_stop_arms_a_reconnect_timer backend_down app_full
           (started_world app_full) 0 (Plugin.AwaitStartup sample_settings)
           Plugin.InConnectAndDiscover down (mkError "connect ECONNREFUSED")
           eq_refl eq_refl eq_refl).
Defined.

Lemma failed_reconnects_change_nothing_witness :
  let down := [ReqError (mkError "connect ECONNREFUSED")] in
  Plugin.intervals reconnecting_world !! 0%nat
  = Some (Plugin.Reconnect Plugin.InConnectAndDiscover sample_settings)
  /\ is_Some (Plugin.client (Plugin.vars reconnecting_world))
  /\ Plugin.inflight reconnecting_world = []
  /\ MayaraClient.settlement backend_down down
     = Some (Rejected (mkError "connect ECONNREFUSED"))
  /\ Plugin.run backend_down app_full reconnecting_world (rounds 0 down 3)
     = Plugin.mkWorld (Plugin.vars reconnecting_world)
         (add_effects (Plugin.host reconnecting_world)
            (concat (replicate 3 [Debug "Reconnect failed: connect ECONNREFUSED"])))
         (Plugin.intervals reconnecting_world) [].
Proof.
  intros down.
  assert (is_Some (Plugin.client (Plugin.vars reconnecting_world))) as Hc by (by eexists).
  split; [reflexivity|]. split; [exact Hc|]. split; [reflexivity|]. split; [reflexivity|].
  exact (failed_reconnects_change_nothing backend_down app_full
           Plugin.InConnectAndDiscover sample_settings 0 down
           (mkError "connect ECONNREFUSED") 3 reconnecting_world
           eq_refl Hc eq_refl eq_refl).
Defined.

(** ** Settled requests and the status route *)

Section PluginFacts2.
Context (env : Env) (app : App.t).

Lemma updateRadars_result radarIds settings w :
  is_Some (Plugin.client (Plugin.vars w)) ->
  exists known fws h,
    Plugin.updateRadars env app radarIds settings w = (Normal tt, touch w known fws h)
    /\ members known = members radarIds.
Proof.
  intros Hc.
  destruct (updateRadars_ok env app settings radarIds w Hc) as (w' & E & F & _).
  destruct (updateRadars_known env app settings radarIds w Hc) as (w'' & E' & Hk).
  assert (w'' = w') as -> by congruence.
  exists (Plugin.knownRadars (Plugin.vars w')), (Plugin.spokeForwarders (Plugin.vars w')),
    (Plugin.host w').
  split; [|done]. rewrite E. f_equal. exact F.
Qed.

Ltac run_updateRadars Hk :=
  match goal with
  | |- context [Plugin.updateRadars env app ?ids ?s ?w] =>
      let known := fresh "known" in
      let fws := fresh "fws" in
      let h := fresh "h" in
      let E := fresh "E" in
      destruct (updateRadars_result ids s w) as (known & fws & h & E & Hk);
      [plugin_cbn; eauto|rewrite E; clear E]
  end.



Lemma reconnect_round site settings tm evs r w :
  Plugin.intervals w !! tm = Some (Plugin.Reconnect site settings) ->
  is_Some (Plugin.client (Plugin.vars w)) ->
  Plugin.inflight w = [] ->
  MayaraClient.settlement env evs = Some r ->
  Plugin.run env app w [Plugin.Tick tm; Plugin.Settle 0 evs]
  = (Plugin.reconnect_resume env app site settings (Plugin.completion_of r) w).2.
Proof.
  destruct w as [[c p fws d rc ic known] [tr n] ti infl]. plugin_cbn.
  intros Htm [c0 ->] -> Hevs.
  cbn [Plugin.run foldl]. unfold Plugin.step at 2. cbn [Plugin.handle Plugin.intervals].
  rewrite Htm. unfold Plugin.callback, Plugin.detach, Plugin.call_getRadars, Plugin.park.
  unfold Plugin.read, bind at 1. plugin_cbn. cbn [snd].
  unfold Plugin.step. cbn [Plugin.handle Plugin.inflight].
  change ([] ++ [Plugin.AwaitReconnect site settings])
    with [Plugin.AwaitReconnect site settings].
  cbn [lookup list_lookup]. rewrite Hevs.
  unfold Plugin.unpark, Plugin.detach, Plugin.resume, bind. reflexivity.
Qed.

(** X27. A 2xx answer without a body to a reconnect attempt leaves the
    plugin reporting itself connected while it goes on reconnecting: the
    callback sets [isConnected] before [Object.keys(null)] throws, and its
    [catch] block does not reset it. The reconnect timer keeps running and
    no discovery timer is started. *)
Theorem empty_answer_to_a_reconnect_marks_connected site settings tm statusCode rest w :
  Plugin.intervals w !! tm = Some (Plugin.Reconnect site settings) ->
  is_Some (Plugin.client (Plugin.vars w)) ->
  Plugin.inflight w = [] ->
  is_2xx statusCode = true ->
  Plugin.run env app w [Plugin.Tick tm; Plugin.Settle 0 (Response statusCode :: ResEnd :: rest)]
  = Plugin.mkWorld (Plugin.set_isConnected true (Plugin.vars w))
      (add_effects (Plugin.host w)
         (reconnect_failure_log site (TypeError_message env JNull None)))
      (Plugin.intervals w) [].
Proof.
  intros Htm Hc Hk H2xx.
  pose proof (complete_response_settles env statusCode [] rest) as Hevs.
  rewrite H2xx in Hevs. cbn [fmap list_fmap List.app body_text foldr] in Hevs.
  rewrite (reconnect_round site settings tm _ _ w Htm Hc Hk Hevs).
  destruct w as [[c p fws d rc ic known] [tr n] ti infl]. cbn in Hk. subst infl.
  unfold body_value. rewrite bool_decide_eq_true_2 by done.
  unfold Plugin.reconnect_resume. cbn [Plugin.completion_of].
  destruct site; run_plugin; plugin_cbn; cbn; unfold add_effects; cbn;
    rewrite ?app_nil_r; reflexivity.
Qed.

Lemma Map_get_entry {V} (m : list (string * V)) k v :
  NoDup (Map_keys m) -> (k, v) ∈ m -> Map_get m k = Some v.
Proof.
  unfold Map_keys. induction m as [|[k' v'] m IH]; simpl.
  - by intros _ ?%elem_of_nil.
  - intros [Hk' Hm]%NoDup_cons [?|Hin]%elem_of_cons; simplify_eq.
    + by rewrite bool_decide_eq_true_2.
    + rewrite bool_decide_eq_false_2; [by apply IH|].
      intros ->. apply Hk'. apply list_elem_of_fmap. by exists (k, v).
Qed.

(** X28. The [/status] route reports [isConnected], the known ids in
    insertion order, and one entry per relay, in table order, each with
    that relay's own [isConnected()]. (A table holds each key once.) *)
Theorem status_lists_each_relay_once s :
  NoDup (Map_keys (Plugin.spokeForwarders s)) ->
  Plugin.status s
  = (Plugin.isConnected s, Plugin.knownRadars s, relay_flags (Plugin.spokeForwarders s)).
Proof.
  intros Hnd. unfold Plugin.status, relay_flags, Map_keys. f_equal.
  rewrite <- list_fmap_compose. apply list_fmap_ext. intros i [k fw] Hi. simpl.
  rewrite (Map_get_entry _ k fw Hnd); [done|].
  by eapply list_elem_of_lookup_2.
Qed.
End PluginFacts2.



Lemma empty_answer_to_a_reconnect_marks_connected_witness :
  Plugin.intervals reconnecting_world !! 0%nat
  = Some (Plugin.Reconnect Plugin.InConnectAndDiscover sample_settings)
  /\ is_Some (Plugin.client (Plugin.vars reconnecting_world))
  /\ Plugin.inflight reconnecting_world = []
  /\ is_2xx 204 = true
  /\ Plugin.run backend_down app_full reconnecting_world
       [Plugin.Tick 0; Plugin.Settle 0 [Response 204; ResEnd]]
     = Plugin.mkWorld (Plugin.set_isConnected true (Plugin.vars reconnecting_world))
         (add_effects (Plugin.host reconnecting_world)
            [Debug "Reconnect failed: Cannot read properties of null"])
         (Plugin.intervals reconnecting_world) [].
Proof.
  assert (is_Some (Plugin.client (Plugin.vars reconnecting_world))) as Hc by (by eexists).
  split; [reflexivity|]. split; [exact Hc|]. split; [reflexivity|]. split; [reflexivity|].
  exact (empty_answer_to_a_reconnect_marks_connected backend_down app_full
           Plugin.InConnectAndDiscover sample_settings 0 204 [] reconnecting_world
           eq_refl Hc eq_refl eq_refl).
Defined.

Lemma status_lists_each_relay_once_witness :
  NoDup (Map_keys (Plugin.spokeForwarders (Plugin.vars world_AB)))
  /\ Plugin.status (Plugin.vars world_AB) = (true, ["A"; "B"], [("A", true); ("B", false)]).
Proof.
  assert (NoDup (Map_keys (Plugin.spokeForwarders (Plugin.vars world_AB)))) as Hnd.
  { apply (bool_decide_unpack _). reflexivity. }
  split; [exact Hnd|].
  exact (status_lists_each_relay_once (Plugin.vars world_AB) Hnd).
Defined.
